(** * DataSet_Cleanup: the survey cleaning pipeline and its reports

    A shallow embedding of [Cleanup.py] (function [clean_dataset]) and of the
    USD-conversion logic of [Analytics.py] (class [SalaryAnalytics]).

    Modelling choices, all of them about the pandas / Python library layer
    the two scripts are written against:

    - numbers are IEEE binary64 values ([PrimFloat.float]); a missing cell is
      the float NaN, as in pandas; an integer column is read as the floats
      of its values;
    - a text is read as a number the way the pandas tokenizer does it
      ([precise_xstrtod], then the words for infinity), in binary64;
    - text is a [string] of bytes; case mapping, [strip], [title] and the
      regular expression class [\s] are Python's on ASCII text (non-ASCII
      bytes are left alone and are never whitespace), so the statements
      that depend on them are made for ASCII text ([ascii_text],
      [ascii_frame]);
    - a frame is its list of columns (label and dtype) and its list of rows;
      a label is looked up at its first position, which is pandas' column
      when the labels are distinct ([distinct_labels]);
    - [Series.mean] and [Series.std] skip NaN, sum as NumPy does over a
      float64 array (pairwise), and [std] has the [n - 1] denominator (NaN
      for fewer than two values);
    - the [.str] accessor raises [AttributeError] on a column whose dtype is
      numeric, which is what [read_csv] infers for a column with no text in
      it (an entirely blank column included);
    - the folder the cleanup script writes into is a finite map from file
      names to frames; what [read_csv] makes of a written file is a
      parameter of the analytics ([Loader.files]). *)

From Stdlib Require Import Bool Arith ZArith NArith Lia List String Ascii Floats.
From Stdlib Require Import Permutation Sorted.
Import ListNotations.

Set Implicit Arguments.
Set Warnings "-inexact-float".

(* ================================================================== *)
(** * Python [str] methods (ASCII fragment) *)

Module PyStr.

Local Open Scope string_scope.

(** [str.isspace] on one ASCII character: TAB, LF, VT, FF, CR, the four
    separators 0x1c-0x1f and the blank. *)
Definition is_space (c : ascii) : bool :=
  let n := N_of_ascii c in
  ((9 <=? n) && (n <=? 13) || (28 <=? n) && (n <=? 32))%N.

Definition is_upper (c : ascii) : bool :=
  let n := N_of_ascii c in ((65 <=? n) && (n <=? 90))%N.

Definition is_lower (c : ascii) : bool :=
  let n := N_of_ascii c in ((97 <=? n) && (n <=? 122))%N.

Definition to_lower (c : ascii) : ascii :=
  if is_upper c then ascii_of_N (N_of_ascii c + 32) else c.

Definition to_upper (c : ascii) : ascii :=
  if is_lower c then ascii_of_N (N_of_ascii c - 32) else c.

(** [s.lower()] and [s.upper()] *)
Fixpoint lower (s : string) : string :=
  match s with
  | EmptyString => EmptyString
  | String c t => String (to_lower c) (lower t)
  end.

Fixpoint upper (s : string) : string :=
  match s with
  | EmptyString => EmptyString
  | String c t => String (to_upper c) (upper t)
  end.

(** [s.lstrip()], [s.rstrip()], [s.strip()] *)
Fixpoint lstrip (s : string) : string :=
  match s with
  | EmptyString => EmptyString
  | String c t => if is_space c then lstrip t else s
  end.

Fixpoint rstrip (s : string) : string :=
  match s with
  | EmptyString => EmptyString
  | String c t =>
      match rstrip t with
      | EmptyString => if is_space c then EmptyString else String c EmptyString
      | t' => String c t'
      end
  end.

Definition strip (s : string) : string := rstrip (lstrip s).

(** [s.title()]: a letter that follows a letter is lower-cased, any other
    letter is upper-cased. [cased] is Python's [previous_is_cased]. *)
Fixpoint title_from (cased : bool) (s : string) : string :=
  match s with
  | EmptyString => EmptyString
  | String c t =>
      if is_lower c || is_upper c
      then String (if cased then to_lower c else to_upper c) (title_from true t)
      else String c (title_from false t)
  end.

Definition title (s : string) : string := title_from false s.

(** [re.sub(r'\s+', ' ', s)]: every maximal run of whitespace becomes one
    blank. [in_run] says that the previous character was whitespace. *)
Fixpoint collapse_from (in_run : bool) (s : string) : string :=
  match s with
  | EmptyString => EmptyString
  | String c t =>
      if is_space c
      then (if in_run then collapse_from true t
            else String " " (collapse_from true t))
      else String c (collapse_from false t)
  end.

Definition collapse_ws (s : string) : string := collapse_from false s.

(** [s.replace(',', '')] *)
Fixpoint remove_commas (s : string) : string :=
  match s with
  | EmptyString => EmptyString
  | String c t =>
      if Ascii.eqb c "," then remove_commas t else String c (remove_commas t)
  end.

(** [d.get(k, default)] for a dict literal written as an association list
    (the literals of [Cleanup.py] have no repeated key). *)
Fixpoint dict_get {V : Type} (d : list (string * V)) (k : string) (default : V) : V :=
  match d with
  | [] => default
  | (k', v) :: d' => if String.eqb k k' then v else dict_get d' k default
  end.

Definition is_digit (c : ascii) : bool :=
  let n := N_of_ascii c in ((48 <=? n) && (n <=? 57))%N.

End PyStr.

(* ================================================================== *)
(** * The pandas layer: cells, frames, series statistics *)

Module Pandas.

Import PyStr.
Local Open Scope float_scope.

(** A cell is a number or a text; the missing value is the number NaN. *)
Inductive cell : Type :=
  | Num (f : float)
  | Str (s : string).

Definition NaN : cell := Num nan.

(** [pd.isna] / [pd.notna] on one cell *)
Definition isna (c : cell) : bool :=
  match c with
  | Num f => is_nan f
  | Str _ => false
  end.

Definition notna (c : cell) : bool := negb (isna c).

(** The dtype [read_csv] infers: [numeric] (int64, float64) when no cell of
    the column is text, [object] otherwise. *)
Inductive dtype : Type := numeric | object.

Record column : Type := Column { label : string; col_dtype : dtype }.

Definition row : Type := list cell.

Record DataFrame : Type := Frame { columns : list column; rows : list row }.

(** Exceptions of the library calls the pipeline makes. *)
Inductive exn : Type := AttributeError | KeyError | TypeError.

Inductive result (A : Type) : Type :=
  | Ok (a : A)
  | Raise (e : exn).

Arguments Ok {A} a.
Arguments Raise {A} e.

Definition bind {A B : Type} (m : result A) (k : A -> result B) : result B :=
  match m with
  | Ok a => k a
  | Raise e => Raise e
  end.

Notation "x <- m ;; k" := (bind m (fun x => k))
  (at level 61, m at next level, right associativity).

(** [field in df.columns] and the position of the column [df[field]] *)
Fixpoint col_index (field : string) (cols : list column) : option nat :=
  match cols with
  | [] => None
  | c :: cs =>
      if String.eqb field (label c) then Some 0%nat
      else option_map S (col_index field cs)
  end.

Definition has_column (field : string) (df : DataFrame) : bool :=
  match col_index field (columns df) with
  | Some _ => true
  | None => false
  end.

Definition get_cell (j : nat) (r : row) : cell := nth j r NaN.

(** [len(df)] *)
Definition len (df : DataFrame) : nat := List.length (rows df).

(** The values of column [j], top to bottom. *)
Definition series (j : nat) (df : DataFrame) : list cell :=
  map (get_cell j) (rows df).

Fixpoint update_nth {A : Type} (j : nat) (f : A -> A) (l : list A) : list A :=
  match l, j with
  | [], _ => []
  | x :: t, O => f x :: t
  | x :: t, S j' => x :: update_nth j' f t
  end.

(** [df[col] = df[col].map(f)], the column keeping or changing its dtype *)
Definition map_column (j : nat) (f : cell -> cell) (d : dtype -> dtype)
    (df : DataFrame) : DataFrame :=
  {| columns := update_nth j (fun c => Column (label c) (d (col_dtype c))) (columns df);
     rows := map (update_nth j f) (rows df) |}.

(** [df = df[mask]] for a row-wise mask *)
Definition filter_rows (keep : row -> bool) (df : DataFrame) : DataFrame :=
  {| columns := columns df; rows := filter keep (rows df) |}.

(** ** Numbers *)

Definition Z2float (z : Z) : float :=
  SF2Prim (binary_normalize prec emax z 0 false).

Definition float_of_nat (n : nat) : float := Z2float (Z.of_nat n).

(** *** Text to number

    [pd.to_numeric] reads a text with the converter of the pandas tokenizer,
    [precise_xstrtod] (decimal point [.], exponent mark [E], no thousands
    separator, trailing blanks skipped), and accepts the text when the
    converter reports no error and has consumed all of it; failing that, it
    accepts the words for infinity. The functions below follow the C code
    step by step, in binary64 arithmetic. *)

(** [isspace_ascii]: the blank, TAB, LF, VT, FF, CR *)
Definition is_c_space (c : ascii) : bool :=
  let n := N_of_ascii c in ((n =? 32) || (9 <=? n) && (n <=? 13))%N.

Fixpoint skip_spaces (s : string) : string :=
  match s with
  | String c t => if is_c_space c then skip_spaces t else s
  | EmptyString => s
  end.

Definition digit_value (c : ascii) : float :=
  Z2float (Z.of_N (N_of_ascii c - 48)).

(** The converter takes at most 17 digits into the number. *)
Definition max_digits : nat := 17.

(** Digits before the decimal point: a digit beyond the 17th raises the
    exponent instead of entering the number. *)
Fixpoint int_digits (number : float) (num_digits : nat) (exponent : Z) (s : string)
    : float * nat * Z * string :=
  match s with
  | String c t =>
      if is_digit c
      then if (num_digits <? max_digits)%nat
           then int_digits (number * 10 + digit_value c) (S num_digits) exponent t
           else int_digits number num_digits (exponent + 1) t
      else (number, num_digits, exponent, s)
  | EmptyString => (number, num_digits, exponent, s)
  end.

(** Digits after the decimal point: a digit beyond the 17th is consumed and
    dropped. *)
Fixpoint frac_digits (number : float) (num_digits num_decimals : nat) (s : string)
    : float * nat * nat * string :=
  match s with
  | String c t =>
      if is_digit c
      then if (num_digits <? max_digits)%nat
           then frac_digits (number * 10 + digit_value c) (S num_digits)
                  (S num_decimals) t
           else frac_digits number num_digits num_decimals t
      else (number, num_digits, num_decimals, s)
  | EmptyString => (number, num_digits, num_decimals, s)
  end.

(** Digits of the exponent: at most 17 are consumed. (The C code holds
    their value in an [int]; the value is exact here.) *)
Fixpoint exp_digits (n : Z) (num_digits : nat) (s : string) : Z * nat * string :=
  match s with
  | String c t =>
      if is_digit c && (num_digits <? max_digits)%nat
      then exp_digits (10 * n + Z.of_N (N_of_ascii c - 48)) (S num_digits) t
      else (n, num_digits, s)
  | EmptyString => (n, num_digits, s)
  end.

Definition read_sign (s : string) : bool * string :=
  match s with
  | String "-"%char t => (true, t)
  | String "+"%char t => (false, t)
  | _ => (false, s)
  end.

(** The table [e[]] of the converter: the doubles nearest the powers of ten. *)
Definition pow10 (k : Z) : float := Z2float (10 ^ k).

Definition is_infinite (f : float) : bool := (f =? infinity) || (f =? neg_infinity).

(** The number scaled by the decimal exponent; nothing on a range error. *)
Definition scale (number : float) (exponent : Z) : option float :=
  if (308 <? exponent)%Z then None
  else
    let number :=
      if (0 <? exponent)%Z then number * pow10 exponent
      else if (exponent <? -308)%Z
           then (if (exponent <? -616)%Z then 0
                 else number / pow10 (-308 - exponent) / pow10 308)
           else number / pow10 (- exponent) in
    if is_infinite number then None else Some number.

(** [to_double]: the value [precise_xstrtod] returns when it reports no
    error and stops at the end of the text. *)
Definition to_double (s : string) : option float :=
  let '(negative, p) := read_sign (skip_spaces s) in
  let '(number, num_digits, exponent, p) := int_digits 0 0 0 p in
  let '(number, num_digits, exponent, p) :=
    match p with
    | String "."%char t =>
        let '(number, num_digits, num_decimals, p) :=
          frac_digits number num_digits 0 t in
        (number, num_digits, (exponent - Z.of_nat num_decimals)%Z, p)
    | _ => (number, num_digits, exponent, p)
    end in
  if (num_digits =? 0)%nat then None
  else
    let number := if negative then - number else number in
    let after_exponent :=
      match p with
      | String c t =>
          if Ascii.eqb c "e" || Ascii.eqb c "E"
          then let '(negative, q) := read_sign t in
               let '(n, k, q) := exp_digits 0 0 q in
               if (k =? 0)%nat then None
               else Some ((if negative then exponent - n else exponent + n)%Z, q)
          else Some (exponent, p)
      | EmptyString => Some (exponent, p)
      end in
    match after_exponent with
    | None => None
    | Some (exponent, p) =>
        match scale number exponent, skip_spaces p with
        | Some number, EmptyString => Some number
        | _, _ => None
        end
    end.

(** [floatify]: [to_double], else the words [inf] and [infinity] in any
    letter case, with an optional sign and nothing around them. *)
Definition floatify (s : string) : option float :=
  match to_double s with
  | Some f => Some f
  | None =>
      let '(negative, word) := read_sign s in
      if String.eqb (lower word) "inf" || String.eqb (lower word) "infinity"
      then Some (if negative then neg_infinity else infinity)
      else None
  end.

(** The text-to-number conversion of [pd.to_numeric(..., errors='coerce')]:
    a text [floatify] refuses is coerced to NaN. *)
Definition parse_float (s : string) : float :=
  match floatify s with
  | Some f => f
  | None => nan
  end.

(** [pd.to_numeric(col.astype(str).str.replace(',', ''), errors='coerce')]
    on one cell. A number is printed by [astype(str)] and read back as
    itself (a missing cell is printed [nan] and read back as NaN). *)
Definition to_numeric_cell (c : cell) : cell :=
  match c with
  | Num f => Num f
  | Str s => Num (parse_float (remove_commas s))
  end.

(** [col.fillna(v)] on one cell *)
Definition fillna (v : cell) (c : cell) : cell := if isna c then v else c.

(** [col.astype(str).str.strip() != ''] on one cell: a number never prints
    as blank text. *)
Definition astype_str_strip_nonempty (c : cell) : bool :=
  match c with
  | Num _ => true
  | Str s => negb (String.eqb (strip s) EmptyString)
  end.

(** [col > 0] on one cell of a numeric column (false on NaN) *)
Definition gt_zero (c : cell) : bool :=
  match c with
  | Num f => 0 <? f
  | Str _ => false
  end.

(** The float values of a numeric series that [mean] and [std] see: NaN is
    skipped ([skipna=True]). *)
Fixpoint valid_values (l : list cell) : list float :=
  match l with
  | [] => []
  | Num f :: t => if is_nan f then valid_values t else f :: valid_values t
  | Str _ :: t => valid_values t
  end.

(** *** Sums

    [Series.mean] and [Series.std] sum with NumPy's [add.reduce] over the
    float64 values of the column, which is the pairwise summation of
    [DOUBLE_pairwise_sum]: fewer than eight values are added one by one; up
    to 128 values are added into eight running sums, eight at a time, the
    eight sums are then added in pairs and the values left over one by one;
    a longer array is split near its middle, at a multiple of eight. *)

Definition add8 (r chunk : list float) : list float :=
  map (fun p => fst p + snd p) (combine r chunk).

(** The loop over the full groups of eight that follow the first group. *)
Fixpoint add_groups (groups : nat) (r l : list float) : list float * list float :=
  match groups with
  | O => (r, l)
  | S g => add_groups g (add8 r (firstn 8 l)) (skipn 8 l)
  end.

Definition sum_in_pairs (r : list float) : float :=
  match r with
  | [r0; r1; r2; r3; r4; r5; r6; r7] =>
      ((r0 + r1) + (r2 + r3)) + ((r4 + r5) + (r6 + r7))
  | _ => fold_left add r 0
  end.

(** [depth] bounds the number of halvings; the length of the list is ample
    (see [pairwise_sum_depth]). *)
Fixpoint pairwise_sum (depth : nat) (l : list float) : float :=
  let n := List.length l in
  if (n <? 8)%nat then fold_left add l 0
  else
    match depth with
    | S d =>
        if (n <=? 128)%nat
        then let '(r, rest) := add_groups (n / 8 - 1) (firstn 8 l) (skipn 8 l) in
             fold_left add rest (sum_in_pairs r)
        else let n2 := (n / 2 - (n / 2) mod 8)%nat in
             pairwise_sum d (firstn n2 l) + pairwise_sum d (skipn n2 l)
    | O => fold_left add l 0
    end.

Definition fsum (l : list float) : float := 0 + pairwise_sum (List.length l) l.

(** The values [mean] and [std] sum: a missing value counts as 0, in its
    place ([skipna=True]). *)
Definition filled_values (l : list cell) : list float :=
  map (fun c => match c with
                | Num f => if is_nan f then 0 else f
                | Str _ => 0
                end) l.

(** [Series.mean()]: the sum over the number of values that are not missing *)
Definition mean (l : list cell) : float :=
  fsum (filled_values l) / float_of_nat (List.length (valid_values l)).

(** [Series.std()], [ddof = 1]: NaN unless there are at least two values,
    else the square root of the summed squared deviations over [n - 1]. *)
Definition std (l : list cell) : float :=
  let v := valid_values l in
  let n := List.length v in
  if (n <=? 1)%nat then nan
  else
    let avg := fsum (filled_values l) / float_of_nat n in
    sqrt (fsum (map (fun c => match c with
                              | Num f => if is_nan f then 0
                                         else (avg - f) * (avg - f)
                              | Str _ => 0
                              end) l)
          / float_of_nat (n - 1)).

(** ** Duplicates *)

(** Equality of two cells as [drop_duplicates] sees it: equal numbers (the
    two zeros are equal), two missing values, or equal texts. *)
Definition cell_eqb (a b : cell) : bool :=
  match a, b with
  | Num x, Num y => (x =? y) || (is_nan x && is_nan y)
  | Str s, Str t => String.eqb s t
  | _, _ => false
  end.

Fixpoint row_eqb (r1 r2 : row) : bool :=
  match r1, r2 with
  | [], [] => true
  | a :: t1, b :: t2 => cell_eqb a b && row_eqb t1 t2
  | _, _ => false
  end.

(** Rows in order, a row being kept when no row already [seen] equals it
    ([keep='first']). *)
Fixpoint keep_first (seen : list row) (l : list row) : list row :=
  match l with
  | [] => []
  | r :: t =>
      if existsb (row_eqb r) seen then keep_first seen t
      else r :: keep_first (r :: seen) t
  end.

(** [df.drop_duplicates(inplace=True)] *)
Definition drop_duplicates (df : DataFrame) : DataFrame :=
  {| columns := columns df; rows := keep_first [] (rows df) |}.

(** ** Text columns *)

(** [col.str.<method>()]: refused on a numeric column; on an object column
    a text is transformed and anything else becomes missing. *)
Definition str_cell (f : string -> string) (c : cell) : cell :=
  match c with
  | Str s => Str (f s)
  | Num _ => NaN
  end.

Definition str_method (j : nat) (f : string -> string) (df : DataFrame)
    : result DataFrame :=
  match nth_error (columns df) j with
  | Some c =>
      match col_dtype c with
      | numeric => Raise AttributeError
      | object => Ok (map_column j (str_cell f) (fun d => d) df)
      end
  | None => Ok df
  end.

(** [col.replace(mapping)]: a text equal to a key is replaced *)
Definition replace_cell (d : list (string * string)) (c : cell) : cell :=
  match c with
  | Str s => Str (dict_get d s s)
  | Num _ => c
  end.

End Pandas.

(* ================================================================== *)
(** * Cleanup.py *)

Module Cleanup.

Import PyStr Pandas.
Local Open Scope string_scope.

(** ** Field registry: the column labels, as they read after lower-casing *)

Definition salary_col : string :=
  "what is your annual salary? (you'll indicate the currency in a later question. if you are part-time or hourly, please enter an annualized equivalent -- what you would earn if you worked the job 40 hours a week, 52 weeks a year.)".

Definition bonus_col : string :=
  "how much additional monetary compensation do you get, if any (for example, bonuses or overtime in an average year)? please only include monetary compensation here, not the value of benefits.".

Definition age_col : string := "how old are you?".
Definition job_title_col : string := "job title".
Definition currency_col : string := "please indicate the currency".
Definition country_col : string := "what country do you work in?".

Definition dquote : string := String (ascii_of_nat 34) EmptyString.

Definition other_currency_col : string :=
  "if " ++ dquote ++ "other," ++ dquote ++ " please indicate the currency here: ".

Definition required_fields : list string :=
  [ "how old are you?";
    "job title";
    salary_col;
    "please indicate the currency";
    "what country do you work in?" ].

(** ** Alias tables *)

Definition currency_mapping : list (string * string) :=
  [
    ("US", "USD");
    ("DOLLARS", "USD");
    ("US DOLLAR", "USD");
    ("POUND", "GBP");
    ("POUNDS", "GBP")
  ].

Definition other_currency_mapping_lower : list (string * string) :=
  [
    ("philippine peso", "PHP");
    ("philippine pesos", "PHP");
    ("php (philippine peso)", "PHP");
    ("php philippine peso", "PHP");
    ("indian rupees", "INR");
    ("indian rupee", "INR");
    ("rupees", "INR");
    ("inr (indian rupee)", "INR");
    ("mexican peso", "MXN");
    ("mexican pesos", "MXN");
    ("peso mexicano", "MXN");
    ("norwegian kroner", "NOK");
    ("norwegian kroner (nok)", "NOK");
    ("polish złoty", "PLN");
    ("polish zloty", "PLN");
    ("pln (polish zloty)", "PLN");
    ("pln (zwoty)", "PLN");
    ("złoty", "PLN");
    ("zloty", "PLN");
    ("american dollars", "USD");
    ("us dollar", "USD");
    ("us dollars", "USD");
    ("australian dollars", "AUD");
    ("aud australian", "AUD");
    ("australian dollar", "AUD");
    ("thai baht", "THB");
    ("baht", "THB");
    ("korean won", "KRW");
    ("krw (korean won)", "KRW");
    ("rmb (chinese yuan)", "CNY");
    ("china rmb", "CNY");
    ("chinese yuan", "CNY");
    ("yuan", "CNY");
    ("rmb", "CNY");
    ("israeli shekels", "ILS");
    ("israeli shekel", "ILS");
    ("ils (shekel)", "ILS");
    ("nis (new israeli shekel)", "ILS");
    ("new israeli shekel", "ILS");
    ("ils/nis", "ILS");
    ("shekel", "ILS");
    ("shekels", "ILS");
    ("nis", "ILS");
    ("br$", "BRL");
    ("brl (r$)", "BRL");
    ("brazilian real", "BRL");
    ("argentine peso", "ARS");
    ("argentinian peso", "ARS");
    ("argentinian peso (ars)", "ARS");
    ("peso argentino", "ARS");
    ("danish kroner", "DKK");
    ("danish krone", "DKK");
    ("taiwanese dollars", "TWD");
    ("taiwanese dollar", "TWD");
    ("taiwan dollar", "TWD");
    ("singapore dollara", "SGD");
    ("singapore dollars", "SGD");
    ("pesos colombianos", "COP");
    ("colombian peso", "COP");
    ("croatian kuna", "HRK");
    ("kuna", "HRK");
    ("czech crowns", "CZK");
    ("czech crown", "CZK");
    ("equity", "")
  ].

Definition country_mapping_lower : list (string * string) :=
  [
    ("us", "United States");
    ("usa", "United States");
    ("u.s.", "United States");
    ("u.s.a.", "United States");
    ("u.s", "United States");
    ("united states", "United States");
    ("united states of america", "United States");
    ("the united states", "United States");
    ("united state", "United States");
    ("united sates", "United States");
    ("united stares", "United States");
    ("united stated", "United States");
    ("united stateds", "United States");
    ("united statees", "United States");
    ("united statea", "United States");
    ("united statesp", "United States");
    ("united statew", "United States");
    ("united statss", "United States");
    ("united stattes", "United States");
    ("united statues", "United States");
    ("united status", "United States");
    ("united statws", "United States");
    ("united sttes", "United States");
    ("unitedstates", "United States");
    ("united state of america", "United States");
    ("united sates of america", "United States");
    ("united states of american", "United States");
    ("united states of americas", "United States");
    ("united states is america", "United States");
    ("unites states", "United States");
    ("uk", "United Kingdom");
    ("u.k.", "United Kingdom");
    ("britain", "United Kingdom");
    ("great britain", "United Kingdom");
    ("england", "United Kingdom");
    ("scotland", "United Kingdom");
    ("wales", "United Kingdom");
    ("northern ireland", "United Kingdom");
    ("united kindom", "United Kingdom");
    ("united kingdomk", "United Kingdom");
    ("uae", "United Arab Emirates");
    ("u.a.e.", "United Arab Emirates")
  ].

(** ** The stages of [clean_dataset], in source order *)

(** [df.columns = [col.lower() for col in df.columns]] *)
Definition lower_columns (df : DataFrame) : DataFrame :=
  {| columns := map (fun c => Column (lower (label c)) (col_dtype c)) (columns df);
     rows := rows df |}.

(** Salary from text to numeric, when the column is there. *)
Definition convert_salary (df : DataFrame) : DataFrame :=
  match col_index salary_col (columns df) with
  | Some j => map_column j to_numeric_cell (fun _ => numeric) df
  | None => df
  end.

(** [df[bonus_col] = df[bonus_col].fillna(0)] *)
Definition fill_bonus (df : DataFrame) : DataFrame :=
  match col_index bonus_col (columns df) with
  | Some j => map_column j (fillna (Num 0%float)) (fun d => d) df
  | None => df
  end.

(** The mask of one required field on one row: [notna() & (> 0)] for the
    salary, [notna() & (astype(str).str.strip() != '')] for the others. *)
Definition field_ok (field : string) (j : nat) (r : row) : bool :=
  if String.eqb field salary_col
  then notna (get_cell j r) && gt_zero (get_cell j r)
  else notna (get_cell j r) && astype_str_strip_nonempty (get_cell j r).

(** One turn of the loop over [required_fields]. *)
Definition require_field (df : DataFrame) (field : string) : DataFrame :=
  match col_index field (columns df) with
  | Some j => filter_rows (field_ok field j) df
  | None => df
  end.

Definition enforce_fields (fields : list string) (df : DataFrame) : DataFrame :=
  fold_left require_field fields df.

Definition enforce_required (df : DataFrame) : DataFrame :=
  enforce_fields required_fields df.

(** Python's [max(0, x)]: [x] if [x > 0], else [0] (so [0] when [x] is NaN). *)
Definition py_max0 (x : float) : float :=
  if (0 <? x)%float then x else 0%float.

(** [col >= v] and [col <= v] on one cell of a numeric column *)
Definition cell_ge (c : cell) (v : float) : bool :=
  match c with Num f => (v <=? f)%float | Str _ => false end.

Definition cell_le (c : cell) (v : float) : bool :=
  match c with Num f => (f <=? v)%float | Str _ => false end.

Definition upper_limit (salaries : list cell) : float :=
  (mean salaries + 3 * std salaries)%float.

Definition lower_limit (salaries : list cell) : float :=
  (mean salaries - 3 * std salaries)%float.

(** The mask of the outlier filter on one row, for the two limits computed
    from the column before filtering. *)
Definition within_limits (j : nat) (lo hi : float) (r : row) : bool :=
  cell_ge (get_cell j r) (py_max0 lo) && cell_le (get_cell j r) hi.

(** Statistical outliers beyond three standard deviations: both limits are
    computed once, from the salary column as it enters the stage. *)
Definition trim_outliers (df : DataFrame) : DataFrame :=
  match col_index salary_col (columns df) with
  | Some j =>
      let lo := lower_limit (series j df) in
      let hi := upper_limit (series j df) in
      filter_rows (within_limits j lo hi) df
  | None => df
  end.

(** Currency codes: [.str.strip().str.upper()], then [.replace(currency_mapping)]. *)
Definition standardize_currency (df : DataFrame) : result DataFrame :=
  match col_index currency_col (columns df) with
  | Some j =>
      df1 <- str_method j strip df ;;
      df2 <- str_method j upper df1 ;;
      Ok (map_column j (replace_cell currency_mapping) (fun d => d) df2)
  | None => Ok df
  end.

(** The function applied to each cell of the free-text currency column.
    After [.str.strip()] a cell is a text or missing, so [str(x)] is only
    ever taken of a text. *)
Definition other_currency_lambda (x : cell) : cell :=
  match x with
  | Str s =>
      if negb (String.eqb (strip s) "")
      then Str (dict_get other_currency_mapping_lower (strip (lower s)) (upper (strip s)))
      else x
  | Num _ => x
  end.

Definition standardize_other_currency (df : DataFrame) : result DataFrame :=
  match col_index other_currency_col (columns df) with
  | Some j =>
      df1 <- str_method j strip df ;;
      Ok (map_column j other_currency_lambda (fun d => d) df1)
  | None => Ok df
  end.

(** The function applied to each cell of the country column. *)
Definition country_lambda (x : cell) : cell :=
  match x with
  | Str s =>
      if negb (String.eqb (strip s) "")
      then Str (dict_get country_mapping_lower (strip (lower s)) (title (strip s)))
      else x
  | Num _ => x
  end.

Definition standardize_country (df : DataFrame) : result DataFrame :=
  match col_index country_col (columns df) with
  | Some j =>
      df1 <- str_method j strip df ;;
      df2 <- str_method j collapse_ws df1 ;;
      Ok (map_column j country_lambda (fun d => d) df2)
  | None => Ok df
  end.

(** The three canonicalization stages, which remove no row. *)
Definition canonicalize (df : DataFrame) : result DataFrame :=
  df1 <- standardize_currency df ;;
  df2 <- standardize_other_currency df1 ;;
  standardize_country df2.

(** The frame that reaches the required-field stage. *)
Definition prepared (df : DataFrame) : DataFrame :=
  fill_bonus (convert_salary (lower_columns (drop_duplicates df))).

(** The frame that reaches the outlier filter. *)
Definition validated (df : DataFrame) : DataFrame :=
  enforce_required (prepared df).

(** [clean_dataset], from the frame [read_csv] returned. *)
Definition clean_dataset (df : DataFrame) : result DataFrame :=
  let df := drop_duplicates df in
  let df := lower_columns df in
  let df := convert_salary df in
  let df := fill_bonus df in
  let df := enforce_required df in
  let df := trim_outliers df in
  df <- standardize_currency df ;;
  df <- standardize_other_currency df ;;
  standardize_country df.

(** Rows a stage removed: [before - len(df)] of the progress messages. *)
Definition removed (before after : DataFrame) : nat := len before - len after.

End Cleanup.

(* ================================================================== *)
(** * Analytics.py: exchange rates and the reports that use them *)

Module Analytics.

Import PyStr Pandas.
Local Open Scope string_scope.

Set Warnings "-inexact-float".

Definition SALARY_COL : string := Cleanup.salary_col.
Definition AGE_COL : string := "how old are you?".
Definition JOB_TITLE_COL : string := "job title".
Definition COUNTRY_COL : string := "what country do you work in?".
Definition CURRENCY_COL : string := "please indicate the currency".
Definition BONUS_COL : string := Cleanup.bonus_col.

(** Exchange rates to USD *)
Definition EXCHANGE_RATES : list (string * float) :=
  [ ("USD", 1.0%float);
    ("EUR", 1.164%float);
    ("GBP", 1.343%float);
    ("CAD", 0.720%float);
    ("AUD_NZD", 0.668%float);
    ("INR", 0.0111%float);
    ("PHP", 0.0175%float);
    ("BRL", 0.200%float);
    ("ILS", 0.274%float);
    ("PLN", 0.250%float);
    ("SGD", 0.776%float);
    ("MYR", 0.247%float);
    ("CNY", 0.143%float);
    ("CHF", 1.250%float);
    ("JPY", 0.006%float);
    ("HKD", 0.128%float);
    ("SEK", 0.095%float);
    ("ZAR", 0.056%float);
    ("NOK", 0.099%float);
    ("TZS", 0.00043%float) ].

(** Countries to the rate of their local currency, for [OTHER] entries *)
Definition COUNTRY_CURRENCY_MAP : list (string * float) :=
  [ ("India", 0.0111%float);
    ("Philippines", 0.0175%float);
    ("Brazil", 0.200%float);
    ("Israel", 0.274%float);
    ("Poland", 0.250%float);
    ("Singapore", 0.776%float);
    ("Malaysia", 0.247%float);
    ("China", 0.143%float);
    ("Tanzania", 0.00043%float) ].

(** [table.get(key, 1.0)] for a key read from a cell: a missing or numeric
    cell is no key of a table of texts. *)
Definition rate_get (table : list (string * float)) (key : cell) : float :=
  match key with
  | Str s => dict_get table s 1.0%float
  | Num _ => 1.0%float
  end.

(** [cell == 'OTHER']: a text equal to the given one *)
Definition is_text (t : string) (c : cell) : bool :=
  match c with
  | Str s => String.eqb s t
  | Num _ => false
  end.

(** [row[col]] on a row of the frame [df] *)
Definition row_get (df : DataFrame) (col : string) (r : row) : result cell :=
  match col_index col (columns df) with
  | Some j => Ok (get_cell j r)
  | None => Raise KeyError
  end.

Definition _get_exchange_rate (df : DataFrame) (r : row) : result float :=
  currency <- row_get df CURRENCY_COL r ;;
  if is_text "OTHER" currency
  then country <- row_get df COUNTRY_COL r ;;
       Ok (rate_get COUNTRY_CURRENCY_MAP country)
  else Ok (rate_get EXCHANGE_RATES currency).

(** [row[col] * rate] *)
Definition times_rate (c : cell) (rate : float) : result cell :=
  match c with
  | Num f => Ok (Num (f * rate)%float)
  | Str _ => Raise TypeError
  end.

Fixpoint map_result {A B : Type} (f : A -> result B) (l : list A) : result (list B) :=
  match l with
  | [] => Ok []
  | a :: t => b <- f a ;; bs <- map_result f t ;; Ok (b :: bs)
  end.

(** [df.apply(lambda row: row[col] * self._get_exchange_rate(row), axis=1)] *)
Definition to_usd (df : DataFrame) (col : string) : result (list cell) :=
  map_result (fun r => v <- row_get df col r ;;
                       rate <- _get_exchange_rate df r ;;
                       times_rate v rate) (rows df).

(** [df[col]] as a series *)
Definition column_values (df : DataFrame) (col : string) : result (list cell) :=
  map_result (row_get df col) (rows df).

(** The analytics object: the loaded partition and its name. *)
Record SalaryAnalytics : Type :=
  Session { current_df : option DataFrame; current_currency : string }.

(** What a report hands to [groupby(...).agg(...)] and what it says about
    the currency of its figures. *)
Record report : Type :=
  Report { group_by : string;
           values : list cell;
           currency_line : string;
           note_line : string }.

(** [CURRENCY_COL in self.current_df.columns] for the [ALL] partition *)
Definition converts_to_usd (self : SalaryAnalytics) (df : DataFrame) : bool :=
  String.eqb (current_currency self) "ALL" && has_column CURRENCY_COL df.

(** [salary_benchmarking]: statistics of [SALARY_COL] by job title. *)
Definition salary_benchmarking (self : SalaryAnalytics) : option (result report) :=
  match current_df self with
  | None => None
  | Some df =>
      Some (_ <- column_values df JOB_TITLE_COL ;;
            v <- column_values df SALARY_COL ;;
            Ok (Report JOB_TITLE_COL v
                  ("Currency: " ++ current_currency self)
                  ("Note: All salary amounts shown are in " ++ current_currency self)))
  end.

(** The branch shared by the age and the geographic reports. *)
Definition salary_report_by (key : string) (self : SalaryAnalytics)
    : option (result report) :=
  match current_df self with
  | None => None
  | Some df =>
      Some (if converts_to_usd self df
            then v <- to_usd df SALARY_COL ;;
                 _ <- column_values df key ;;
                 Ok (Report key v
                       "Currency: USD (converted from multiple currencies)"
                       "Note: All salary amounts have been converted to USD for fair comparison")
            else _ <- column_values df key ;;
                 v <- column_values df SALARY_COL ;;
                 Ok (Report key v
                       ("Currency: " ++ current_currency self)
                       ("Note: All salary amounts shown are in " ++ current_currency self)))
  end.

Definition age_salary_analysis : SalaryAnalytics -> option (result report) :=
  salary_report_by AGE_COL.

Definition geographic_analysis : SalaryAnalytics -> option (result report) :=
  salary_report_by COUNTRY_COL.

(** [pd.to_numeric(col, errors='coerce').fillna(0)] on one cell *)
Definition bonus_numeric (c : cell) : cell :=
  fillna (Num 0%float)
    (match c with Num f => Num f | Str s => Num (parse_float s) end).

(** [bonus_analysis]: the bonus series (not grouped) and the two lines. *)
Definition bonus_analysis (self : SalaryAnalytics) : option (result report) :=
  match current_df self with
  | None => None
  | Some df =>
      if negb (has_column BONUS_COL df) then None
      else
        let df_num :=
          match col_index BONUS_COL (columns df) with
          | Some j => map_column j bonus_numeric (fun _ => numeric) df
          | None => df
          end in
        Some (if converts_to_usd self df
              then v <- to_usd df_num BONUS_COL ;;
                   Ok (Report "" v
                         "Currency: USD (converted from multiple currencies)"
                         "Note: All bonus amounts have been converted to USD for fair comparison")
              else v <- column_values df_num BONUS_COL ;;
                   Ok (Report "" v
                         ("Currency: " ++ current_currency self)
                         ("Note: All bonus amounts shown are in " ++ current_currency self)))
  end.

End Analytics.

(* ================================================================== *)
(** * Notions used to state the properties *)

Module Props.

Import PyStr Pandas Cleanup.

(** The number a float denotes, the two zeros identified: what the
    comparison [=?] observes of a float that is not NaN. *)
Definition sf_norm (a : spec_float) : spec_float :=
  match a with
  | S754_zero _ => S754_zero false
  | _ => a
  end.




(** A text with nothing but whitespace in it. *)
Fixpoint is_blank (s : string) : bool :=
  match s with
  | EmptyString => true
  | String c t => is_space c && is_blank t
  end.


(** Text in the ASCII range, where the methods of [PyStr] are Python's. *)
Definition is_ascii (c : ascii) : bool := (N_of_ascii c <? 128)%N.

Fixpoint ascii_text (s : string) : bool :=
  match s with
  | EmptyString => true
  | String c t => is_ascii c && ascii_text t
  end.

Definition ascii_cell (c : cell) : bool :=
  match c with
  | Str s => ascii_text s
  | Num _ => true
  end.

Definition ascii_labels (df : DataFrame) : bool :=
  forallb (fun c => ascii_text (label c)) (columns df).

(** A frame all of whose labels and texts are ASCII. *)
Definition ascii_frame (df : DataFrame) : bool :=
  ascii_labels df && forallb (forallb ascii_cell) (rows df).

(** A list of keys without a repeated one. *)
Fixpoint distinct (l : list string) : bool :=
  match l with
  | [] => true
  | x :: t => negb (existsb (String.eqb x) t) && distinct t
  end.

(** The check the required-field loop makes for [field] on row [r] of a
    frame with columns [cols]: none when the column is absent. *)
Definition field_check (cols : list column) (r : row) (field : string) : bool :=
  match col_index field cols with
  | Some j => field_ok field j r
  | None => true
  end.

(** [f] applied to the cell under [field], when the column is there. *)
Definition at_col (field : string) (cols : list column) (f : cell -> cell)
    (r : row) : row :=
  match col_index field cols with
  | Some j => update_nth j f r
  | None => r
  end.

(** What the three canonicalization stages do to one cell of their column. *)
Definition canonical_currency (c : cell) : cell :=
  replace_cell currency_mapping (str_cell upper (str_cell strip c)).

Definition canonical_other_currency (c : cell) : cell :=
  other_currency_lambda (str_cell strip c).

Definition canonical_country (c : cell) : cell :=
  country_lambda (str_cell collapse_ws (str_cell strip c)).

(** A frame as [read_csv] builds it: every row has one cell per column, a
    numeric column holds numbers only, and a cell of an object column is a
    text or missing. *)
Definition cell_typed (d : dtype) (c : cell) : bool :=
  match d, c with
  | numeric, Num _ => true
  | numeric, Str _ => false
  | object, Str _ => true
  | object, Num f => is_nan f
  end.

Fixpoint row_typed (cols : list column) (r : row) : bool :=
  match cols, r with
  | [], [] => true
  | c :: cs, x :: t => cell_typed (col_dtype c) x && row_typed cs t
  | _, _ => false
  end.

Definition well_typed (df : DataFrame) : bool :=
  forallb (row_typed (columns df)) (rows df).

(** The labels of a frame, lower-cased: what the stages look columns up in. *)
Definition lower_labels (df : DataFrame) : list string :=
  map (fun c => lower (label c)) (columns df).

(** No two labels of the frame collide once lower-cased. *)
Definition distinct_labels (df : DataFrame) : bool := distinct (lower_labels df).

(** The dtype of the column bound to [field], when there is one. *)
Definition dtype_of (field : string) (cols : list column) : option dtype :=
  match col_index field cols with
  | Some j => option_map col_dtype (nth_error cols j)
  | None => None
  end.

(** The [.str] accessor applies to the column of [field], or there is no
    such column. *)
Definition accepts_str (field : string) (cols : list column) : bool :=
  match dtype_of field cols with
  | Some numeric => false
  | _ => true
  end.

Definition text_columns_are_text (df : DataFrame) : bool :=
  forallb (fun field => accepts_str field (columns df))
    [currency_col; other_currency_col; country_col].

(** One row through salary conversion and bonus filling. *)
Definition prep_row (cols : list column) (r : row) : row :=
  at_col bonus_col cols (fillna (Num 0%float))
    (at_col salary_col cols to_numeric_cell r).

(** One row through the three canonicalization stages. *)
Definition canon_row (cols : list column) (r : row) : row :=
  at_col country_col cols canonical_country
    (at_col other_currency_col cols canonical_other_currency
       (at_col currency_col cols canonical_currency r)).

End Props.

(* ================================================================== *)
(** * Sample frames *)

Module Samples.

Import PyStr Pandas Cleanup.
Local Open Scope string_scope.

(** Two respondents who spell their country differently. *)
Definition two_spellings : DataFrame :=
  Frame [Column salary_col numeric; Column "What country do you work in?" object]
        [ [Num 50000%float; Str "us"];
          [Num 50000%float; Str "USA"] ].

(** Twenty salaries close together, one ten times as high, one far off. *)
Definition ladder : DataFrame :=
  Frame [Column salary_col numeric]
        (map (fun z => [Num (Z2float z)])
           [100; 101; 102; 103; 104; 105; 106; 107; 108; 109;
            110; 111; 112; 113; 114; 115; 116; 117; 118; 119;
            1000; 1000000]%Z).

(** Three salaries whose sum is beyond the largest float. *)
Definition huge_salaries : DataFrame :=
  Frame [Column salary_col numeric; Column "Job title" object]
        [ [Num 1e308%float; Str "A"];
          [Num 1e308%float; Str "B"];
          [Num 1e308%float; Str "C"] ].



(** A survey in which nobody named a country: the column is read as
    float64. *)
Definition blank_country : DataFrame :=
  Frame [Column salary_col object; Column "What country do you work in?" numeric]
        [ [Str "50,000"; NaN]; [Str "60,000"; NaN] ].

(** A bonus column with a text, a blank and a number in it. *)
Definition bonus_texts : DataFrame :=
  Frame [Column salary_col numeric; Column bonus_col object]
        [ [Num 50000%float; Str "n/a"];
          [Num 50000%float; NaN];
          [Num 50000%float; Str "1,500"] ].

(** A frame without a salary column, one record in it. *)
Definition no_salary : DataFrame :=
  Frame [Column "Job Title" object; Column "What country do you work in?" object]
        [ [Str "Engineer"; Str "us"] ].

(** A single respondent, all required fields filled in. *)
Definition lone_record : DataFrame :=
  Frame [Column "How old are you?" object; Column "Job title" object;
         Column salary_col object; Column "Please indicate the currency" object;
         Column "What country do you work in?" object]
        [ [Str "25-34"; Str "Engineer"; Str "60,000"; Str "usd"; Str "u.s."] ].

(** Required fields in all their states; the last column is optional. *)
Definition survey : DataFrame :=
  Frame [Column "How old are you?" object; Column "Job title" object;
         Column salary_col object; Column "Please indicate the currency" object;
         Column "What country do you work in?" object; Column bonus_col object]
        [ [Str "25-34"; Str "Engineer"; Str "50,000"; Str "USD"; Str "us"; NaN];
          [Str "25-34"; Str "Engineer"; Str "50,000"; Str "USD"; Str "us"; NaN];
          [Str "35-44"; Str "Teacher"; Str "-5"; Str "USD"; Str "Canada"; NaN];
          [Str "35-44"; Str "Nurse"; Str "61000"; Str "USD"; NaN; NaN];
          [Str "45-54"; Str "Clerk"; Str "n/a"; Str "USD"; Str "Canada"; NaN];
          [Str "18-24"; Str "  "; Str "40000"; Str "GBP"; Str "uk"; Str "100"];
          [Str "18-24"; Str "Chef"; Str "52000"; Str "pounds"; Str "uk"; Str "none"] ].

(** What [clean_dataset] returns for [two_spellings]. *)
Definition two_spellings_cleaned : DataFrame :=
  Frame [Column salary_col numeric; Column "what country do you work in?" object]
        [ [Num 50000%float; Str "United States"];
          [Num 50000%float; Str "United States"] ].

(** What [clean_dataset] returns for [ladder], and for that in turn. *)
Definition ladder_cleaned : DataFrame :=
  Frame [Column salary_col numeric]
        (map (fun z => [Num (Z2float z)])
           [100; 101; 102; 103; 104; 105; 106; 107; 108; 109;
            110; 111; 112; 113; 114; 115; 116; 117; 118; 119;
            1000]%Z).

Definition ladder_cleaned_twice : DataFrame :=
  Frame [Column salary_col numeric]
        (map (fun z => [Num (Z2float z)])
           [100; 101; 102; 103; 104; 105; 106; 107; 108; 109;
            110; 111; 112; 113; 114; 115; 116; 117; 118; 119]%Z).

(** What [clean_dataset] returns for [bonus_texts]. *)
Definition bonus_texts_cleaned : DataFrame :=
  Frame [Column salary_col numeric; Column bonus_col object]
        [ [Num 50000%float; Str "n/a"];
          [Num 50000%float; Num 0%float];
          [Num 50000%float; Str "1,500"] ].

(** The ALL partition with three currencies in it, loaded for analysis. *)
Definition mixed_partition : DataFrame :=
  Frame [Column Analytics.AGE_COL object; Column Analytics.JOB_TITLE_COL object;
         Column Analytics.SALARY_COL numeric; Column Analytics.CURRENCY_COL object;
         Column Analytics.COUNTRY_COL object; Column Analytics.BONUS_COL numeric]
        [ [Str "25-34"; Str "Engineer"; Num 100%float; Str "EUR"; Str "Germany";
           Num 10%float];
          [Str "25-34"; Str "Engineer"; Num 100%float; Str "OTHER"; Str "India";
           Num 10%float];
          [Str "25-34"; Str "Engineer"; Num 100%float; Str "USD";
           Str "United States"; Num 10%float] ].

Definition all_session : Analytics.SalaryAnalytics :=
  Analytics.Session (Some mixed_partition) "ALL".

End Samples.

(* ================================================================== *)
(** * Cleanup.py, the script body: one file per currency *)

Module Partition.

Import PyStr Pandas Cleanup.
Local Open Scope string_scope.

(** [s.replace(a, b)] for single characters *)
Fixpoint replace_char (a b : ascii) (s : string) : string :=
  match s with
  | EmptyString => EmptyString
  | String c t =>
      String (if Ascii.eqb c a then b else c) (replace_char a b t)
  end.

Definition slash : ascii := ascii_of_nat 47.
Definition backslash : ascii := ascii_of_nat 92.
Definition underscore : ascii := ascii_of_nat 95.

(** [sorted(l)] on texts: ascending by code point. *)
Fixpoint insert_sorted (x : string) (l : list string) : list string :=
  match l with
  | [] => [x]
  | y :: t => if String.leb x y then x :: l else y :: insert_sorted x t
  end.

Fixpoint py_sorted (l : list string) : list string :=
  match l with
  | [] => []
  | x :: t => insert_sorted x (py_sorted t)
  end.

(** [col.unique()]: the values in order of first appearance, a missing
    value counted once. *)
Fixpoint unique_from (seen : list cell) (l : list cell) : list cell :=
  match l with
  | [] => []
  | c :: t =>
      if existsb (cell_eqb c) seen then unique_from seen t
      else c :: unique_from (c :: seen) t
  end.

Definition unique (l : list cell) : list cell := unique_from [] l.

(** [cell == text] *)
Definition eq_text (t : string) (c : cell) : bool :=
  match c with
  | Str s => String.eqb s t
  | Num _ => false
  end.

(** [pd.notna(c) and c != ''] *)
Definition is_currency (c : cell) : bool := notna c && negb (eq_text "" c).

(** The texts of a list of cells, as [sorted] and [', '.join] need them: a
    number among them makes one or the other raise [TypeError]. *)
Fixpoint as_texts (l : list cell) : result (list string) :=
  match l with
  | [] => Ok []
  | Str s :: t => ts <- as_texts t ;; Ok (s :: ts)
  | Num _ :: t => Raise TypeError
  end.

Definition currency_column : string := "please indicate the currency".

Definition safe_currency_name (currency : string) : string :=
  replace_char backslash underscore (replace_char slash underscore currency).

Definition output_file (currency : string) : string :=
  "cleaned_data_" ++ safe_currency_name currency ++ ".csv".

(** [cleaned_df[cleaned_df[currency_column] == currency]] *)
Definition currency_df (j : nat) (currency : string) (cleaned_df : DataFrame)
    : DataFrame :=
  filter_rows (fun r => eq_text currency (get_cell j r)) cleaned_df.

(** The currencies of the cleaned frame, sorted. *)
Definition currencies_of (j : nat) (cleaned_df : DataFrame) : result (list string) :=
  let currencies := unique (series j cleaned_df) in
  names <- as_texts (filter is_currency currencies) ;;
  Ok (py_sorted names).

(** The files the script writes for a cleaned frame, in the order it
    writes them: one per currency, then the complete frame; nothing when
    there is no currency column. *)
Definition save_partitions (cleaned_df : DataFrame)
    : result (list (string * DataFrame)) :=
  match col_index currency_column (columns cleaned_df) with
  | Some j =>
      currencies <- currencies_of j cleaned_df ;;
      Ok (map (fun currency => (output_file currency, currency_df j currency cleaned_df))
            currencies
          ++ [("cleaned_data_all.csv", cleaned_df)])%list
  | None => Ok []
  end.

(** The script body, from the frame read from [./data.csv]. *)
Definition main (df : DataFrame) : result (list (string * DataFrame)) :=
  cleaned_df <- clean_dataset df ;;
  save_partitions cleaned_df.

(** The folder the script runs in: the files by name. [to_csv] replaces a
    file of the same name, so of two writes to one name the later stands. *)
Definition disk : Type := list (string * DataFrame).

Definition to_csv (name : string) (frame : DataFrame) (d : disk) : disk :=
  (name, frame) :: filter (fun f => negb (String.eqb (fst f) name)) d.

Fixpoint file_at (name : string) (d : disk) : option DataFrame :=
  match d with
  | [] => None
  | (n, frame) :: t => if String.eqb name n then Some frame else file_at name t
  end.

(** The writes of the script, made in order on the folder [d]. *)
Definition write_all (files : list (string * DataFrame)) (d : disk) : disk :=
  fold_left (fun d f => to_csv (fst f) (snd f) d) files d.

(** The folder after the script body has saved a cleaned frame. *)
Definition saved (cleaned_df : DataFrame) (d : disk) : result disk :=
  files <- save_partitions cleaned_df ;;
  Ok (write_all files d).

End Partition.

(* ================================================================== *)
(** * Analytics.py: which datasets there are, and loading one *)

Module Loader.

Import PyStr Pandas Analytics Partition.
Local Open Scope string_scope.

(** What the analytics object sees of the disk: whether a path exists, and
    what [pd.read_csv] returns for it (nothing when it raises). *)
Record files : Type :=
  Files { path_exists : string -> bool; read_csv : string -> option DataFrame }.

Definition starts_with_slash (s : string) : bool :=
  match s with
  | String c _ => Ascii.eqb c slash
  | EmptyString => false
  end.

Fixpoint ends_with_slash (s : string) : bool :=
  match s with
  | EmptyString => false
  | String c EmptyString => Ascii.eqb c slash
  | String _ t => ends_with_slash t
  end.

(** [os.path.join(a, b)] on POSIX *)
Definition os_path_join (a b : string) : string :=
  if starts_with_slash b then b
  else if String.eqb a "" || ends_with_slash a then a ++ b
  else a ++ "/" ++ b.

Definition partition_path (data_dir currency : string) : string :=
  os_path_join data_dir ("cleaned_data_" ++ currency ++ ".csv").

Definition all_path (data_dir : string) : string :=
  os_path_join data_dir "cleaned_data_all.csv".

(** [get_available_currencies] *)
Definition get_available_currencies (fs : files) (data_dir : string) : list string :=
  let currencies :=
    filter (fun currency =>
              negb (String.eqb currency "OTHER")
              && path_exists fs (partition_path data_dir currency))
      (map fst EXCHANGE_RATES) in
  let currencies :=
    if path_exists fs (all_path data_dir) then (currencies ++ ["ALL"])%list
    else currencies in
  py_sorted currencies.

(** [_load_data]: the flag returned and the object afterwards. *)
Definition _load_data (fs : files) (data_dir : string) (self : SalaryAnalytics)
    (currency : string) : bool * SalaryAnalytics :=
  let file_path :=
    if String.eqb currency "ALL" then all_path data_dir
    else partition_path data_dir currency in
  match read_csv fs file_path with
  | Some df => (true, Session (Some df) currency)
  | None => (false, self)
  end.

(** [select_dataset], for the answer typed at the prompt as [int] read it
    (nothing when [int] raises [ValueError]). *)
Definition select_dataset (fs : files) (data_dir : string) (self : SalaryAnalytics)
    (choice : option Z) : bool * SalaryAnalytics :=
  let available := get_available_currencies fs data_dir in
  match available with
  | [] => (false, self)
  | _ =>
      match choice with
      | None => (false, self)
      | Some choice =>
          if (choice =? 0)%Z then (false, self)
          else if ((1 <=? choice) && (choice <=? Z.of_nat (List.length available)))%Z
          then match nth_error available (Z.to_nat (choice - 1)) with
               | Some currency => _load_data fs data_dir self currency
               | None => (false, self)
               end
          else (false, self)
      end
  end.

End Loader.

(* ================================================================== *)
(** * Further notions used to state properties *)

Module MoreProps.

Import PyStr Pandas Cleanup Props Partition.

(** [l1] is [l2] with some elements left out, the order kept. *)
Inductive subseq {A : Type} : list A -> list A -> Prop :=
  | subseq_nil : subseq [] []
  | subseq_skip : forall x l1 l2, subseq l1 l2 -> subseq l1 (x :: l2)
  | subseq_take : forall x l1 l2, subseq l1 l2 -> subseq (x :: l1) (x :: l2).

(** A character of a text. *)
Fixpoint occurs (c : ascii) (s : string) : bool :=
  match s with
  | EmptyString => false
  | String d t => Ascii.eqb d c || occurs c t
  end.

(** The rows that carry a currency: a text that is not empty. *)
Definition has_currency (j : nat) (r : row) : bool :=
  match get_cell j r with
  | Str s => negb (String.eqb s EmptyString)
  | Num _ => false
  end.

(** All the rows written to the per-currency files. *)
Definition total_rows (parts : list (string * DataFrame)) : nat :=
  fold_right (fun p n => len (snd p) + n) 0 parts.

(** A cell that is a text or missing. *)
Definition text_or_missing (c : cell) : bool :=
  match c with
  | Str _ => true
  | Num f => is_nan f
  end.

(** The texts among a list of cells. *)
Fixpoint texts_of (l : list cell) : list string :=
  match l with
  | [] => []
  | Str s :: t => s :: texts_of t
  | Num _ :: t => texts_of t
  end.

(** Ascending order of texts, as [sorted] leaves them. *)
Definition ascending (l : list string) : Prop :=
  Sorted (fun a b => String.leb a b = true) l.

(** The records held, after the script, by the files of the listed
    currencies. *)
Definition disk_rows (names : list string) (d : disk) : nat :=
  fold_right (fun c n =>
                match file_at (output_file c) d with
                | Some frame => len frame + n
                | None => n
                end) 0 names.

End MoreProps.

(* ================================================================== *)
(** * More sample frames *)

Module MoreSamples.

Import PyStr Pandas Cleanup.
Local Open Scope string_scope.

(** A cleaned frame with two currencies and a record without one. *)
Definition three_currencies : DataFrame :=
  Frame [Column currency_col object; Column salary_col numeric]
        [ [Str "USD"; Num 10%float];
          [Str "AUD/NZD"; Num 20%float];
          [Str "USD"; Num 30%float];
          [NaN; Num 40%float] ].

(** The files the script writes for it. *)
Definition three_currencies_files : list (string * DataFrame) :=
  [ ("cleaned_data_AUD_NZD.csv",
     Frame (columns three_currencies) [ [Str "AUD/NZD"; Num 20%float] ]);
    ("cleaned_data_USD.csv",
     Frame (columns three_currencies)
       [ [Str "USD"; Num 10%float]; [Str "USD"; Num 30%float] ]);
    ("cleaned_data_all.csv", three_currencies) ].

(** A disk with the ALL file, two partitions the rate table knows and one
    it does not. *)
Definition some_files : Loader.files :=
  Loader.Files
    (fun p => existsb (String.eqb p)
                ["./cleaned_data_all.csv"; "./cleaned_data_USD.csv";
                 "./cleaned_data_AUD_NZD.csv"; "./cleaned_data_OTHER.csv"])
    (fun p => if String.eqb p "./cleaned_data_USD.csv"
              then Some (Frame (columns three_currencies)
                           [ [Str "USD"; Num 10%float]; [Str "USD"; Num 30%float] ])
              else None).

(** A partition of one currency, its bonus column as text. *)
Definition gbp_partition : DataFrame :=
  Frame [Column Analytics.SALARY_COL numeric; Column Analytics.CURRENCY_COL object;
         Column Analytics.BONUS_COL object]
        [ [Num 100%float; Str "GBP"; Str "none"];
          [Num 100%float; Str "GBP"; NaN];
          [Num 100%float; Str "GBP"; Str "1500"] ].

Definition gbp_session : Analytics.SalaryAnalytics :=
  Analytics.Session (Some gbp_partition) "GBP".

(** Two currencies whose file names coincide. *)
Definition slash_currencies : DataFrame :=
  Frame [Column currency_col object; Column salary_col numeric]
        [ [Str "A/B"; Num 10%float];
          [Str "A_B"; Num 20%float];
          [Str "A/B"; Num 30%float] ].

End MoreSamples.

(* ================================================================== *)
(** * Facts about binary64 comparison and NaN *)

Module FloatFacts.

Import Props.
Local Open Scope float_scope.

Ltac sf_differ :=
  split; [discriminate | intros [H1 H2]; first [discriminate H1 | congruence]].
Ltac sf_agree :=
  split; [intros _; split; [reflexivity | discriminate] | reflexivity].

Lemma SFeqb_norm (a b : spec_float) :
  SFeqb a b = true <-> sf_norm a = sf_norm b /\ a <> S754_nan.
Proof.
  unfold SFeqb.
  destruct a as [s1|s1| |s1 m1 e1]; destruct b as [s2|s2| |s2 m2 e2]; simpl;
    try sf_differ; try sf_agree;
    try (destruct s1; simpl; try sf_differ; try sf_agree; fail);
    try (destruct s2; simpl; try sf_differ; try sf_agree; fail);
    try (destruct s1, s2; simpl; try sf_differ; try sf_agree; fail).
  change (Pos.compare_cont Eq m1 m2) with (Pos.compare m1 m2).
  destruct s1, s2; try sf_differ;
    (destruct (Z.compare_spec e1 e2) as [He|He|He]; simpl;
     [ subst e2; destruct (Pos.compare_spec m1 m2) as [Hm|Hm|Hm]; simpl;
       [ subst; sf_agree
       | split; [discriminate | intros [H _]; inversion H; subst; lia ]
       | split; [discriminate | intros [H _]; inversion H; subst; lia ] ]
     | split; [discriminate | intros [H _]; inversion H; subst; lia ]
     | split; [discriminate | intros [H _]; inversion H; subst; lia ] ]).
Qed.

Lemma is_nan_spec (x : float) : is_nan x = true <-> Prim2SF x = S754_nan.
Proof.
  unfold is_nan. rewrite eqb_spec, negb_true_iff.
  split; intros H.
  - destruct (Prim2SF x) eqn:E; try reflexivity; exfalso;
      assert (Hn : SFeqb (Prim2SF x) (Prim2SF x) = true)
        by (apply SFeqb_norm; split; [reflexivity | rewrite E; discriminate]);
      rewrite E in Hn; congruence.
  - rewrite H. reflexivity.
Qed.

Lemma is_nan_false (x : float) : is_nan x = false <-> Prim2SF x <> S754_nan.
Proof.
  rewrite <- is_nan_spec. destruct (is_nan x); split; congruence.
Qed.

Lemma eqb_iff (x y : float) :
  (x =? y) = true <->
  sf_norm (Prim2SF x) = sf_norm (Prim2SF y) /\ Prim2SF x <> S754_nan.
Proof. rewrite eqb_spec. apply SFeqb_norm. Qed.

Lemma sf_norm_nan (a : spec_float) : sf_norm a = S754_nan <-> a = S754_nan.
Proof. destruct a; simpl; split; congruence. Qed.

Lemma Prim2SF_nan : Prim2SF nan = S754_nan.
Proof. reflexivity. Qed.

Lemma add_nan_r (x : float) : x + nan = nan.
Proof.
  apply Prim2SF_inj. rewrite add_spec, Prim2SF_nan.
  destruct (Prim2SF x) as [s|s| |s m e]; reflexivity.
Qed.

Lemma leb_nan_r (x : float) : (x <=? nan) = false.
Proof.
  rewrite leb_spec, Prim2SF_nan. unfold SFleb.
  destruct (Prim2SF x) as [s|s| |s m e]; reflexivity.
Qed.

End FloatFacts.

(* ================================================================== *)
(** * Duplicates: [drop_duplicates] keeps the first row of every class *)

Module DedupFacts.

Import PyStr Pandas Cleanup Props FloatFacts.
Local Open Scope float_scope.










Lemma keep_first_incl (l seen : list row) (r : row) :
  In r (keep_first seen l) -> In r l.
Proof.
  revert seen. induction l as [|x t IH]; intros seen; simpl; [tauto |].
  destruct (existsb (row_eqb x) seen); simpl; intros H.
  - right. eapply IH, H.
  - destruct H as [H | H]; [now left | right; eapply IH, H].
Qed.

End DedupFacts.

(* ================================================================== *)
(** * Frames: columns, cells and cell-wise stages *)

Module FrameFacts.

Import PyStr Pandas Cleanup Props.

Lemma col_index_nth (field : string) (cols : list column) (j : nat) :
  col_index field cols = Some j ->
  exists c, nth_error cols j = Some c /\ label c = field.
Proof.
  revert j. induction cols as [|c cs IH]; intros j; simpl; [discriminate |].
  destruct (String.eqb field (label c)) eqn:E.
  - intros H. injection H as <-. exists c. split; [reflexivity |].
    symmetry. now apply String.eqb_eq.
  - destruct (col_index field cs) as [k|]; simpl; [| discriminate].
    intros H. injection H as <-. destruct (IH k eq_refl) as [c' Hc']. now exists c'.
Qed.

(** Two fields bound to one position are the same field. *)
Lemma col_index_inj (f1 f2 : string) (cols : list column) (j : nat) :
  col_index f1 cols = Some j -> col_index f2 cols = Some j -> f1 = f2.
Proof.
  intros H1 H2.
  destruct (col_index_nth _ _ H1) as [c1 [Hn1 <-]].
  destruct (col_index_nth _ _ H2) as [c2 [Hn2 <-]].
  congruence.
Qed.

(** The position of a field depends on the labels only. *)
Lemma col_index_labels (field : string) (cols1 cols2 : list column) :
  map label cols1 = map label cols2 ->
  col_index field cols1 = col_index field cols2.
Proof.
  revert cols2. induction cols1 as [|c cs IH]; intros [|c' cs']; simpl;
    try discriminate; [reflexivity |].
  intros H. injection H as Hl Ht. rewrite Hl, (IH cs' Ht). reflexivity.
Qed.

Lemma update_nth_length {A : Type} (j : nat) (f : A -> A) (l : list A) :
  List.length (update_nth j f l) = List.length l.
Proof.
  revert j. induction l as [|x t IH]; intros [|j]; simpl; auto.
Qed.

Lemma update_nth_labels (j : nat) (d : dtype -> dtype) (cols : list column) :
  map label (update_nth j (fun c => Column (label c) (d (col_dtype c))) cols)
  = map label cols.
Proof.
  revert j. induction cols as [|c cs IH]; intros [|j]; simpl; try reflexivity.
  now rewrite IH.
Qed.

Lemma get_cell_update_same (j : nat) (f : cell -> cell) (r : row) :
  j < List.length r -> get_cell j (update_nth j f r) = f (get_cell j r).
Proof.
  unfold get_cell. revert j. induction r as [|x t IH]; intros [|j]; simpl; try lia.
  - reflexivity.
  - intros H. apply IH. lia.
Qed.

Lemma get_cell_update_other (i j : nat) (f : cell -> cell) (r : row) :
  i <> j -> get_cell j (update_nth i f r) = get_cell j r.
Proof.
  unfold get_cell. revert i j. induction r as [|x t IH]; intros [|i] [|j]; simpl;
    try reflexivity; try congruence.
  intros H. apply IH. congruence.
Qed.

(** A cell that is not missing is a cell of the row. *)
Lemma notna_in_range (j : nat) (r : row) :
  notna (get_cell j r) = true -> j < List.length r.
Proof.
  intros H. destruct (Nat.lt_ge_cases j (List.length r)) as [Hl | Hl]; [exact Hl |].
  unfold get_cell in H. rewrite nth_overflow in H by exact Hl. discriminate H.
Qed.

Lemma get_cell_at_col_other (field : string) (cols : list column)
    (f : cell -> cell) (j : nat) (r : row) :
  col_index field cols <> Some j ->
  get_cell j (at_col field cols f r) = get_cell j r.
Proof.
  unfold at_col. destruct (col_index field cols) as [i|]; [| reflexivity].
  intros H. apply get_cell_update_other. congruence.
Qed.

Lemma get_cell_at_col_same (field : string) (cols : list column)
    (f : cell -> cell) (j : nat) (r : row) :
  col_index field cols = Some j -> j < List.length r ->
  get_cell j (at_col field cols f r) = f (get_cell j r).
Proof.
  unfold at_col. intros -> H. now apply get_cell_update_same.
Qed.

Lemma filter_filter {A : Type} (p q : A -> bool) (l : list A) :
  filter p (filter q l) = filter (fun x => q x && p x) l.
Proof.
  induction l as [|x t IH]; simpl; [reflexivity |].
  destruct (q x); simpl; [destruct (p x) |]; now rewrite IH.
Qed.

Lemma filter_all {A : Type} (p : A -> bool) (l : list A) :
  (forall x, In x l -> p x = true) -> filter p l = l.
Proof.
  induction l as [|x t IH]; simpl; intros H; [reflexivity |].
  rewrite (H x) by now left. rewrite IH; [reflexivity |].
  intros y Hy. apply H. now right.
Qed.

Lemma filter_none {A : Type} (p : A -> bool) (l : list A) :
  (forall x, In x l -> p x = false) -> filter p l = [].
Proof.
  induction l as [|x t IH]; simpl; intros H; [reflexivity |].
  rewrite (H x) by now left. apply IH. intros y Hy. apply H. now right.
Qed.


End FrameFacts.

(* ================================================================== *)
(** * The required-field stage *)

Module ValidatorFacts.

Import PyStr Pandas Cleanup Props FloatFacts FrameFacts.

Lemma require_field_columns (df : DataFrame) (field : string) :
  columns (require_field df field) = columns df.
Proof.
  unfold require_field. destruct (col_index field (columns df)); reflexivity.
Qed.

Lemma require_field_rows (df : DataFrame) (field : string) :
  rows (require_field df field)
  = filter (fun r => field_check (columns df) r field) (rows df).
Proof.
  unfold require_field, field_check.
  destruct (col_index field (columns df)); simpl; [reflexivity |].
  symmetry. now apply filter_all.
Qed.

Lemma enforce_fields_columns (fields : list string) (df : DataFrame) :
  columns (enforce_fields fields df) = columns df.
Proof.
  unfold enforce_fields. revert df.
  induction fields as [|f fs IH]; intros df; simpl; [reflexivity |].
  now rewrite IH, require_field_columns.
Qed.

(** The loop is one filter: a row stays when every check holds. *)
Lemma enforce_fields_rows (fields : list string) (df : DataFrame) :
  rows (enforce_fields fields df)
  = filter (fun r => forallb (field_check (columns df) r) fields) (rows df).
Proof.
  unfold enforce_fields. revert df.
  induction fields as [|f fs IH]; intros df; simpl.
  - symmetry. now apply filter_all.
  - rewrite IH, require_field_columns, require_field_rows, filter_filter.
    reflexivity.
Qed.

Lemma enforce_fields_frame (fields : list string) (df : DataFrame) :
  enforce_fields fields df
  = Frame (columns df)
      (filter (fun r => forallb (field_check (columns df) r) fields) (rows df)).
Proof.
  rewrite <- enforce_fields_rows, <- (enforce_fields_columns fields df).
  now destruct (enforce_fields fields df).
Qed.

(** The salary check: a number, not NaN, above zero. *)
Lemma salary_ok_iff (j : nat) (r : row) :
  field_ok salary_col j r = true <->
  exists x, get_cell j r = Num x /\ is_nan x = false /\ (0 <? x)%float = true.
Proof.
  unfold field_ok. rewrite String.eqb_refl, andb_true_iff.
  unfold notna, gt_zero, isna. destruct (get_cell j r) as [x|s].
  - rewrite negb_true_iff. split.
    + intros [H1 H2]. now exists x.
    + intros [y [Hy [H1 H2]]]. injection Hy as ->. now split.
  - split; [intros [_ H]; discriminate H | intros [y [Hy _]]; discriminate Hy].
Qed.

(** The check of any other required field: not missing, and not blank
    once printed and stripped. *)
Lemma text_ok_iff (field : string) (j : nat) (r : row) :
  field <> salary_col ->
  (field_ok field j r = true <->
   match get_cell j r with
   | Num x => is_nan x = false
   | Str s => strip s <> EmptyString
   end).
Proof.
  intros Hf. unfold field_ok.
  destruct (String.eqb field salary_col) eqn:E;
    [apply String.eqb_eq in E; contradiction |].
  unfold notna, astype_str_strip_nonempty, isna.
  destruct (get_cell j r) as [x|s]; simpl.
  - rewrite andb_true_r, negb_true_iff. tauto.
  - rewrite negb_true_iff. split; intros H.
    + intros Hs. rewrite Hs in H. discriminate.
    + destruct (String.eqb (strip s) EmptyString) eqn:Es; [| reflexivity].
      apply String.eqb_eq in Es. contradiction.
Qed.

End ValidatorFacts.

(* ================================================================== *)
(** * Every cell-wise stage, as a map over the rows *)

Module StageFacts.

Import PyStr Pandas Cleanup Props FloatFacts FrameFacts ValidatorFacts.

Lemma update_nth_id (j : nat) (cols : list column) :
  update_nth j (fun c => Column (label c) (col_dtype c)) cols = cols.
Proof.
  revert j. induction cols as [|c cs IH]; intros [|j]; simpl; try reflexivity.
  - now destruct c.
  - now rewrite IH.
Qed.

Lemma update_nth_compose {A : Type} (j : nat) (f g : A -> A) (l : list A) :
  update_nth j f (update_nth j g l) = update_nth j (fun x => f (g x)) l.
Proof.
  revert j. induction l as [|x t IH]; intros [|j]; simpl; try reflexivity.
  now rewrite IH.
Qed.

Lemma map_column_same_dtype (j : nat) (f : cell -> cell) (df : DataFrame) :
  map_column j f (fun d => d) df = Frame (columns df) (map (update_nth j f) (rows df)).
Proof. unfold map_column. now rewrite update_nth_id. Qed.

Lemma map_column_labels (j : nat) (f : cell -> cell) (d : dtype -> dtype)
    (df : DataFrame) :
  map label (columns (map_column j f d df)) = map label (columns df).
Proof. apply update_nth_labels. Qed.

Lemma col_index_map_column (field : string) (j : nat) (f : cell -> cell)
    (d : dtype -> dtype) (df : DataFrame) :
  col_index field (columns (map_column j f d df)) = col_index field (columns df).
Proof. apply col_index_labels, map_column_labels. Qed.

(** ** Salary conversion and bonus filling *)

Lemma convert_salary_rows (df : DataFrame) :
  rows (convert_salary df)
  = map (at_col salary_col (columns df) to_numeric_cell) (rows df).
Proof.
  unfold convert_salary, at_col.
  destruct (col_index salary_col (columns df)); simpl; [reflexivity |].
  now rewrite map_id.
Qed.

Lemma convert_salary_index (field : string) (df : DataFrame) :
  col_index field (columns (convert_salary df)) = col_index field (columns df).
Proof.
  unfold convert_salary.
  destruct (col_index salary_col (columns df)); [| reflexivity].
  apply col_index_map_column.
Qed.

Lemma fill_bonus_rows (df : DataFrame) :
  rows (fill_bonus df)
  = map (at_col bonus_col (columns df) (fillna (Num 0%float))) (rows df).
Proof.
  unfold fill_bonus, at_col.
  destruct (col_index bonus_col (columns df)); simpl; [reflexivity |].
  now rewrite map_id.
Qed.

Lemma fill_bonus_columns (df : DataFrame) :
  columns (fill_bonus df) = columns df.
Proof.
  unfold fill_bonus.
  destruct (col_index bonus_col (columns df)); [| reflexivity].
  now rewrite map_column_same_dtype.
Qed.

Lemma at_col_index_ext (field : string) (cols1 cols2 : list column)
    (f : cell -> cell) (r : row) :
  col_index field cols1 = col_index field cols2 ->
  at_col field cols1 f r = at_col field cols2 f r.
Proof. unfold at_col. now intros ->. Qed.

Lemma prepared_index (field : string) (df : DataFrame) :
  col_index field (columns (prepared df))
  = col_index field (columns (lower_columns df)).
Proof.
  unfold prepared. rewrite fill_bonus_columns, convert_salary_index. reflexivity.
Qed.

Lemma prepared_rows (df : DataFrame) :
  rows (prepared df)
  = map (prep_row (columns (lower_columns df))) (keep_first [] (rows df)).
Proof.
  unfold prepared. rewrite fill_bonus_rows, convert_salary_rows, map_map.
  simpl rows. apply map_ext. intros r. unfold prep_row.
  apply at_col_index_ext. rewrite convert_salary_index. reflexivity.
Qed.

(** ** The outlier filter *)

Lemma trim_outliers_columns (df : DataFrame) :
  columns (trim_outliers df) = columns df.
Proof.
  unfold trim_outliers. destruct (col_index salary_col (columns df)); reflexivity.
Qed.

Lemma trim_outliers_incl (df : DataFrame) (r : row) :
  In r (rows (trim_outliers df)) -> In r (rows df).
Proof.
  unfold trim_outliers. destruct (col_index salary_col (columns df)); simpl.
  - intros H. now apply filter_In in H.
  - tauto.
Qed.

(** ** Canonicalization *)

Lemma str_method_spec (j : nat) (f : string -> string) (df : DataFrame)
    (field : string) :
  col_index field (columns df) = Some j ->
  str_method j f df =
  if accepts_str field (columns df)
  then Ok (Frame (columns df) (map (update_nth j (str_cell f)) (rows df)))
  else Raise AttributeError.
Proof.
  intros Hj. unfold str_method, accepts_str, dtype_of. rewrite Hj.
  destruct (col_index_nth _ _ Hj) as [c [Hc _]]. rewrite Hc. simpl.
  destruct (col_dtype c); [reflexivity |].
  now rewrite map_column_same_dtype.
Qed.

Lemma standardize_currency_spec (df : DataFrame) :
  standardize_currency df =
  if accepts_str currency_col (columns df)
  then Ok (Frame (columns df)
             (map (at_col currency_col (columns df) canonical_currency) (rows df)))
  else Raise AttributeError.
Proof.
  unfold standardize_currency, at_col.
  destruct (col_index currency_col (columns df)) as [j|] eqn:Hj.
  - rewrite (str_method_spec _ _ _ Hj).
    destruct (accepts_str currency_col (columns df)) eqn:Ha; [| reflexivity].
    simpl. rewrite (@str_method_spec j upper _ currency_col) by exact Hj.
    simpl. rewrite Ha. simpl. rewrite map_column_same_dtype. simpl.
    rewrite !map_map. do 2 f_equal. apply map_ext. intros r.
    now rewrite !update_nth_compose.
  - unfold accepts_str, dtype_of. rewrite Hj. rewrite map_id. now destruct df.
Qed.

Lemma standardize_other_currency_spec (df : DataFrame) :
  standardize_other_currency df =
  if accepts_str other_currency_col (columns df)
  then Ok (Frame (columns df)
             (map (at_col other_currency_col (columns df) canonical_other_currency)
                (rows df)))
  else Raise AttributeError.
Proof.
  unfold standardize_other_currency, at_col.
  destruct (col_index other_currency_col (columns df)) as [j|] eqn:Hj.
  - rewrite (str_method_spec _ _ _ Hj).
    destruct (accepts_str other_currency_col (columns df)); [| reflexivity].
    simpl. rewrite map_column_same_dtype. simpl.
    rewrite !map_map. do 2 f_equal. apply map_ext. intros r.
    now rewrite !update_nth_compose.
  - unfold accepts_str, dtype_of. rewrite Hj. rewrite map_id. now destruct df.
Qed.

Lemma standardize_country_spec (df : DataFrame) :
  standardize_country df =
  if accepts_str country_col (columns df)
  then Ok (Frame (columns df)
             (map (at_col country_col (columns df) canonical_country) (rows df)))
  else Raise AttributeError.
Proof.
  unfold standardize_country, at_col.
  destruct (col_index country_col (columns df)) as [j|] eqn:Hj.
  - rewrite (str_method_spec _ _ _ Hj).
    destruct (accepts_str country_col (columns df)) eqn:Ha; [| reflexivity].
    simpl. rewrite (@str_method_spec j collapse_ws _ country_col) by exact Hj.
    simpl. rewrite Ha. simpl. rewrite map_column_same_dtype. simpl.
    rewrite !map_map. do 2 f_equal. apply map_ext. intros r.
    now rewrite !update_nth_compose.
  - unfold accepts_str, dtype_of. rewrite Hj. rewrite map_id. now destruct df.
Qed.

(** The three stages together: they raise when a text column is numeric,
    and otherwise rewrite each row in place. *)
Lemma canonicalize_spec (df : DataFrame) :
  canonicalize df =
  if text_columns_are_text df
  then Ok (Frame (columns df) (map (canon_row (columns df)) (rows df)))
  else Raise AttributeError.
Proof.
  unfold canonicalize, text_columns_are_text. simpl forallb.
  rewrite standardize_currency_spec.
  destruct (accepts_str currency_col (columns df)); simpl; [| reflexivity].
  rewrite standardize_other_currency_spec. simpl.
  destruct (accepts_str other_currency_col (columns df)); simpl; [| reflexivity].
  rewrite standardize_country_spec. simpl.
  destruct (accepts_str country_col (columns df)); simpl; [| reflexivity].
  rewrite !map_map. reflexivity.
Qed.

Lemma clean_dataset_stages (df : DataFrame) :
  clean_dataset df = canonicalize (trim_outliers (validated df)).
Proof. reflexivity. Qed.

End StageFacts.

(* ================================================================== *)
(** * Properties of the cleaning pipeline *)

Import PyStr Pandas Cleanup Props Samples.
Import FloatFacts DedupFacts FrameFacts ValidatorFacts StageFacts.

(** ** Deduplication *)


(** ** Required fields *)



(** Seven answers to the survey: a duplicate, a salary below zero, a missing
    country, a salary that is no number and a blank job title go; the record
    whose optional bonus is a text stays. *)
Example survey_validated :
  rows (validated survey)
  = [ [Str "25-34"; Str "Engineer"; Num 50000%float; Str "USD"; Str "us"; Num 0%float];
      [Str "18-24"; Str "Chef"; Num 52000%float; Str "pounds"; Str "uk"; Str "none"] ].
Proof. vm_compute. reflexivity. Qed.

(** ** Sums and numbers read from text *)

(** The depth given to [pairwise_sum] never runs out: any depth from the
    length of the list on gives the same sum. *)
Lemma pairwise_sum_depth (d1 d2 : nat) (l : list float) :
  (List.length l <= d1)%nat -> (List.length l <= d2)%nat ->
  pairwise_sum d1 l = pairwise_sum d2 l.
Proof.
  revert d2 l. induction d1 as [|d IH]; intros d2 l H1 H2.
  - destruct l; [| simpl in H1; lia]. destruct d2; reflexivity.
  - destruct d2 as [|d'].
    + destruct l; [reflexivity | simpl in H2; lia].
    + cbn [pairwise_sum].
      destruct (List.length l <? 8)%nat eqn:E8; [reflexivity |].
      destruct (List.length l <=? 128)%nat eqn:E128; [reflexivity |].
      apply Nat.ltb_ge in E8. apply Nat.leb_gt in E128.
      set (n := List.length l) in *.
      assert (Hhalf : (n / 2 <= n)%nat) by (apply Nat.Div0.div_le_upper_bound; lia).
      assert (Hhalf2 : (2 * (n / 2) <= n)%nat) by (apply Nat.Div0.mul_div_le).
      assert (Hmod : ((n / 2) mod 8 < 8)%nat) by (apply Nat.mod_upper_bound; lia).
      assert (Hbig : (64 <= n / 2)%nat) by (apply Nat.div_le_lower_bound; lia).
      assert (Hmodle : ((n / 2) mod 8 <= n / 2)%nat) by (apply Nat.Div0.mod_le).
      f_equal; apply IH; rewrite ?length_firstn, ?length_skipn; fold n; lia.
Qed.

(** Salary texts as [pd.to_numeric] reads them once the commas are gone: a
    decimal, with or without exponent and blanks around it, and the words
    for infinity are numbers; anything else is coerced to NaN. *)
Example salary_texts_read_as_numbers :
  map (fun s => to_numeric_cell (Str s))
    [ "50,000"; "1e5"; " 12.50 "; "-5"; "inf"; "n/a"; "12 000"; "" ]%string
  = [ Num 50000%float; Num 100000%float; Num 12.5%float; Num (-5)%float;
      Num infinity; NaN; NaN; NaN ].
Proof. vm_compute. reflexivity. Qed.

(** ** What reaches the outlier filter *)

Lemma enforce_required_in (df : DataFrame) (r : row) (field : string) (j : nat) :
  In r (rows (enforce_required df)) ->
  In field required_fields ->
  col_index field (columns df) = Some j ->
  field_ok field j r = true.
Proof.
  unfold enforce_required. rewrite enforce_fields_rows, filter_In.
  intros [_ Hall] Hin Hj. rewrite forallb_forall in Hall.
  specialize (Hall field Hin). unfold field_check in Hall. now rewrite Hj in Hall.
Qed.

Lemma salary_is_required : In salary_col required_fields.
Proof. simpl. auto. Qed.

(** Every salary that survives validation is a number above zero. *)
Lemma validated_salary (df : DataFrame) (j : nat) (r : row) :
  col_index salary_col (columns (validated df)) = Some j ->
  In r (rows (validated df)) ->
  exists x, get_cell j r = Num x /\ is_nan x = false /\ (0 <? x)%float = true.
Proof.
  intros Hj Hr. apply salary_ok_iff.
  apply (enforce_required_in (prepared df)); [exact Hr | apply salary_is_required |].
  unfold validated, enforce_required in Hj.
  now rewrite enforce_fields_columns in Hj.
Qed.

Lemma valid_values_all (l : list cell) :
  (forall c, In c l -> exists x, c = Num x /\ is_nan x = false) ->
  map Num (valid_values l) = l /\ List.length (valid_values l) = List.length l.
Proof.
  induction l as [|c t IH]; intros H; simpl; [split; reflexivity |].
  destruct (H c (or_introl eq_refl)) as [x [-> Hx]]. rewrite Hx. simpl.
  destruct IH as [IH1 IH2]; [intros c' Hc'; apply H; now right |].
  now rewrite IH1, IH2.
Qed.

Lemma validated_salaries_valid (df : DataFrame) (j : nat) :
  col_index salary_col (columns (validated df)) = Some j ->
  map Num (valid_values (series j (validated df))) = series j (validated df)
  /\ List.length (valid_values (series j (validated df))) = len (validated df).
Proof.
  intros Hj.
  destruct (valid_values_all (series j (validated df))) as [H1 H2].
  - intros c Hc. unfold series in Hc. apply in_map_iff in Hc.
    destruct Hc as [r [<- Hr]].
    destruct (validated_salary df r Hj Hr) as [x [Hx [Hn _]]]. now exists x.
  - split; [exact H1 |]. rewrite H2. unfold series, len. apply length_map.
Qed.

(** ** The outlier filter *)

(** On a series of numbers none of which is NaN, the statistics range over
    all the values. *)
Lemma stats_of_numbers (l : list cell) :
  map Num (valid_values l) = l ->
  filled_values l = valid_values l
  /\ forall avg : float,
       map (fun c => match c with
                     | Num f => if is_nan f then 0%float
                                else ((avg - f) * (avg - f))%float
                     | Str _ => 0%float
                     end) l
       = map (fun x => ((avg - x) * (avg - x))%float) (valid_values l).
Proof.
  induction l as [|c t IH]; simpl; intros H; [split; reflexivity |].
  destruct c as [f|s]; simpl in H.
  - destruct (is_nan f) eqn:Ef.
    + exfalso. apply (f_equal (@List.length cell)) in H.
      rewrite length_map in H. simpl in H.
      assert (Hle : List.length (valid_values t) <= List.length t).
      { clear. induction t as [|[g|u] t IH]; simpl; [lia | | lia].
        destruct (is_nan g); simpl; lia. }
      lia.
    + simpl in H. injection H as H. destruct (IH H) as [IH1 IH2].
      split; [now rewrite IH1 |]. intros avg. simpl. now rewrite IH2.
  - exfalso. destruct (valid_values t); discriminate H.
Qed.

(** C1. The outlier filter, on a frame whose salaries are numbers, none of
    them NaN, which is how required-field validation leaves the frame.
    Every row contributes its salary to the statistics: the mean is their
    sum over their number [n], the standard deviation is the sample one
    (squared deviations from the mean summed, over [n - 1], square root;
    NaN when [n <= 1]). The rows kept are, in order, exactly those whose
    salary [s] has [floor <= s <= mean + 3 std], both ends included, where
    [floor] is [mean - 3 std] when that is above zero and zero otherwise
    (also when it is NaN). Both limits are computed once, from the rows that
    entered the stage, and in [clean_dataset] those are the validated
    rows. *)
Theorem trim_outliers_three_sigma (V : DataFrame) (j : nat) :
  col_index salary_col (columns V) = Some j ->
  (forall r, In r (rows V) -> exists x, get_cell j r = Num x /\ is_nan x = false) ->
  let salaries := series j V in
  let xs := valid_values salaries in
  let n := len V in
  let mu := (fsum xs / float_of_nat n)%float in
  let sigma :=
    (if (n <=? 1)%nat then nan
     else sqrt (fsum (map (fun x => (mu - x) * (mu - x)) xs)
                / float_of_nat (n - 1)))%float in
  let lower := (mu - 3 * sigma)%float in
  let upper := (mu + 3 * sigma)%float in
  let floor := (if 0 <? lower then lower else 0)%float in
  map Num xs = salaries
  /\ List.length xs = n
  /\ mean salaries = mu
  /\ std salaries = sigma
  /\ rows (trim_outliers V) =
     filter (fun r =>
               match get_cell j r with
               | Num s => ((floor <=? s) && (s <=? upper))%float
               | Str _ => false
               end) (rows V)
  /\ columns (trim_outliers V) = columns V
  /\ (forall df,
        clean_dataset df = canonicalize (trim_outliers (validated df))
        /\ (col_index salary_col (columns (validated df)) = Some j ->
            forall r, In r (rows (validated df)) ->
                      exists x, get_cell j r = Num x /\ is_nan x = false
                                /\ (0 <? x)%float = true)).
Proof.
  intros Hj Hnum salaries xs n mu sigma lower upper floor.
  assert (Hvalid : map Num xs = salaries /\ List.length xs = List.length salaries).
  { apply valid_values_all. intros c Hc. unfold salaries, series in Hc.
    apply in_map_iff in Hc. destruct Hc as [r [<- Hr]]. now apply Hnum. }
  destruct Hvalid as [Hall Hlen].
  assert (Hn : List.length xs = n).
  { rewrite Hlen. unfold salaries, series, n, len. apply length_map. }
  destruct (@stats_of_numbers salaries Hall) as [Hfill Hsq]. fold xs in Hfill.
  assert (Hmean : mean salaries = mu).
  { unfold mean. fold xs. now rewrite Hfill, Hn. }
  assert (Hstd : std salaries = sigma).
  { unfold std. cbv zeta. fold xs. rewrite Hn, Hfill.
    fold mu. unfold sigma.
    destruct (n <=? 1)%nat; [reflexivity |]. now rewrite (Hsq mu). }
  split; [exact Hall |]. split; [exact Hn |].
  split; [exact Hmean |]. split; [exact Hstd |]. split; [| split].
  - unfold trim_outliers. rewrite Hj. cbv zeta.
    unfold filter_rows. cbn [rows].
    apply filter_ext. intros r. unfold within_limits, cell_ge, cell_le, py_max0.
    fold salaries. unfold lower_limit, upper_limit. rewrite Hmean, Hstd.
    destruct (get_cell j r); reflexivity.
  - apply trim_outliers_columns.
  - intros df. split; [reflexivity |]. intros Hjv r Hr.
    now apply (validated_salary df).
Qed.

Lemma trim_outliers_three_sigma_witness :
  col_index salary_col (columns (validated ladder)) = Some 0
  /\ len (validated ladder) = 22
  /\ len (trim_outliers (validated ladder)) = 21.
Proof.
  split; [reflexivity |]. split; [reflexivity |].
  assert (Hj : col_index salary_col (columns (validated ladder)) = Some 0)
    by reflexivity.
  assert (Hnum : forall r, In r (rows (validated ladder)) ->
                           exists x, get_cell 0 r = Num x /\ is_nan x = false).
  { intros r Hr. destruct (validated_salary ladder r Hj Hr) as (x & Hx & Hn & _).
    now exists x. }
  pose proof (@trim_outliers_three_sigma (validated ladder) 0 Hj Hnum) as H.
  cbv zeta in H. destruct H as (_ & _ & _ & _ & H & _).
  unfold len. rewrite H. vm_compute. reflexivity.
Defined.

(** The floor at work: with three salaries of 1e308 the sum overflows, the
    mean and the deviation are infinite and [mean - 3 std] is NaN; the
    floor is then zero and the three records are kept. *)
Example overflowing_salaries_are_kept :
  lower_limit (series 0 (validated huge_salaries)) = nan
  /\ upper_limit (series 0 (validated huge_salaries)) = infinity
  /\ clean_dataset huge_salaries
     = Ok (Frame [Column salary_col numeric; Column job_title_col object]
                 (rows huge_salaries)).
Proof. vm_compute. repeat split. Qed.

(** ** Dtypes of the text columns through the pipeline *)

Lemma nth_error_update_other {A : Type} (i j : nat) (f : A -> A) (l : list A) :
  i <> j -> nth_error (update_nth i f l) j = nth_error l j.
Proof.
  revert i j. induction l as [|x t IH]; intros [|i] [|j]; simpl;
    try reflexivity; try congruence.
  intros H. apply IH. congruence.
Qed.

Lemma accepts_str_convert_salary (field : string) (df : DataFrame) :
  field <> salary_col ->
  accepts_str field (columns (convert_salary df)) = accepts_str field (columns df).
Proof.
  intros Hf. unfold accepts_str, dtype_of. rewrite convert_salary_index.
  destruct (col_index field (columns df)) as [j|] eqn:Hj; [| reflexivity].
  unfold convert_salary.
  destruct (col_index salary_col (columns df)) as [js|] eqn:Hs; [| reflexivity].
  simpl. rewrite nth_error_update_other; [reflexivity |].
  intros ->. apply Hf. exact (col_index_inj _ _ _ Hj Hs).
Qed.

Lemma text_fields_not_salary :
  currency_col <> salary_col /\ other_currency_col <> salary_col
  /\ country_col <> salary_col.
Proof.
  repeat split; apply String.eqb_neq; vm_compute; reflexivity.
Qed.

Lemma text_columns_reach_canonicalize (df : DataFrame) :
  text_columns_are_text (trim_outliers (validated df))
  = text_columns_are_text (lower_columns df).
Proof.
  unfold text_columns_are_text.
  rewrite trim_outliers_columns. unfold validated, enforce_required.
  rewrite enforce_fields_columns. unfold prepared. rewrite fill_bonus_columns.
  destruct text_fields_not_salary as (H1 & H2 & H3).
  simpl. rewrite !accepts_str_convert_salary by assumption. reflexivity.
Qed.

(** What [clean_dataset] returns, when it returns. *)
Lemma clean_dataset_result (df : DataFrame) :
  clean_dataset df =
  if text_columns_are_text (lower_columns df)
  then Ok (Frame (columns (prepared df))
             (map (canon_row (columns (prepared df)))
                (rows (trim_outliers (validated df)))))
  else Raise AttributeError.
Proof.
  rewrite clean_dataset_stages, canonicalize_spec, text_columns_reach_canonicalize.
  rewrite trim_outliers_columns. unfold validated at 1 2, enforce_required.
  rewrite enforce_fields_columns. reflexivity.
Qed.

(** C10 (as amended). When the salary column is present and exactly one
    record survives required-field validation, the sample standard deviation
    of its salary is NaN, so is the upper limit, no salary passes the test
    of the outlier filter, and the filter leaves no record: whenever the
    pipeline returns, it returns an empty record set, and it does return
    when the currency, other-currency and country columns hold text. *)
Theorem lone_survivor_is_trimmed (df : DataFrame) (j : nat) :
  col_index salary_col (columns (validated df)) = Some j ->
  len (validated df) = 1 ->
  std (series j (validated df)) = nan
  /\ upper_limit (series j (validated df)) = nan
  /\ (forall r,
        within_limits j (lower_limit (series j (validated df)))
          (upper_limit (series j (validated df))) r = false)
  /\ rows (trim_outliers (validated df)) = []
  /\ (forall out, clean_dataset df = Ok out -> rows out = [])
  /\ (text_columns_are_text (lower_columns df) = true ->
      exists out, clean_dataset df = Ok out /\ rows out = []).
Proof.
  intros Hj Hone.
  destruct (validated_salaries_valid df Hj) as [_ Hlen]. rewrite Hone in Hlen.
  assert (Hstd : std (series j (validated df)) = nan).
  { unfold std. rewrite Hlen. reflexivity. }
  assert (Hup : upper_limit (series j (validated df)) = nan).
  { unfold upper_limit. rewrite Hstd.
    replace (3 * nan)%float with nan by reflexivity. apply add_nan_r. }
  assert (Hout : forall r,
             within_limits j (lower_limit (series j (validated df)))
               (upper_limit (series j (validated df))) r = false).
  { intros r. unfold within_limits. rewrite Hup. apply andb_false_iff. right.
    unfold cell_le. destruct (get_cell j r); [apply leb_nan_r | reflexivity]. }
  assert (Hrows : rows (trim_outliers (validated df)) = []).
  { unfold trim_outliers. rewrite Hj. simpl. apply filter_none.
    intros r _. apply Hout. }
  split; [exact Hstd |]. split; [exact Hup |]. split; [exact Hout |].
  split; [exact Hrows |]. split.
  - intros out. rewrite clean_dataset_result, Hrows.
    destruct (text_columns_are_text (lower_columns df)); [| discriminate].
    intros H. injection H as <-. reflexivity.
  - intros Ht. rewrite clean_dataset_result, Hrows, Ht.
    eexists. split; reflexivity.
Qed.

Lemma lone_survivor_is_trimmed_witness :
  col_index salary_col (columns (validated lone_record)) = Some 2
  /\ len (validated lone_record) = 1
  /\ rows (trim_outliers (validated lone_record)) = [].
Proof.
  split; [reflexivity |]. split; [reflexivity |].
  exact (proj1 (proj2 (proj2 (proj2
           (lone_survivor_is_trimmed lone_record (j := 2) eq_refl eq_refl))))).
Defined.

(** C10, as stated, fails on a frame without a salary column: one record
    survives validation, the outlier filter is skipped, and the record is
    returned. *)
Lemma lone_survivor_without_salary_column :
  has_column salary_col (lower_columns no_salary) = false
  /\ len (validated no_salary) = 1
  /\ clean_dataset no_salary
     = Ok (Frame [Column "job title" object;
                  Column "what country do you work in?" object]
                 [ [Str "Engineer"; Str "United States"] ]).
Proof. vm_compute. repeat split. Qed.

(** ** Absent columns *)

Lemma has_column_false (field : string) (df : DataFrame) :
  has_column field df = false <-> col_index field (columns df) = None.
Proof.
  unfold has_column. destruct (col_index field (columns df)); split;
    congruence.
Qed.

Lemma forallb_filter_skip {A : Type} (p q : A -> bool) (l : list A) :
  (forall x, q x = false -> p x = true) ->
  forallb p (filter q l) = forallb p l.
Proof.
  intros H. induction l as [|x t IH]; simpl; [reflexivity |].
  destruct (q x) eqn:E; simpl; rewrite IH; [reflexivity |].
  now rewrite (H x E).
Qed.

(** C9. A stage whose column is absent returns the frame it was given,
    raising nothing: salary conversion, the salary check and the outlier
    filter without the salary column, bonus filling without the bonus
    column, the check of any required field without its column, and each
    canonicalization without its column. The required-field loop is the
    loop over the fields that are present; without a salary column the
    pipeline is the remaining stages on the remaining columns; and with
    none of the three text columns the pipeline returns a frame. *)
Theorem absent_column_is_skipped (df : DataFrame) :
  (has_column salary_col df = false ->
     convert_salary df = df /\ require_field df salary_col = df
     /\ trim_outliers df = df)
  /\ (has_column bonus_col df = false -> fill_bonus df = df)
  /\ (forall field, has_column field df = false -> require_field df field = df)
  /\ (has_column currency_col df = false -> standardize_currency df = Ok df)
  /\ (has_column other_currency_col df = false ->
        standardize_other_currency df = Ok df)
  /\ (has_column country_col df = false -> standardize_country df = Ok df)
  /\ enforce_required df
     = enforce_fields (filter (fun f => has_column f df) required_fields) df
  /\ (has_column salary_col (lower_columns df) = false ->
        clean_dataset df
        = canonicalize
            (enforce_fields [age_col; job_title_col; currency_col; country_col]
               (fill_bonus (lower_columns (drop_duplicates df)))))
  /\ (has_column currency_col (lower_columns df) = false ->
      has_column other_currency_col (lower_columns df) = false ->
      has_column country_col (lower_columns df) = false ->
      exists out, clean_dataset df = Ok out).
Proof.
  assert (Hreq : forall field, has_column field df = false ->
                               require_field df field = df).
  { intros field H. apply has_column_false in H. unfold require_field.
    now rewrite H. }
  split; [| split; [| split; [| split; [| split; [| split; [| split; [| split]]]]]]].
  - intros H. split; [| split; [now apply Hreq |]];
      apply has_column_false in H.
    + unfold convert_salary. now rewrite H.
    + unfold trim_outliers. now rewrite H.
  - intros H. apply has_column_false in H. unfold fill_bonus. now rewrite H.
  - exact Hreq.
  - intros H. apply has_column_false in H. unfold standardize_currency.
    now rewrite H.
  - intros H. apply has_column_false in H. unfold standardize_other_currency.
    now rewrite H.
  - intros H. apply has_column_false in H. unfold standardize_country.
    now rewrite H.
  - unfold enforce_required. rewrite !enforce_fields_frame. f_equal.
    apply filter_ext. intros r. symmetry. apply forallb_filter_skip.
    intros f Hf. apply has_column_false in Hf. unfold field_check. now rewrite Hf.
  - intros H. apply has_column_false in H.
    change (columns (lower_columns df))
      with (columns (lower_columns (drop_duplicates df))) in H.
    rewrite clean_dataset_stages. f_equal.
    unfold validated, prepared.
    set (d := lower_columns (drop_duplicates df)) in *.
    assert (Hc : convert_salary d = d) by (unfold convert_salary; now rewrite H).
    rewrite Hc.
    assert (Hb : col_index salary_col (columns (fill_bonus d)) = None)
      by now rewrite fill_bonus_columns.
    assert (He : enforce_required (fill_bonus d)
                 = enforce_fields [age_col; job_title_col; currency_col; country_col]
                     (fill_bonus d)).
    { unfold enforce_required. rewrite !enforce_fields_frame. f_equal.
      apply filter_ext. intros r. unfold required_fields. simpl forallb.
      unfold field_check at 3. rewrite Hb. reflexivity. }
    rewrite He. unfold trim_outliers.
    now rewrite enforce_fields_columns, Hb.
  - intros H1 H2 H3. rewrite clean_dataset_result.
    apply has_column_false in H1, H2, H3.
    assert (Ht : text_columns_are_text (lower_columns df) = true).
    { unfold text_columns_are_text, accepts_str, dtype_of. cbn [forallb].
      now rewrite H1, H2, H3. }
    rewrite Ht. eexists. reflexivity.
Qed.

(* ================================================================== *)
(** * Facts about the string methods *)

Module StringFacts.

Import PyStr Props.
Local Open Scope string_scope.

Ltac by_cases_on_ascii c :=
  destruct c as [[] [] [] [] [] [] [] []]; reflexivity.

Lemma is_space_to_lower (c : ascii) : is_space (to_lower c) = is_space c.
Proof. by_cases_on_ascii c. Qed.

Lemma is_space_to_upper (c : ascii) : is_space (to_upper c) = is_space c.
Proof. by_cases_on_ascii c. Qed.

(** A letter is no whitespace. *)
Lemma letter_not_space (c : ascii) :
  is_lower c || is_upper c = true -> is_space c = false.
Proof.
  destruct c as [[] [] [] [] [] [] [] []]; vm_compute; intros H;
    first [reflexivity | discriminate H].
Qed.

(** ** Blank texts *)

Lemma rstrip_empty (s : string) : rstrip s = "" <-> is_blank s = true.
Proof.
  induction s as [|c t IH]; simpl; [tauto |].
  destruct (rstrip t) eqn:E.
  - destruct (is_space c); simpl.
    + rewrite <- IH. tauto.
    + split; discriminate.
  - split; [discriminate |]. intros H. apply andb_true_iff in H.
    destruct H as [_ H]. apply IH in H. discriminate.
Qed.

Lemma is_blank_lstrip (s : string) : is_blank (lstrip s) = is_blank s.
Proof.
  induction s as [|c t IH]; simpl; [reflexivity |].
  destruct (is_space c) eqn:E; simpl; [exact IH | now rewrite E].
Qed.

Lemma is_blank_rstrip (s : string) : is_blank (rstrip s) = is_blank s.
Proof.
  induction s as [|c t IH]; simpl; [reflexivity |].
  destruct (rstrip t) eqn:E.
  - simpl in IH. rewrite <- IH.
    destruct (is_space c) eqn:Ec; simpl; rewrite ?Ec; reflexivity.
  - simpl. now rewrite <- IH.
Qed.

Lemma strip_empty (s : string) : strip s = "" <-> is_blank s = true.
Proof. unfold strip. now rewrite rstrip_empty, is_blank_lstrip. Qed.

Lemma is_blank_strip (s : string) : is_blank (strip s) = is_blank s.
Proof. unfold strip. now rewrite is_blank_rstrip, is_blank_lstrip. Qed.

(** [strip(s) != ''] as the negation of blankness *)
Lemma strip_nonempty (s : string) :
  negb (String.eqb (strip s) "") = negb (is_blank s).
Proof.
  f_equal. destruct (String.eqb (strip s) "") eqn:E.
  - apply String.eqb_eq, strip_empty in E. now rewrite E.
  - destruct (is_blank s) eqn:B; [| reflexivity].
    apply strip_empty in B. rewrite B in E. discriminate.
Qed.


Lemma is_blank_upper (s : string) : is_blank (upper s) = is_blank s.
Proof.
  induction s as [|c t IH]; simpl; [reflexivity |].
  now rewrite is_space_to_upper, IH.
Qed.

Lemma is_blank_collapse (b : bool) (s : string) :
  is_blank (collapse_from b s) = is_blank s.
Proof.
  revert b. induction s as [|c t IH]; intros b; simpl; [reflexivity |].
  destruct (is_space c) eqn:E; simpl.
  - destruct b; simpl; apply IH.
  - now rewrite E.
Qed.

Lemma is_blank_title (b : bool) (s : string) :
  is_blank (title_from b s) = is_blank s.
Proof.
  revert b. induction s as [|c t IH]; intros b; simpl; [reflexivity |].
  destruct (is_lower c || is_upper c) eqn:E; simpl.
  - rewrite (letter_not_space c E).
    destruct b; [rewrite is_space_to_lower | rewrite is_space_to_upper];
      now rewrite (letter_not_space c E).
  - now rewrite IH.
Qed.

(** ** [strip] against itself and against case mapping *)












(** ** Dict lookups *)


Lemma dict_get_miss {V : Type} (d : list (string * V)) (k : string) (default : V) :
  existsb (fun kv => String.eqb k (fst kv)) d = false ->
  dict_get d k default = default.
Proof.
  induction d as [|[k' v'] d IH]; simpl; [reflexivity |].
  destruct (String.eqb k k'); simpl; [discriminate | exact IH].
Qed.

(** A lookup returns the default or a value of the table. *)
Lemma dict_get_cases {V : Type} (d : list (string * V)) (k : string) (default : V) :
  dict_get d k default = default \/ In (dict_get d k default) (map snd d).
Proof.
  induction d as [|[k' v'] d IH]; simpl; [now left |].
  destruct (String.eqb k k'); [right; now left |].
  destruct IH as [IH | IH]; [now left | right; now right].
Qed.

End StringFacts.

(* ================================================================== *)
(** * Canonicalization of currency and country texts *)

Import StringFacts.

Local Open Scope string_scope.

Lemma distinct_NoDup (l : list string) : distinct l = true -> NoDup l.
Proof.
  induction l as [|x t IH]; simpl; intros H; [constructor |].
  apply andb_true_iff in H. destruct H as [H1 H2]. constructor; [| now apply IH].
  intros Hin. apply negb_true_iff in H1.
  assert (Hex : existsb (String.eqb x) t = true)
    by (apply existsb_exists; exists x; split; [exact Hin | apply String.eqb_refl]).
  congruence.
Qed.



(** The country cell after [.str.strip()] and the whitespace collapse. *)
Lemma canonical_country_text (s : string) :
  canonical_country (Str s) =
  let s1 := collapse_ws (strip s) in
  if is_blank s then Str s1
  else Str (dict_get country_mapping_lower (strip (lower s1)) (title (strip s1))).
Proof.
  unfold canonical_country, str_cell, country_lambda. cbv zeta.
  rewrite strip_nonempty. unfold collapse_ws at 1.
  rewrite is_blank_collapse, is_blank_strip.
  destruct (is_blank s); reflexivity.
Qed.








(* ================================================================== *)
(** * One cell through the whole pipeline *)

Ltac labels_differ := apply String.eqb_neq; vm_compute; reflexivity.

Lemma col_index_other (f g : string) (cols : list column) (j : nat) :
  col_index f cols = Some j -> f <> g -> col_index g cols <> Some j.
Proof.
  intros Hf Hne Hg. apply Hne. exact (col_index_inj _ _ _ Hf Hg).
Qed.

Lemma field_ok_cell (field : string) (j : nat) (r r' : row) :
  get_cell j r = get_cell j r' -> field_ok field j r = field_ok field j r'.
Proof. unfold field_ok. now intros ->. Qed.

Lemma at_col_length (field : string) (cols : list column) (f : cell -> cell)
    (r : row) :
  List.length (at_col field cols f r) = List.length r.
Proof.
  unfold at_col. destruct (col_index field cols); [apply update_nth_length | reflexivity].
Qed.

(** ** Lower-cased labels stay as they are *)

Lemma to_lower_idempotent (c : ascii) : to_lower (to_lower c) = to_lower c.
Proof. destruct c as [[] [] [] [] [] [] [] []]; reflexivity. Qed.

Lemma lower_idempotent (s : string) : lower (lower s) = lower s.
Proof.
  induction s as [|c t IH]; simpl; [reflexivity |].
  now rewrite to_lower_idempotent, IH.
Qed.

Lemma prepared_labels (df : DataFrame) :
  map label (columns (prepared df)) = lower_labels df.
Proof.
  unfold prepared. rewrite fill_bonus_columns. unfold convert_salary.
  destruct (col_index salary_col (columns (lower_columns (drop_duplicates df)))).
  - rewrite map_column_labels. simpl. now rewrite map_map.
  - simpl. now rewrite map_map.
Qed.

Lemma lower_columns_fixed (cols : list column) (rws : list row) :
  map lower (map label cols) = map label cols ->
  columns (lower_columns (Frame cols rws)) = cols.
Proof.
  simpl. induction cols as [|c cs IH]; simpl; intros H; [reflexivity |].
  injection H as Hc Hcs. rewrite Hc, (IH Hcs). now destruct c.
Qed.

(** The labels of a cleaned frame are lower-cased already. *)
Lemma lower_columns_prepared (df : DataFrame) (rws : list row) :
  columns (lower_columns (Frame (columns (prepared df)) rws))
  = columns (prepared df).
Proof.
  apply lower_columns_fixed. rewrite prepared_labels. unfold lower_labels.
  rewrite !map_map. apply map_ext. intros c. apply lower_idempotent.
Qed.

(** ** Cells of one row through [prep_row] and [canon_row] *)

Lemma prep_row_untouched (cols : list column) (field : string) (j : nat) (r : row) :
  col_index field cols = Some j ->
  field <> salary_col -> field <> bonus_col ->
  get_cell j (prep_row cols r) = get_cell j r.
Proof.
  intros Hj Hs Hb. unfold prep_row.
  rewrite !get_cell_at_col_other; [reflexivity | |];
    eapply col_index_other; eauto.
Qed.

Lemma prep_row_salary (cols : list column) (j : nat) (r : row) :
  col_index salary_col cols = Some j ->
  j < List.length r ->
  get_cell j (prep_row cols r) = to_numeric_cell (get_cell j r).
Proof.
  intros Hj Hlen. unfold prep_row.
  rewrite get_cell_at_col_other.
  - now apply get_cell_at_col_same.
  - eapply col_index_other; [exact Hj | labels_differ].
Qed.

Lemma prep_row_bonus (cols : list column) (j : nat) (r : row) :
  col_index bonus_col cols = Some j ->
  j < List.length r ->
  get_cell j (prep_row cols r) = fillna (Num 0%float) (get_cell j r).
Proof.
  intros Hj Hlen. unfold prep_row.
  rewrite get_cell_at_col_same; [| exact Hj | now rewrite at_col_length].
  f_equal. apply get_cell_at_col_other.
  eapply col_index_other; [exact Hj | labels_differ].
Qed.

Lemma canon_row_untouched (cols : list column) (field : string) (j : nat) (r : row) :
  col_index field cols = Some j ->
  field <> currency_col -> field <> other_currency_col -> field <> country_col ->
  get_cell j (canon_row cols r) = get_cell j r.
Proof.
  intros Hj H1 H2 H3. unfold canon_row.
  rewrite !get_cell_at_col_other; [reflexivity | | |];
    eapply col_index_other; eauto.
Qed.

Lemma canon_row_currency (cols : list column) (j : nat) (r : row) :
  col_index currency_col cols = Some j ->
  j < List.length r ->
  get_cell j (canon_row cols r) = canonical_currency (get_cell j r).
Proof.
  intros Hj Hlen. unfold canon_row.
  do 2 (rewrite get_cell_at_col_other
          by (eapply col_index_other; [exact Hj | labels_differ])).
  now apply get_cell_at_col_same.
Qed.

Lemma canon_row_country (cols : list column) (j : nat) (r : row) :
  col_index country_col cols = Some j ->
  j < List.length r ->
  get_cell j (canon_row cols r) = canonical_country (get_cell j r).
Proof.
  intros Hj Hlen. unfold canon_row.
  rewrite get_cell_at_col_same; [| exact Hj | now rewrite !at_col_length].
  f_equal. rewrite !get_cell_at_col_other; [reflexivity | |];
    (eapply col_index_other; [exact Hj | labels_differ]).
Qed.

(** ** Rows of the result, traced back *)

Lemma prepared_row_origin (df : DataFrame) (r1 : row) :
  In r1 (rows (prepared df)) ->
  exists r0, In r0 (rows df) /\ r1 = prep_row (columns (lower_columns df)) r0.
Proof.
  rewrite prepared_rows, in_map_iff. intros [r0 [<- H0]].
  exists r0. split; [eapply keep_first_incl, H0 | reflexivity].
Qed.

Lemma validated_incl (df : DataFrame) (r : row) :
  In r (rows (validated df)) -> In r (rows (prepared df)).
Proof.
  unfold validated, enforce_required. rewrite enforce_fields_rows, filter_In. tauto.
Qed.

(** A row of the result is a validated row, canonicalized. *)
Lemma clean_row_origin (df out : DataFrame) (r : row) :
  clean_dataset df = Ok out ->
  In r (rows out) ->
  columns out = columns (prepared df)
  /\ text_columns_are_text (lower_columns df) = true
  /\ exists r1, In r1 (rows (validated df))
                /\ r = canon_row (columns (prepared df)) r1.
Proof.
  rewrite clean_dataset_result.
  destruct (text_columns_are_text (lower_columns df)); [| discriminate].
  intros H. injection H as <-. simpl. rewrite in_map_iff.
  intros [r1 [<- H1]]. split; [reflexivity |]. split; [reflexivity |].
  exists r1. split; [now apply trim_outliers_incl | reflexivity].
Qed.

(** ** Frames as [read_csv] builds them *)

Lemma row_typed_length (cols : list column) (r : row) :
  row_typed cols r = true -> List.length r = List.length cols.
Proof.
  revert r. induction cols as [|c cs IH]; intros [|x t]; simpl;
    try discriminate; [reflexivity |].
  intros H. apply andb_true_iff in H. destruct H as [_ H]. now rewrite (IH t H).
Qed.

Lemma row_typed_cell (cols : list column) (r : row) (j : nat) (c : column) :
  row_typed cols r = true ->
  nth_error cols j = Some c ->
  cell_typed (col_dtype c) (get_cell j r) = true.
Proof.
  unfold get_cell. revert r j. induction cols as [|c0 cs IH]; intros [|x t] [|j]; simpl;
    try discriminate.
  - intros H Hc. injection Hc as <-. now apply andb_true_iff in H.
  - intros H Hc. apply andb_true_iff in H. destruct H as [_ H]. now apply IH.
Qed.

Lemma well_typed_row (df : DataFrame) (r : row) :
  well_typed df = true -> In r (rows df) -> row_typed (columns df) r = true.
Proof.
  unfold well_typed. rewrite forallb_forall. auto.
Qed.

Lemma col_index_lower_columns (field : string) (df : DataFrame) (j : nat) :
  col_index field (columns (lower_columns df)) = Some j ->
  exists c, nth_error (columns df) j = Some c
            /\ nth_error (columns (lower_columns df)) j
               = Some (Column (lower (label c)) (col_dtype c)).
Proof.
  intros Hj. destruct (col_index_nth _ _ Hj) as [c' [Hc' _]].
  simpl in Hc'. rewrite nth_error_map in Hc'.
  destruct (nth_error (columns df) j) as [c|] eqn:E; [| discriminate].
  exists c. split; [reflexivity |]. simpl. rewrite nth_error_map, E. reflexivity.
Qed.

(** A cell of a text column of a well-typed frame is a text or missing. *)
Lemma text_cell_shape (df : DataFrame) (field : string) (j : nat) (r0 : row) :
  well_typed df = true ->
  accepts_str field (columns (lower_columns df)) = true ->
  col_index field (columns (lower_columns df)) = Some j ->
  In r0 (rows df) ->
  (exists s, get_cell j r0 = Str s) \/ isna (get_cell j r0) = true.
Proof.
  intros Hwt Hacc Hj Hr0.
  destruct (col_index_lower_columns _ _ Hj) as [c [Hc Hlc]].
  unfold accepts_str, dtype_of in Hacc. rewrite Hj, Hlc in Hacc. simpl in Hacc.
  assert (Ht : cell_typed (col_dtype c) (get_cell j r0) = true)
    by (eapply row_typed_cell; [eapply well_typed_row; eassumption | exact Hc]).
  destruct (col_dtype c); [discriminate |].
  destruct (get_cell j r0) as [x|s]; simpl in *; [now right | left; now exists s].
Qed.

(* ================================================================== *)
(** * The bonus column *)

Lemma notna_fillna_zero (c : cell) : notna (fillna (Num 0%float) c) = true.
Proof.
  unfold fillna, notna. destruct (isna c) eqn:E; [reflexivity | now rewrite E].
Qed.

Lemma canon_row_length (cols : list column) (r : row) :
  List.length (canon_row cols r) = List.length r.
Proof. unfold canon_row. now rewrite !at_col_length. Qed.

Lemma col_index_in_range (field : string) (cols : list column) (j : nat) :
  col_index field cols = Some j -> j < List.length cols.
Proof.
  intros Hj. destruct (col_index_nth _ _ Hj) as [c [Hc _]].
  apply nth_error_Some. congruence.
Qed.

(** C3 (as amended). In the frame the pipeline returns, the bonus cell of
    every record is the bonus cell of the input record it comes from with a
    missing value replaced by 0: a missing bonus becomes 0, and any other
    bonus, a number or a text of any kind, is left as it was. No bonus cell
    of the result is missing. *)
Theorem bonus_missing_becomes_zero (df out : DataFrame) (j : nat) (r : row) :
  well_typed df = true ->
  clean_dataset df = Ok out ->
  col_index bonus_col (columns out) = Some j ->
  In r (rows out) ->
  notna (get_cell j r) = true
  /\ exists r0,
       In r0 (rows df)
       /\ r = canon_row (columns out) (prep_row (columns (lower_columns df)) r0)
       /\ get_cell j r = fillna (Num 0%float) (get_cell j r0)
       /\ (isna (get_cell j r0) = true -> get_cell j r = Num 0%float)
       /\ (isna (get_cell j r0) = false -> get_cell j r = get_cell j r0).
Proof.
  intros Hwt Hclean Hj Hr.
  destruct (clean_row_origin df r Hclean Hr) as (Hcols & _ & r1 & Hr1 & ->).
  apply validated_incl, prepared_row_origin in Hr1.
  destruct Hr1 as (r0 & Hr0 & ->).
  rewrite Hcols in Hj |- *.
  assert (Hjl : col_index bonus_col (columns (lower_columns df)) = Some j)
    by now rewrite <- prepared_index.
  assert (Hlen : j < List.length r0).
  { rewrite (row_typed_length _ _ (well_typed_row _ _ Hwt Hr0)).
    apply col_index_in_range in Hjl. simpl in Hjl. now rewrite length_map in Hjl. }
  assert (Hcell : get_cell j (canon_row (columns (prepared df))
                                (prep_row (columns (lower_columns df)) r0))
                  = fillna (Num 0%float) (get_cell j r0)).
  { rewrite (@canon_row_untouched _ bonus_col) by (first [exact Hj | labels_differ]).
    now apply prep_row_bonus. }
  split; [rewrite Hcell; apply notna_fillna_zero |].
  exists r0. split; [exact Hr0 |]. split; [reflexivity |]. split; [exact Hcell |].
  rewrite Hcell. unfold fillna. split; intros ->; reflexivity.
Qed.

Lemma bonus_missing_becomes_zero_witness :
  notna (get_cell 1 [Num 50000%float; Num 0%float]) = true
  /\ exists r0,
       In r0 (rows bonus_texts)
       /\ [Num 50000%float; Num 0%float]
          = canon_row (columns bonus_texts_cleaned)
              (prep_row (columns (lower_columns bonus_texts)) r0)
       /\ get_cell 1 [Num 50000%float; Num 0%float]
          = fillna (Num 0%float) (get_cell 1 r0)
       /\ (isna (get_cell 1 r0) = true ->
           get_cell 1 [Num 50000%float; Num 0%float] = Num 0%float)
       /\ (isna (get_cell 1 r0) = false ->
           get_cell 1 [Num 50000%float; Num 0%float] = get_cell 1 r0).
Proof.
  apply (@bonus_missing_becomes_zero bonus_texts bonus_texts_cleaned 1
           [Num 50000%float; Num 0%float]).
  - vm_compute. reflexivity.
  - vm_compute. reflexivity.
  - vm_compute. reflexivity.
  - simpl. right. left. reflexivity.
Defined.

(** C3, as stated, fails on a bonus that is a text: the pipeline fills the
    missing bonus with 0 and returns the texts "n/a" and "1,500" as
    they were. *)
Lemma bonus_text_is_kept :
  clean_dataset bonus_texts = Ok bonus_texts_cleaned
  /\ map (get_cell 1) (rows bonus_texts_cleaned)
     = [Str "n/a"; Num 0%float; Str "1,500"].
Proof. vm_compute. split; reflexivity. Qed.

(* ================================================================== *)
(** * Running the pipeline on its own result *)

Lemma text_ok_filled (field : string) (j : nat) (r : row) (t : string) :
  field <> salary_col ->
  get_cell j r = Str t ->
  field_ok field j r = negb (is_blank t).
Proof.
  intros Hf Hc. unfold field_ok.
  destruct (String.eqb field salary_col) eqn:E;
    [apply String.eqb_eq in E; contradiction |].
  rewrite Hc. simpl. apply strip_nonempty.
Qed.

Lemma currency_values_not_blank :
  forall v, In v (map snd currency_mapping) -> is_blank v = false.
Proof.
  assert (H : forallb (fun v => negb (is_blank v)) (map snd currency_mapping) = true)
    by (vm_compute; reflexivity).
  rewrite forallb_forall in H. intros v Hv. now apply negb_true_iff, H.
Qed.

Lemma country_values_not_blank :
  forall v, In v (map snd country_mapping_lower) -> is_blank v = false.
Proof.
  assert (H : forallb (fun v => negb (is_blank v))
                (map snd country_mapping_lower) = true)
    by (vm_compute; reflexivity).
  rewrite forallb_forall in H. intros v Hv. now apply negb_true_iff, H.
Qed.

(** A currency code that is not blank is canonicalized to one that is not. *)
Lemma currency_stays_filled (s : string) :
  is_blank s = false ->
  exists t, canonical_currency (Str s) = Str t /\ is_blank t = false.
Proof.
  intros Hb. unfold canonical_currency, str_cell, replace_cell.
  eexists. split; [reflexivity |].
  destruct (dict_get_cases currency_mapping (upper (strip s)) (upper (strip s)))
    as [-> | Hin].
  - now rewrite is_blank_upper, is_blank_strip.
  - now apply currency_values_not_blank.
Qed.

Lemma country_stays_filled (s : string) :
  is_blank s = false ->
  exists t, canonical_country (Str s) = Str t /\ is_blank t = false.
Proof.
  intros Hb. rewrite canonical_country_text. cbv zeta. rewrite Hb.
  eexists. split; [reflexivity |].
  destruct (dict_get_cases country_mapping_lower
              (strip (lower (collapse_ws (strip s))))
              (title (strip (collapse_ws (strip s))))) as [-> | Hin].
  - unfold title, collapse_ws.
    now rewrite is_blank_title, is_blank_strip, is_blank_collapse, is_blank_strip.
  - now apply country_values_not_blank.
Qed.

(** A validated cell of a text column is a text that is not blank. *)
Lemma validated_text_cell (df : DataFrame) (field : string) (j : nat) (r1 : row) :
  well_typed df = true ->
  accepts_str field (columns (lower_columns df)) = true ->
  col_index field (columns (lower_columns df)) = Some j ->
  field <> salary_col -> field <> bonus_col ->
  In r1 (rows (prepared df)) ->
  field_ok field j r1 = true ->
  exists s, get_cell j r1 = Str s /\ is_blank s = false.
Proof.
  intros Hwt Hacc Hj Hs Hb Hr1 Hok.
  destruct (prepared_row_origin df r1 Hr1) as (r0 & Hr0 & ->).
  assert (Hcell : get_cell j (prep_row (columns (lower_columns df)) r0)
                  = get_cell j r0)
    by (eapply prep_row_untouched; eauto).
  destruct (text_cell_shape df field r0 Hwt Hacc Hj Hr0) as [[s Hstr] | Hna].
  - exists s. rewrite Hcell. split; [exact Hstr |].
    rewrite (@text_ok_filled field j _ s) in Hok by (first [exact Hs | congruence]).
    now apply negb_true_iff in Hok.
  - exfalso. unfold field_ok in Hok.
    destruct (String.eqb field salary_col);
      rewrite Hcell in Hok; unfold notna in Hok; rewrite Hna in Hok;
      discriminate Hok.
Qed.

Lemma text_columns_accept (df : DataFrame) :
  text_columns_are_text df = true ->
  accepts_str currency_col (columns df) = true
  /\ accepts_str country_col (columns df) = true.
Proof.
  unfold text_columns_are_text. cbn [forallb]. rewrite !andb_true_iff. tauto.
Qed.

(** C2 (as amended). On a frame as [read_csv] builds it, of ASCII text and
    with labels that stay distinct when lower-cased, every record of the
    frame the pipeline returns satisfies the required-field rules: of the
    five required fields, those whose column exists are filled in (not
    missing, not blank after stripping), the salary being a number above
    zero. The required-field check applied to the returned frame therefore
    removes no record. (Deduplication and the outlier filter, applied to the
    returned frame, can still remove records.) *)
Theorem returned_records_pass_validation (df out : DataFrame) :
  well_typed df = true ->
  ascii_frame df = true ->
  distinct_labels df = true ->
  clean_dataset df = Ok out ->
  let filled (c : cell) :=
    match c with
    | Num x => is_nan x = false
    | Str s => strip s <> EmptyString
    end in
  let positive (c : cell) :=
    exists x, c = Num x /\ is_nan x = false /\ (0 <? x)%float = true in
  let passes (field : string) (check : cell -> Prop) (r : row) :=
    forall j, col_index field (columns out) = Some j -> check (get_cell j r) in
  (forall r,
     In r (rows out) ->
     passes "how old are you?" filled r
     /\ passes "job title" filled r
     /\ passes salary_col positive r
     /\ passes "please indicate the currency" filled r
     /\ passes "what country do you work in?" filled r)
  /\ enforce_required out = out
  /\ removed out (enforce_required out) = 0.
Proof.
  intros Hwt _ _ Hclean filled positive passes.
  pose proof Hclean as Hres. rewrite clean_dataset_result in Hres.
  destruct (text_columns_are_text (lower_columns df)) eqn:Htext; [| discriminate].
  injection Hres as Hout.
  destruct (text_columns_accept _ Htext) as [Hacc1 Hacc2].
  assert (Hcols : columns out = columns (prepared df)) by (now rewrite <- Hout).
  assert (Hok : forall r f j,
             In r (rows out) -> In f required_fields ->
             col_index f (columns out) = Some j -> field_ok f j r = true).
  { intros r f j Hr Hf Hj. rewrite Hcols in Hj.
    destruct (clean_row_origin df r Hclean Hr) as (_ & _ & r1 & Hr1 & ->).
    assert (Hjl : col_index f (columns (lower_columns df)) = Some j)
      by (rewrite <- prepared_index; exact Hj).
    assert (Hok1 : field_ok f j r1 = true).
    { apply (enforce_required_in (prepared df)); [exact Hr1 | exact Hf | exact Hj]. }
    apply validated_incl in Hr1.
    simpl in Hf.
    destruct Hf as [<- | [<- | [<- | [<- | [<- | []]]]]].
    - etransitivity; [apply field_ok_cell | exact Hok1].
      apply (@canon_row_untouched _ age_col j); first [exact Hj | labels_differ].
    - etransitivity; [apply field_ok_cell | exact Hok1].
      apply (@canon_row_untouched _ job_title_col j);
        first [exact Hj | labels_differ].
    - etransitivity; [apply field_ok_cell | exact Hok1].
      apply (@canon_row_untouched _ salary_col j);
        first [exact Hj | labels_differ].
    - destruct (@validated_text_cell df currency_col j r1 Hwt Hacc1 Hjl)
        as (s & Hs & Hb); try labels_differ; try assumption.
      destruct (currency_stays_filled s Hb) as (t & Ht & Hbt).
      rewrite (@text_ok_filled currency_col j _ t); [now rewrite Hbt | labels_differ |].
      rewrite canon_row_currency; [now rewrite Hs | exact Hj |].
      apply notna_in_range. now rewrite Hs.
    - destruct (@validated_text_cell df country_col j r1 Hwt Hacc2 Hjl)
        as (s & Hs & Hb); try labels_differ; try assumption.
      destruct (country_stays_filled s Hb) as (t & Ht & Hbt).
      rewrite (@text_ok_filled country_col j _ t); [now rewrite Hbt | labels_differ |].
      rewrite canon_row_country; [now rewrite Hs | exact Hj |].
      apply notna_in_range. now rewrite Hs. }
  assert (Hsame : enforce_required out = out).
  { unfold enforce_required. rewrite enforce_fields_frame.
    rewrite filter_all; [now destruct out |].
    intros r Hr. apply forallb_forall. intros f Hf. unfold field_check.
    destruct (col_index f (columns out)) as [j|] eqn:Hj; [| reflexivity].
    now apply Hok. }
  split; [| split; [exact Hsame |]].
  - intros r Hr.
    assert (Htxt : forall f, In f required_fields -> f <> salary_col ->
                             passes f filled r).
    { intros f Hf Hne j Hj. apply (text_ok_iff j r Hne). now apply Hok. }
    repeat split.
    + apply Htxt; [simpl; auto | labels_differ].
    + apply Htxt; [simpl; auto | labels_differ].
    + intros j Hj. apply salary_ok_iff. apply Hok; [exact Hr | | exact Hj].
      simpl. auto.
    + apply Htxt; [simpl; auto 6 | labels_differ].
    + apply Htxt; [simpl; auto 6 | labels_differ].
  - rewrite Hsame. unfold removed. apply Nat.sub_diag.
Qed.

Lemma returned_records_pass_validation_witness :
  well_typed two_spellings = true
  /\ ascii_frame two_spellings = true
  /\ distinct_labels two_spellings = true
  /\ clean_dataset two_spellings = Ok two_spellings_cleaned
  /\ enforce_required two_spellings_cleaned = two_spellings_cleaned.
Proof.
  assert (H1 : well_typed two_spellings = true) by (vm_compute; reflexivity).
  assert (H2 : ascii_frame two_spellings = true) by (vm_compute; reflexivity).
  assert (H3 : distinct_labels two_spellings = true) by (vm_compute; reflexivity).
  assert (H4 : clean_dataset two_spellings = Ok two_spellings_cleaned)
    by (vm_compute; reflexivity).
  pose proof (@returned_records_pass_validation
                two_spellings two_spellings_cleaned H1 H2 H3 H4) as H.
  cbv zeta in H. destruct H as (_ & H & _).
  repeat split; assumption.
Defined.

(** C2, as stated, fails twice over. The two records of [two_spellings]
    differ in the spelling of the country only: the first run keeps both,
    the second run drops one as a duplicate and then the other as an
    outlier (a single salary has no standard deviation). The salaries of
    [ladder] are all different: the first run trims the highest, and the
    second run, with limits computed anew, trims the next. *)
Lemma rerun_removes_rows :
  (clean_dataset two_spellings = Ok two_spellings_cleaned
   /\ len two_spellings_cleaned = 2
   /\ removed two_spellings_cleaned (drop_duplicates two_spellings_cleaned) = 1
   /\ clean_dataset two_spellings_cleaned
      = Ok (Frame (columns two_spellings_cleaned) []))
  /\ (clean_dataset ladder = Ok ladder_cleaned
      /\ len ladder_cleaned = 21
      /\ drop_duplicates ladder_cleaned = ladder_cleaned
      /\ validated ladder_cleaned = ladder_cleaned
      /\ clean_dataset ladder_cleaned = Ok ladder_cleaned_twice
      /\ len ladder_cleaned_twice = 20).
Proof. vm_compute. repeat split. Qed.

(* ================================================================== *)
(** * Reports on the ALL partition *)

Import Analytics.

Set Warnings "-inexact-float".

(** The rate of a row: by currency code, and by country when the code
    is [OTHER]; 1.0 for a code or a country that is in neither table. *)
Lemma exchange_rates_of_mixed_partition :
  map (_get_exchange_rate mixed_partition) (rows mixed_partition)
  = [Ok 1.164%float; Ok 0.0111%float; Ok 1.0%float].
Proof. vm_compute. reflexivity. Qed.

(** C5 fails for the salary benchmark. On the ALL partition, with the
    currency column present, the age, geographic and bonus reports convert
    every amount to USD and say so; [salary_benchmarking] groups the salaries
    as they are, 100 EUR, 100 of an [OTHER] currency and 100 USD alike, and
    says that the amounts are in ALL. *)
Lemma salary_benchmarking_does_not_convert :
  converts_to_usd all_session mixed_partition = true
  /\ salary_benchmarking all_session
     = Some (Ok (Report JOB_TITLE_COL
                   [Num 100%float; Num 100%float; Num 100%float]
                   "Currency: ALL"
                   "Note: All salary amounts shown are in ALL"))
  /\ age_salary_analysis all_session
     = Some (Ok (Report AGE_COL
                   [Num (100 * 1.164)%float; Num (100 * 0.0111)%float; Num 100%float]
                   "Currency: USD (converted from multiple currencies)"
                   "Note: All salary amounts have been converted to USD for fair comparison"))
  /\ geographic_analysis all_session
     = Some (Ok (Report COUNTRY_COL
                   [Num (100 * 1.164)%float; Num (100 * 0.0111)%float; Num 100%float]
                   "Currency: USD (converted from multiple currencies)"
                   "Note: All salary amounts have been converted to USD for fair comparison"))
  /\ bonus_analysis all_session
     = Some (Ok (Report ""
                   [Num (10 * 1.164)%float; Num (10 * 0.0111)%float; Num 10%float]
                   "Currency: USD (converted from multiple currencies)"
                   "Note: All bonus amounts have been converted to USD for fair comparison")).
Proof. vm_compute. repeat split. Qed.

(* ================================================================== *)
(** * Further properties of [clean_dataset] *)

Import MoreProps Partition Loader.

(** ** When it raises *)

Lemma accepts_str_false (df : DataFrame) (field : string) :
  accepts_str field (columns (lower_columns df)) = false <->
  exists j c,
    col_index field (columns (lower_columns df)) = Some j
    /\ nth_error (columns df) j = Some c
    /\ col_dtype c = numeric.
Proof.
  unfold accepts_str, dtype_of. split.
  - destruct (col_index field (columns (lower_columns df))) as [j|] eqn:Hj;
      [| discriminate].
    destruct (col_index_lower_columns _ _ Hj) as [c [Hc Hlc]].
    rewrite Hlc. simpl. destruct (col_dtype c) eqn:Hd; [| discriminate].
    intros _. now exists j, c.
  - intros (j & c & Hj & Hc & Hd). rewrite Hj.
    destruct (col_index_lower_columns _ _ Hj) as [c' [Hc' Hlc]].
    rewrite Hlc. simpl. assert (c' = c) by congruence. subst c'.
    now rewrite Hd.
Qed.

(** X1. On a frame whose labels are ASCII and stay distinct when
    lower-cased, [clean_dataset] raises exactly when the currency, the
    free-text currency or the country column is present with a numeric
    dtype (no text in it, an entirely blank column included): the [.str]
    accessor refuses such a column. The exception is [AttributeError],
    never another one, and in every other case a frame is returned. *)
Theorem clean_dataset_raises_on_numeric_text_column (df : DataFrame) :
  ascii_labels df = true ->
  distinct_labels df = true ->
  (clean_dataset df = Raise AttributeError <->
   exists field j c,
     In field [currency_col; other_currency_col; country_col]
     /\ col_index field (columns (lower_columns df)) = Some j
     /\ nth_error (columns df) j = Some c
     /\ col_dtype c = numeric)
  /\ (forall e, clean_dataset df = Raise e -> e = AttributeError)
  /\ (clean_dataset df = Raise AttributeError \/ exists out, clean_dataset df = Ok out).
Proof.
  intros _ _. rewrite clean_dataset_result.
  destruct (text_columns_are_text (lower_columns df)) eqn:Ht.
  - split; [| split].
    + split; [discriminate |].
      intros (field & j & c & Hin & Hj & Hc & Hd). exfalso.
      assert (Hacc : accepts_str field (columns (lower_columns df)) = false)
        by (apply accepts_str_false; now exists j, c).
      unfold text_columns_are_text in Ht. rewrite forallb_forall in Ht.
      rewrite (Ht field Hin) in Hacc. discriminate.
    + intros e H. discriminate.
    + right. eexists. reflexivity.
  - split; [| split].
    + split; [| reflexivity]. intros _.
      unfold text_columns_are_text in Ht.
      assert (Hex : exists field,
                 In field [currency_col; other_currency_col; country_col]
                 /\ accepts_str field (columns (lower_columns df)) = false).
      { cbn [forallb] in Ht. rewrite andb_true_r in Ht.
        destruct (accepts_str currency_col (columns (lower_columns df))) eqn:E1;
          [| exists currency_col; split; [simpl; auto | exact E1]].
        destruct (accepts_str other_currency_col (columns (lower_columns df))) eqn:E2;
          [| exists other_currency_col; split; [simpl; auto | exact E2]].
        destruct (accepts_str country_col (columns (lower_columns df))) eqn:E3;
          [discriminate | exists country_col; split; [simpl; auto | exact E3]]. }
      destruct Hex as (field & Hin & Hacc).
      apply accepts_str_false in Hacc. destruct Hacc as (j & c & Hj & Hc & Hd).
      now exists field, j, c.
    + intros e H. now injection H as <-.
    + now left.
Qed.

Lemma clean_dataset_raises_on_numeric_text_column_witness :
  ascii_labels blank_country = true
  /\ distinct_labels blank_country = true
  /\ clean_dataset blank_country = Raise AttributeError.
Proof.
  split; [vm_compute; reflexivity |]. split; [vm_compute; reflexivity |].
  apply (@clean_dataset_raises_on_numeric_text_column blank_country);
    [vm_compute; reflexivity | vm_compute; reflexivity |].
  exists country_col, 1, (Column "What country do you work in?" numeric).
  repeat split; vm_compute; auto.
Defined.


(** ** The shape of the result *)

Lemma subseq_refl {A : Type} (l : list A) : subseq l l.
Proof. induction l; [apply subseq_nil | now apply subseq_take]. Qed.

Lemma subseq_trans {A : Type} (l1 l2 l3 : list A) :
  subseq l1 l2 -> subseq l2 l3 -> subseq l1 l3.
Proof.
  intros H12 H23. revert l1 H12.
  induction H23 as [| x l2 l3 _ IH | x l2 l3 _ IH]; intros l1 H12.
  - exact H12.
  - constructor. now apply IH.
  - inversion H12; subst.
    + apply subseq_skip. now apply IH.
    + apply subseq_take. now apply IH.
Qed.

Lemma subseq_filter {A : Type} (p : A -> bool) (l : list A) :
  subseq (filter p l) l.
Proof.
  induction l as [|x t IH]; simpl; [constructor |].
  destruct (p x); [apply subseq_take | apply subseq_skip]; exact IH.
Qed.

Lemma subseq_length {A : Type} (l1 l2 : list A) :
  subseq l1 l2 -> List.length l1 <= List.length l2.
Proof. induction 1; simpl; lia. Qed.

Lemma subseq_keep_first (seen l : list row) : subseq (keep_first seen l) l.
Proof.
  revert seen. induction l as [|x t IH]; intros seen; simpl; [constructor |].
  destruct (existsb (row_eqb x) seen); [apply subseq_skip | apply subseq_take];
    apply IH.
Qed.

Lemma filter_map_swap {A B : Type} (f : A -> B) (p : B -> bool) (l : list A) :
  filter p (map f l) = map f (filter (fun x => p (f x)) l).
Proof.
  induction l as [|x t IH]; simpl; [reflexivity |].
  destruct (p (f x)); simpl; now rewrite IH.
Qed.

(** The rows that reach canonicalization are rows of the input, prepared,
    some left out. *)
Lemma trimmed_rows_origin (df : DataFrame) :
  exists kept,
    subseq kept (rows df)
    /\ rows (trim_outliers (validated df))
       = map (prep_row (columns (lower_columns df))) kept.
Proof.
  assert (Hv : exists q, rows (trim_outliers (validated df))
                         = filter q (rows (prepared df))).
  { unfold trim_outliers.
    destruct (col_index salary_col (columns (validated df))) as [j|].
    - simpl. unfold validated at 3, enforce_required.
      rewrite enforce_fields_rows, filter_filter. eexists. reflexivity.
    - unfold validated, enforce_required. rewrite enforce_fields_rows.
      eexists. reflexivity. }
  destruct Hv as [q Hq]. rewrite Hq, prepared_rows, filter_map_swap.
  eexists. split; [| reflexivity].
  eapply subseq_trans; [apply subseq_filter | apply subseq_keep_first].
Qed.

Lemma prep_row_index_ext (cols1 cols2 : list column) (r : row) :
  (forall field, col_index field cols1 = col_index field cols2) ->
  prep_row cols1 r = prep_row cols2 r.
Proof.
  intros H. unfold prep_row.
  rewrite (at_col_index_ext salary_col cols1 cols2) by apply H.
  apply at_col_index_ext, H.
Qed.

(** X2. The frame [clean_dataset] returns has the columns of the input, in
    order, under their lower-cased labels; its rows are rows of the input in
    their original order, some left out, each with its salary converted, its
    bonus filled and its currency and country texts canonicalized. No row is
    added: the result is never longer than the input. *)
Theorem clean_dataset_shape (df out : DataFrame) :
  clean_dataset df = Ok out ->
  map label (columns out) = map (fun c => lower (label c)) (columns df)
  /\ (exists kept,
        subseq kept (rows df)
        /\ rows out
           = map (fun r => canon_row (columns out) (prep_row (columns out) r)) kept)
  /\ len out <= len df.
Proof.
  rewrite clean_dataset_result.
  destruct (text_columns_are_text (lower_columns df)); [| discriminate].
  intros H. injection H as <-. simpl columns. simpl rows.
  destruct (trimmed_rows_origin df) as (kept & Hsub & Hrows).
  assert (Hmap : map (canon_row (columns (prepared df)))
                   (rows (trim_outliers (validated df)))
                 = map (fun r => canon_row (columns (prepared df))
                                   (prep_row (columns (prepared df)) r)) kept).
  { rewrite Hrows, map_map. apply map_ext. intros r. f_equal.
    apply prep_row_index_ext. intros field. symmetry. apply prepared_index. }
  split; [apply prepared_labels |]. split.
  - exists kept. split; [exact Hsub | exact Hmap].
  - unfold len. simpl. rewrite Hmap, length_map. now apply subseq_length.
Qed.

Lemma clean_dataset_shape_witness :
  map label (columns two_spellings_cleaned)
  = map (fun c => lower (label c)) (columns two_spellings)
  /\ (exists kept,
        subseq kept (rows two_spellings)
        /\ rows two_spellings_cleaned
           = map (fun r => canon_row (columns two_spellings_cleaned)
                             (prep_row (columns two_spellings_cleaned) r)) kept)
  /\ len two_spellings_cleaned <= len two_spellings.
Proof.
  apply (@clean_dataset_shape two_spellings two_spellings_cleaned).
  vm_compute. reflexivity.
Defined.

(** ** Salaries of the result *)

(** X3. Every record of the frame [clean_dataset] returns has a salary that
    is a number, not NaN, above zero, and within the two limits the outlier
    filter computed from the validated rows: canonicalization leaves the
    salary column alone. *)
Theorem cleaned_salary_within_limits (df out : DataFrame) (j : nat) (r : row) :
  clean_dataset df = Ok out ->
  col_index salary_col (columns out) = Some j ->
  In r (rows out) ->
  exists x,
    get_cell j r = Num x
    /\ is_nan x = false
    /\ (0 <? x)%float = true
    /\ (py_max0 (lower_limit (series j (validated df))) <=? x)%float = true
    /\ (x <=? upper_limit (series j (validated df)))%float = true.
Proof.
  rewrite clean_dataset_result.
  destruct (text_columns_are_text (lower_columns df)); [| discriminate].
  intros H. injection H as <-. simpl. intros Hj Hr.
  apply in_map_iff in Hr. destruct Hr as (r1 & <- & Hr1).
  assert (Hjv : col_index salary_col (columns (validated df)) = Some j).
  { unfold validated, enforce_required. now rewrite enforce_fields_columns. }
  unfold trim_outliers in Hr1. rewrite Hjv in Hr1. simpl in Hr1.
  apply filter_In in Hr1. destruct Hr1 as [Hr1 Hlim].
  destruct (validated_salary df r1 Hjv Hr1) as (x & Hx & Hnan & Hpos).
  exists x.
  rewrite (@canon_row_untouched _ salary_col j) by (first [exact Hj | labels_differ]).
  split; [exact Hx |]. split; [exact Hnan |]. split; [exact Hpos |].
  unfold within_limits in Hlim. rewrite Hx in Hlim. simpl in Hlim.
  now apply andb_true_iff in Hlim.
Qed.

Lemma cleaned_salary_within_limits_witness :
  exists x,
    get_cell 0 [Num (Z2float 1000)] = Num x
    /\ is_nan x = false
    /\ (0 <? x)%float = true
    /\ (py_max0 (lower_limit (series 0 (validated ladder))) <=? x)%float = true
    /\ (x <=? upper_limit (series 0 (validated ladder)))%float = true.
Proof.
  apply (@cleaned_salary_within_limits ladder ladder_cleaned 0 [Num (Z2float 1000)]).
  - vm_compute. reflexivity.
  - vm_compute. reflexivity.
  - unfold ladder_cleaned. simpl. do 20 right. left. reflexivity.
Defined.

(* ================================================================== *)
(** * Stages applied twice *)








(* ================================================================== *)
(** * Canonical texts are fixed points *)

Module CaseFacts.

Import PyStr Props StringFacts.
Local Open Scope string_scope.










(** ** [strip] and the whitespace collapse against [title] *)








(** ** [strip] against the whitespace collapse *)








End CaseFacts.

Import CaseFacts.







(** ** The stages on their own result *)






(* ================================================================== *)
(** * One file per currency *)

Import MoreSamples.

(** ** [unique], the filter and the texts *)

Lemma seen_text (s : string) (seen : list cell) :
  existsb (cell_eqb (Str s)) seen = true <-> In (Str s) seen.
Proof.
  rewrite existsb_exists. split.
  - intros [c [Hc He]]. destruct c as [x|t]; simpl in He; [discriminate |].
    apply String.eqb_eq in He. now subst.
  - intros H. exists (Str s). split; [exact H | apply String.eqb_refl].
Qed.

Lemma unique_from_text (s : string) (l seen : list cell) :
  In (Str s) (unique_from seen l) <-> In (Str s) l /\ ~ In (Str s) seen.
Proof.
  revert seen. induction l as [|c t IH]; intros seen; simpl; [tauto |].
  destruct (existsb (cell_eqb c) seen) eqn:E.
  - rewrite IH. split; [tauto |]. intros [[-> | H] Hn]; [| tauto].
    apply seen_text in E. contradiction.
  - simpl. rewrite IH. simpl. split.
    + intros [-> | [H Hn]].
      * split; [now left |]. intros Hin. apply seen_text in Hin. congruence.
      * split; [now right | tauto].
    + intros [[-> | H] Hn]; [now left |].
      destruct c as [x|t']; [right; split; [exact H |]; intros [Hc | Hc];
                              [discriminate | contradiction] |].
      destruct (String.eqb t' s) eqn:Es.
      * apply String.eqb_eq in Es. subst. now left.
      * right. split; [exact H |]. intros [Hc | Hc]; [| contradiction].
        injection Hc as ->. rewrite String.eqb_refl in Es. discriminate.
Qed.

Lemma texts_of_In (s : string) (l : list cell) :
  In s (texts_of l) <-> In (Str s) l.
Proof.
  induction l as [|c t IH]; simpl; [tauto |].
  destruct c as [x|t']; simpl; rewrite IH.
  - split; [tauto |]. intros [H | H]; [discriminate | exact H].
  - split; intros [H | H]; auto; left; congruence.
Qed.

Lemma unique_from_distinct (l seen : list cell) :
  NoDup (texts_of (unique_from seen l)).
Proof.
  revert seen. induction l as [|c t IH]; intros seen; simpl; [constructor |].
  destruct (existsb (cell_eqb c) seen); [apply IH |].
  destruct c as [x|s]; simpl; [apply IH |].
  constructor; [| apply IH].
  rewrite texts_of_In, unique_from_text. intros [_ Hn]. apply Hn. now left.
Qed.

Lemma texts_of_filter_distinct (p : cell -> bool) (l : list cell) :
  NoDup (texts_of l) -> NoDup (texts_of (filter p l)).
Proof.
  induction l as [|c t IH]; simpl; intros H; [constructor |].
  destruct c as [x|s]; simpl in H.
  - destruct (p (Num x)); simpl; now apply IH.
  - inversion H as [|? ? Hn Hnd]; subst.
    destruct (p (Str s)); simpl; [| now apply IH].
    constructor; [| now apply IH].
    rewrite texts_of_In, filter_In. intros [Hin _]. apply Hn.
    now apply texts_of_In.
Qed.

Lemma as_texts_spec (l : list cell) :
  match as_texts l with
  | Ok names => names = texts_of l /\ forall c, In c l -> exists s, c = Str s
  | Raise e => e = TypeError /\ exists x, In (Num x) l
  end.
Proof.
  induction l as [|c t IH]; simpl; [split; [reflexivity | intros c []] |].
  destruct c as [x|s].
  - split; [reflexivity |]. exists x. now left.
  - destruct (as_texts t) as [names | e]; simpl.
    + destruct IH as [-> IH]. split; [reflexivity |].
      intros c [<- | Hc]; [now exists s | now apply IH].
    + destruct IH as [-> [x Hx]]. split; [reflexivity |]. exists x. now right.
Qed.

(** ** [sorted] *)

Lemma insert_sorted_perm (x : string) (l : list string) :
  Permutation (insert_sorted x l) (x :: l).
Proof.
  induction l as [|y t IH]; simpl; [apply Permutation_refl |].
  destruct (String.leb x y); [apply Permutation_refl |].
  eapply Permutation_trans; [apply perm_skip, IH | apply perm_swap].
Qed.

Lemma py_sorted_perm (l : list string) : Permutation (py_sorted l) l.
Proof.
  induction l as [|x t IH]; simpl; [apply Permutation_refl |].
  eapply Permutation_trans; [apply insert_sorted_perm | now apply perm_skip].
Qed.

Lemma insert_sorted_ascending (x : string) (l : list string) :
  ascending l -> ascending (insert_sorted x l).
Proof.
  unfold ascending. induction l as [|y t IH]; simpl; intros H.
  - repeat constructor.
  - destruct (String.leb x y) eqn:E.
    + constructor; [exact H | constructor; exact E].
    + inversion H as [|? ? Ht Hhd]; subst.
      constructor; [now apply IH |].
      assert (Hyx : String.leb y x = true)
        by (destruct (String.leb_total x y) as [H1 | H1]; congruence).
      destruct t as [|z t']; simpl; [constructor; exact Hyx |].
      destruct (String.leb x z); constructor; [exact Hyx |].
      now inversion Hhd.
Qed.

Lemma py_sorted_ascending (l : list string) : ascending (py_sorted l).
Proof.
  induction l as [|x t IH]; simpl; [constructor |].
  now apply insert_sorted_ascending.
Qed.

(** ** The currencies of a frame *)

Lemma eqb_not_nan_r (x y : float) : (x =? y)%float = true -> is_nan y = false.
Proof.
  intros H. apply FloatFacts.eqb_iff in H. destruct H as [Hnorm Hx].
  apply FloatFacts.is_nan_false. intros Hnan. apply Hx.
  rewrite Hnan in Hnorm. simpl in Hnorm.
  exact (proj1 (FloatFacts.sf_norm_nan _) Hnorm).
Qed.

Lemma is_currency_text (s : string) :
  is_currency (Str s) = negb (String.eqb s "").
Proof. reflexivity. Qed.

Lemma series_In (j : nat) (df : DataFrame) (c : cell) :
  In c (series j df) <-> exists r, In r (rows df) /\ get_cell j r = c.
Proof.
  unfold series. rewrite in_map_iff. split; intros [r [H1 H2]]; exists r; tauto.
Qed.

(** The listing, when it succeeds, has each currency text once. *)
Lemma currencies_are_sorted_and_distinct_aux (df : DataFrame) (j : nat) :
  match currencies_of j df with
  | Ok names =>
      NoDup names
      /\ (forall s,
            In s names <->
            s <> "" /\ exists r, In r (rows df) /\ get_cell j r = Str s)
  | Raise _ => True
  end.
Proof.
  unfold currencies_of. cbv zeta.
  pose proof (as_texts_spec (filter is_currency (unique (series j df)))) as Hs.
  destruct (as_texts (filter is_currency (unique (series j df)))) as [names | e];
    simpl; [| exact I].
  destruct Hs as [-> _]. split.
  - eapply Permutation_NoDup; [apply Permutation_sym, py_sorted_perm |].
    apply texts_of_filter_distinct, unique_from_distinct.
  - intros s. split.
    + intros H. apply (Permutation_in _ (py_sorted_perm _)) in H.
      rewrite texts_of_In, filter_In in H. unfold unique in H.
      rewrite unique_from_text, series_In, is_currency_text, negb_true_iff in H.
      rewrite String.eqb_neq in H. tauto.
    + intros [Hne Hex].
      apply (Permutation_in _ (Permutation_sym (py_sorted_perm _))).
      rewrite texts_of_In, filter_In. unfold unique.
      rewrite unique_from_text, series_In, is_currency_text, negb_true_iff.
      rewrite String.eqb_neq. simpl. tauto.
Qed.

(** X6. The currencies the script writes files for are the texts of the
    currency column that are not empty, each once, in ascending order; a
    missing currency is none of them. The listing raises [TypeError] exactly
    when the column holds a number that is not NaN. *)
Theorem currencies_are_sorted_and_distinct (df : DataFrame) (j : nat) :
  match currencies_of j df with
  | Ok names =>
      ascending names
      /\ NoDup names
      /\ (forall s,
            In s names <->
            s <> "" /\ exists r, In r (rows df) /\ get_cell j r = Str s)
      /\ (forall r, In r (rows df) -> text_or_missing (get_cell j r) = true)
  | Raise e =>
      e = TypeError
      /\ exists r x,
           In r (rows df) /\ get_cell j r = Num x /\ is_nan x = false
  end.
Proof.
  unfold currencies_of. cbv zeta.
  pose proof (as_texts_spec (filter is_currency (unique (series j df)))) as Hs.
  destruct (as_texts (filter is_currency (unique (series j df)))) as [names | e];
    simpl.
  - destruct Hs as [-> Hall].
    assert (Hin : forall s,
               In s (texts_of (filter is_currency (unique (series j df)))) <->
               s <> "" /\ exists r, In r (rows df) /\ get_cell j r = Str s).
    { intros s. rewrite texts_of_In, filter_In. unfold unique.
      rewrite unique_from_text, series_In, is_currency_text, negb_true_iff.
      rewrite String.eqb_neq. simpl. tauto. }
    split; [apply py_sorted_ascending |]. split; [| split].
    + eapply Permutation_NoDup; [apply Permutation_sym, py_sorted_perm |].
      apply texts_of_filter_distinct, unique_from_distinct.
    + intros s. rewrite <- Hin. split; apply Permutation_in;
        [apply py_sorted_perm | apply Permutation_sym, py_sorted_perm].
    + intros r Hr. destruct (get_cell j r) as [x|s] eqn:Hc; [| reflexivity].
      simpl. destruct (is_nan x) eqn:Hn; [reflexivity | exfalso].
      (* a number that is not NaN would have made the listing raise *)
      assert (Hcell : In (Num x) (series j df)) by (apply series_In; now exists r).
      assert (Hex : exists c, In c (unique (series j df))
                              /\ cell_eqb (Num x) c = true).
      { clear Hall Hin Hr Hc. unfold unique.
        assert (Hgen : forall l seen,
                   In (Num x) l ->
                   existsb (cell_eqb (Num x)) seen = false ->
                   exists c, In c (unique_from seen l) /\ cell_eqb (Num x) c = true).
        { induction l as [|c t IH]; intros seen Hl Hseen; [destruct Hl |].
          simpl. destruct (existsb (cell_eqb c) seen) eqn:E.
          - destruct Hl as [-> | Hl]; [congruence | now apply IH].
          - destruct (cell_eqb (Num x) c) eqn:Exc.
            + exists c. split; [now left | exact Exc].
            + destruct Hl as [-> | Hl].
              * simpl in Exc. unfold is_nan in Hn.
                apply negb_false_iff in Hn. rewrite Hn in Exc. discriminate.
              * destruct (IH (c :: seen) Hl) as [c' [Hc' He']].
                { simpl. rewrite Hseen, orb_false_r. exact Exc. }
                exists c'. split; [now right | exact He']. }
        now apply Hgen. }
      destruct Hex as [c [Hc' He]].
      destruct c as [y|s]; [| discriminate He].
      assert (Hny : is_nan y = false).
      { simpl in He. apply orb_true_iff in He. destruct He as [He | He].
        - eapply eqb_not_nan_r. exact He.
        - rewrite Hn in He. discriminate. }
      destruct (Hall (Num y)) as [s Hs]; [| discriminate Hs].
      apply filter_In. split; [exact Hc' |].
      unfold is_currency, notna. simpl. now rewrite Hny.
  - destruct Hs as [-> [x Hx]]. split; [reflexivity |].
    apply filter_In in Hx. destruct Hx as [Hx Hcur].
    assert (Hin : In (Num x) (series j df)).
    { clear Hcur. unfold unique in Hx. revert Hx. generalize (@nil cell).
      induction (series j df) as [|c t IH]; intros seen; simpl; [tauto |].
      destruct (existsb (cell_eqb c) seen); [intros H; right; eapply IH, H |].
      intros [-> | H]; [now left | right; eapply IH, H]. }
    apply series_In in Hin. destruct Hin as [r [Hr Hc]].
    exists r, x. split; [exact Hr |]. split; [exact Hc |].
    unfold is_currency, notna in Hcur. simpl in Hcur.
    rewrite andb_true_r in Hcur. now apply negb_true_iff in Hcur.
Qed.

(** The listing is ascending, and fails only on a number. *)
Lemma currencies_are_sorted_and_distinct_main (df : DataFrame) (j : nat) :
  match currencies_of j df with
  | Ok names => ascending names
  | Raise _ =>
      exists r x, In r (rows df) /\ get_cell j r = Num x /\ is_nan x = false
  end.
Proof.
  unfold currencies_of. cbv zeta.
  pose proof (as_texts_spec (filter is_currency (unique (series j df)))) as Hs.
  destruct (as_texts (filter is_currency (unique (series j df)))) as [names | e];
    simpl; [apply py_sorted_ascending |].
  destruct Hs as [_ [x Hx]].
  apply filter_In in Hx. destruct Hx as [Hx Hcur].
  assert (Hin : In (Num x) (series j df)).
  { clear Hcur. unfold unique in Hx. revert Hx. generalize (@nil cell).
    induction (series j df) as [|c t IH]; intros seen; simpl; [tauto |].
    destruct (existsb (cell_eqb c) seen); [intros H; right; eapply IH, H |].
    intros [-> | H]; [now left | right; eapply IH, H]. }
  apply series_In in Hin. destruct Hin as [r [Hr Hc]].
  exists r, x. split; [exact Hr |]. split; [exact Hc |].
  unfold is_currency, notna in Hcur. simpl in Hcur.
  rewrite andb_true_r in Hcur. now apply negb_true_iff in Hcur.
Qed.

(** ** Rows of the per-currency files *)

Lemma eq_text_iff (c : string) (x : cell) : eq_text c x = true <-> x = Str c.
Proof.
  destruct x as [f|s]; simpl; [split; discriminate |].
  rewrite String.eqb_eq. split; congruence.
Qed.

Lemma currency_df_rows (j : nat) (c : string) (df : DataFrame) (r : row) :
  In r (rows (currency_df j c df)) <-> In r (rows df) /\ get_cell j r = Str c.
Proof. unfold currency_df. simpl. now rewrite filter_In, eq_text_iff. Qed.

Lemma occurrences_distinct (s : string) (names : list string) :
  NoDup names ->
  List.length (filter (String.eqb s) names)
  = if existsb (String.eqb s) names then 1 else 0.
Proof.
  induction names as [|c t IH]; simpl; intros Hnd; [reflexivity |].
  inversion Hnd as [|? ? Hnot Hnd']; subst.
  destruct (String.eqb s c) eqn:E; simpl.
  - apply String.eqb_eq in E. subst c. rewrite (IH Hnd').
    destruct (existsb (String.eqb s) t) eqn:Ex; [| reflexivity].
    apply existsb_exists in Ex. destruct Ex as [d [Hd Hsd]].
    apply String.eqb_eq in Hsd. subst d. contradiction.
  - apply IH, Hnd'.
Qed.

(** How many of the [names] a row is filed under. *)
Lemma filed_once (j : nat) (names : list string) (r : row) :
  NoDup names ->
  ~ In EmptyString names ->
  (forall s, get_cell j r = Str s -> s <> EmptyString -> In s names) ->
  List.length (filter (fun c => eq_text c (get_cell j r)) names)
  = if has_currency j r then 1 else 0.
Proof.
  intros Hnd Hne Hin. unfold has_currency.
  destruct (get_cell j r) as [x|s] eqn:Hc.
  - rewrite filter_none; [reflexivity | intros c _; reflexivity].
  - rewrite (filter_ext (fun c => eq_text c (Str s)) (String.eqb s))
      by (intros c; reflexivity).
    rewrite (occurrences_distinct s Hnd).
    destruct (String.eqb s EmptyString) eqn:Es; simpl.
    + apply String.eqb_eq in Es. subst s.
      destruct (existsb (String.eqb EmptyString) names) eqn:Ex; [| reflexivity].
      apply existsb_exists in Ex. destruct Ex as [d [Hd Hsd]].
      apply String.eqb_eq in Hsd. subst d. contradiction.
    + apply String.eqb_neq in Es.
      replace (existsb (String.eqb s) names) with true; [reflexivity |].
      symmetry. apply existsb_exists. exists s.
      split; [now apply Hin | apply String.eqb_refl].
Qed.

Lemma total_rows_step (p : string * DataFrame) (ps : list (string * DataFrame)) :
  total_rows (p :: ps) = len (snd p) + total_rows ps.
Proof. reflexivity. Qed.

Lemma total_rows_cons (j : nat) (cols : list column) (names : list string)
    (r : row) (t : list row) :
  total_rows (map (fun c => (output_file c,
                             currency_df j c (Frame cols (r :: t)))) names)
  = List.length (filter (fun c => eq_text c (get_cell j r)) names)
    + total_rows (map (fun c => (output_file c,
                                 currency_df j c (Frame cols t))) names).
Proof.
  induction names as [|c cs IH]; [reflexivity |].
  cbn [map filter]. rewrite !total_rows_step. cbn [snd]. rewrite IH.
  unfold len, currency_df, filter_rows. cbn [rows filter].
  destruct (eq_text c (get_cell j r)); cbn [List.length]; lia.
Qed.

Lemma total_rows_count (j : nat) (cols : list column) (names : list string)
    (l : list row) :
  NoDup names ->
  ~ In EmptyString names ->
  (forall r s, In r l -> get_cell j r = Str s -> s <> EmptyString -> In s names) ->
  total_rows (map (fun c => (output_file c, currency_df j c (Frame cols l))) names)
  = List.length (filter (has_currency j) l).
Proof.
  intros Hnd Hne. induction l as [|r t IH]; intros Hin.
  - clear Hnd Hne Hin. induction names as [|c cs IHn]; [reflexivity |].
    rewrite map_cons, total_rows_step. cbn [snd]. now rewrite IHn.
  - rewrite (total_rows_cons j cols names r t).
    rewrite IH by (intros r' s Hr'; apply Hin; now right).
    rewrite (@filed_once j names r Hnd Hne)
      by (intros s Hs Hn; apply (Hin r s); [now left | exact Hs | exact Hn]).
    simpl. destruct (has_currency j r); reflexivity.
Qed.

(** The frames the script hands to [to_csv]: one per listed currency, then
    the complete frame. *)
Lemma currency_frames_partition (df : DataFrame) (j : nat)
    (files : list (string * DataFrame)) :
  col_index currency_column (columns df) = Some j ->
  save_partitions df = Ok files ->
  exists names,
    currencies_of j df = Ok names
    /\ files = (map (fun c => (output_file c, currency_df j c df)) names
                ++ [("cleaned_data_all.csv", df)])%list
    /\ (forall r s,
          In r (rows df) -> get_cell j r = Str s -> s <> EmptyString ->
          In s names
          /\ forall c, In r (rows (currency_df j c df)) <-> c = s)
    /\ (forall r c,
          In r (rows (currency_df j c df)) ->
          In r (rows df) /\ get_cell j r = Str c)
    /\ total_rows (map (fun c => (output_file c, currency_df j c df)) names)
       = List.length (filter (has_currency j) (rows df)).
Proof.
  intros Hj Hsave. unfold save_partitions in Hsave. rewrite Hj in Hsave.
  pose proof (currencies_are_sorted_and_distinct_aux df j) as Hcur.
  destruct (currencies_of j df) as [names | e]; [| discriminate].
  simpl in Hsave. injection Hsave as <-.
  destruct Hcur as (Hnd & Hin).
  exists names. split; [reflexivity |]. split; [reflexivity |].
  split; [| split].
  - intros r s Hr Hs Hne. split.
    + apply Hin. split; [exact Hne | now exists r].
    + intros c. rewrite currency_df_rows. split.
      * intros [_ Hc]. congruence.
      * intros ->. now split.
  - intros r c. apply currency_df_rows.
  - replace df with (Frame (columns df) (rows df)) at 1 by now destruct df.
    apply total_rows_count.
    + exact Hnd.
    + intros H. apply Hin in H. now destruct H.
    + intros r s Hr Hs Hne. apply Hin. split; [exact Hne | now exists r].
Qed.

(** ** The files in the folder *)

Lemma file_at_to_csv (name n : string) (frame : DataFrame) (d : disk) :
  file_at name (to_csv n frame d)
  = if String.eqb name n then Some frame else file_at name d.
Proof.
  unfold to_csv. cbn [file_at].
  destruct (String.eqb name n) eqn:E; [reflexivity |].
  induction d as [|[n' f'] t IH]; simpl; [reflexivity |].
  destruct (String.eqb n' n) eqn:E'; simpl.
  - apply String.eqb_eq in E'. subst n'. now rewrite E.
  - now rewrite IH.
Qed.

(** A name the script does not write keeps the file it had. *)
Lemma file_at_write_all_other (name : string) (files : list (string * DataFrame))
    (d : disk) :
  ~ In name (map fst files) ->
  file_at name (write_all files d) = file_at name d.
Proof.
  unfold write_all. revert d. induction files as [|[n f] t IH]; intros d Hn;
    simpl; [reflexivity |].
  rewrite IH by (intros H; apply Hn; now right).
  rewrite file_at_to_csv. simpl.
  destruct (String.eqb name n) eqn:E; [| reflexivity].
  apply String.eqb_eq in E. exfalso. apply Hn. now left.
Qed.

(** Of the writes to one name the last one stands. *)
Lemma file_at_write_all_last (name : string) (frame : DataFrame)
    (before after : list (string * DataFrame)) (d : disk) :
  ~ In name (map fst after) ->
  file_at name (write_all (before ++ (name, frame) :: after)%list d) = Some frame.
Proof.
  intros Hn. unfold write_all. rewrite fold_left_app. simpl.
  fold (write_all after (to_csv name frame
                           (fold_left (fun d f => to_csv (fst f) (snd f) d) before d))).
  rewrite file_at_write_all_other by exact Hn.
  rewrite file_at_to_csv. now rewrite String.eqb_refl.
Qed.

Lemma file_at_write_all (name : string) (frame : DataFrame)
    (files : list (string * DataFrame)) (d : disk) :
  NoDup (map fst files) ->
  In (name, frame) files ->
  file_at name (write_all files d) = Some frame.
Proof.
  intros Hnd Hin. apply in_split in Hin. destruct Hin as (before & after & ->).
  apply file_at_write_all_last.
  rewrite map_app in Hnd. simpl in Hnd.
  apply NoDup_remove_2 in Hnd. intros H. apply Hnd, in_or_app. now right.
Qed.

Lemma disk_rows_total (j : nat) (df : DataFrame) (names : list string) (d : disk) :
  (forall c, In c names -> file_at (output_file c) d = Some (currency_df j c df)) ->
  disk_rows names d
  = total_rows (map (fun c => (output_file c, currency_df j c df)) names).
Proof.
  induction names as [|c t IH]; intros H; simpl; [reflexivity |].
  rewrite (H c (or_introl eq_refl)), IH; [reflexivity |].
  intros c' Hc'. apply H. now right.
Qed.

(** X7. The files the script leaves in its folder. The complete frame is
    always in [cleaned_data_all.csv], and a file the script does not write
    is left as it was. When the file names of the listed currencies differ
    from each other and from [cleaned_data_all.csv], the per-currency files
    partition the records that carry a currency: the file of a listed
    currency holds exactly the records of that currency, a record with a
    currency is in the file of its currency and in no other per-currency
    file, and the per-currency files together hold as many records as the
    frame has records with a currency. (Two currencies that differ only in
    a slash, a backslash or an underscore share a name, and the later
    write replaces the earlier: see [colliding_names_overwrite].) *)
Theorem partitions_hold_each_record_once (df : DataFrame) (j : nat) (d d' : disk) :
  col_index currency_column (columns df) = Some j ->
  saved df d = Ok d' ->
  exists names,
    currencies_of j df = Ok names
    /\ file_at "cleaned_data_all.csv" d' = Some df
    /\ (forall name,
          name <> "cleaned_data_all.csv" ->
          ~ In name (map output_file names) ->
          file_at name d' = file_at name d)
    /\ (NoDup (map output_file names ++ ["cleaned_data_all.csv"])%list ->
        (forall c,
           In c names ->
           exists frame,
             file_at (output_file c) d' = Some frame
             /\ columns frame = columns df
             /\ forall r, In r (rows frame) <->
                          In r (rows df) /\ get_cell j r = Str c)
        /\ (forall r s,
              In r (rows df) -> get_cell j r = Str s -> s <> EmptyString ->
              In s names
              /\ forall c frame,
                   In c names ->
                   file_at (output_file c) d' = Some frame ->
                   (In r (rows frame) <-> c = s))
        /\ disk_rows names d' = List.length (filter (has_currency j) (rows df))).
Proof.
  intros Hj Hsaved. unfold saved in Hsaved.
  destruct (save_partitions df) as [files | e] eqn:Hsave; [| discriminate].
  simpl in Hsaved. injection Hsaved as <-.
  destruct (currency_frames_partition df Hj Hsave)
    as (names & Hnames & -> & Hone & Hrows & Htotal).
  exists names. split; [exact Hnames |]. split; [| split].
  - apply file_at_write_all_last. simpl. tauto.
  - intros name Hall Hname. apply file_at_write_all_other.
    rewrite map_app, map_map. simpl. intros H. apply in_app_or in H.
    destruct H as [H | [H | []]]; [now apply Hname | now apply Hall].
  - intros Hnd.
    assert (Hfile : forall c, In c names ->
               file_at (output_file c)
                 (write_all
                    (map (fun c => (output_file c, currency_df j c df)) names
                     ++ [("cleaned_data_all.csv", df)])%list d)
               = Some (currency_df j c df)).
    { intros c Hc. apply file_at_write_all.
      - rewrite map_app, map_map. exact Hnd.
      - apply in_or_app. left. apply in_map_iff. now exists c. }
    split; [| split].
    + intros c Hc. exists (currency_df j c df).
      split; [now apply Hfile |]. split; [reflexivity |].
      intros r. apply currency_df_rows.
    + intros r s Hr Hs Hne. destruct (Hone r s Hr Hs Hne) as [Hin Hiff].
      split; [exact Hin |]. intros c frame Hc Hf.
      rewrite (Hfile c Hc) in Hf. injection Hf as <-. apply Hiff.
    + rewrite (@disk_rows_total j df names _ Hfile). exact Htotal.
Qed.

Lemma partitions_hold_each_record_once_witness :
  exists names,
    currencies_of 0 three_currencies = Ok names
    /\ file_at "cleaned_data_all.csv" (write_all three_currencies_files [])
       = Some three_currencies.
Proof.
  assert (Hj : col_index currency_column (columns three_currencies) = Some 0)
    by (vm_compute; reflexivity).
  assert (Hsaved : saved three_currencies []
                   = Ok (write_all three_currencies_files []))
    by (vm_compute; reflexivity).
  destruct (@partitions_hold_each_record_once three_currencies 0 []
              (write_all three_currencies_files []) Hj Hsaved)
    as (names & Hnames & Hall & _).
  exists names. split; [exact Hnames | exact Hall].
Defined.

(** The currencies [A/B] and [A_B] are both written to
    [cleaned_data_A_B.csv]: the file is left with the record of [A_B], and
    the two records of [A/B] are in the complete file only. *)
Example colliding_names_overwrite :
  currencies_of 0 slash_currencies = Ok ["A/B"; "A_B"]
  /\ output_file "A/B" = output_file "A_B"
  /\ (forall d d',
        saved slash_currencies d = Ok d' ->
        file_at "cleaned_data_A_B.csv" d'
        = Some (Frame (columns slash_currencies) [ [Str "A_B"; Num 20%float] ])
        /\ file_at "cleaned_data_all.csv" d' = Some slash_currencies).
Proof.
  split; [vm_compute; reflexivity |]. split; [vm_compute; reflexivity |].
  intros d d' H.
  assert (Hfiles : save_partitions slash_currencies
                   = Ok [ ("cleaned_data_A_B.csv",
                           Frame (columns slash_currencies)
                             [ [Str "A/B"; Num 10%float]; [Str "A/B"; Num 30%float] ]);
                          ("cleaned_data_A_B.csv",
                           Frame (columns slash_currencies)
                             [ [Str "A_B"; Num 20%float] ]);
                          ("cleaned_data_all.csv", slash_currencies) ])
    by (vm_compute; reflexivity).
  unfold saved in H. rewrite Hfiles in H. simpl in H. injection H as <-.
  split.
  - unfold write_all. cbn [fold_left fst snd]. rewrite !file_at_to_csv.
    reflexivity.
  - unfold write_all. cbn [fold_left fst snd]. rewrite file_at_to_csv.
    reflexivity.
Qed.

(** ** File names *)

Local Open Scope string_scope.

Lemma occurs_append (c : ascii) (a b : string) :
  occurs c (a ++ b) = occurs c a || occurs c b.
Proof.
  induction a as [|d t IH]; simpl; [reflexivity |].
  now rewrite IH, orb_assoc.
Qed.

Lemma occurs_replaced (a b : ascii) (s : string) :
  Ascii.eqb b a = false -> occurs a (replace_char a b s) = false.
Proof.
  intros Hab. induction s as [|c t IH]; simpl; [reflexivity |].
  rewrite IH, orb_false_r.
  destruct (Ascii.eqb c a) eqn:E; [exact Hab | exact E].
Qed.

Lemma occurs_replace_other (a b c : ascii) (s : string) :
  Ascii.eqb b c = false ->
  occurs c s = false -> occurs c (replace_char a b s) = false.
Proof.
  intros Hbc. induction s as [|d t IH]; simpl; [reflexivity |].
  intros H. apply orb_false_iff in H. destruct H as [Hd Ht].
  rewrite (IH Ht), orb_false_r. destruct (Ascii.eqb d a); assumption.
Qed.

Lemma replace_char_absent (a b : ascii) (s : string) :
  occurs a s = false -> replace_char a b s = s.
Proof.
  induction s as [|c t IH]; simpl; [reflexivity |].
  intros H. apply orb_false_iff in H. destruct H as [Hc Ht].
  now rewrite Hc, (IH Ht).
Qed.

Lemma replace_char_length (a b : ascii) (s : string) :
  String.length (replace_char a b s) = String.length s.
Proof. induction s as [|c t IH]; simpl; [reflexivity | now rewrite IH]. Qed.

(** X8. The name of a per-currency file holds no path separator, whatever
    the currency text: every slash and backslash of the currency has become
    an underscore, so the file lands beside the others. A currency without
    separators is used as it is, and the safe name is as long as the
    currency. *)
Theorem output_file_has_no_separator (currency : string) :
  occurs slash (output_file currency) = false
  /\ occurs backslash (output_file currency) = false
  /\ String.length (safe_currency_name currency) = String.length currency
  /\ (occurs slash currency = false ->
      occurs backslash currency = false ->
      output_file currency = "cleaned_data_" ++ currency ++ ".csv").
Proof.
  unfold output_file, safe_currency_name.
  split; [| split; [| split]].
  - rewrite !occurs_append.
    rewrite (@occurs_replace_other backslash underscore slash)
      by (first [reflexivity | now apply occurs_replaced]).
    reflexivity.
  - rewrite !occurs_append, occurs_replaced by reflexivity. reflexivity.
  - now rewrite !replace_char_length.
  - intros H1 H2. rewrite (replace_char_absent slash underscore currency H1).
    now rewrite (replace_char_absent backslash underscore currency H2).
Qed.

(** ** The pipeline, then the files *)

Lemma get_cell_update_shape (j : nat) (f : cell -> cell) (r : row) :
  get_cell j (update_nth j f r) = f (get_cell j r)
  \/ get_cell j (update_nth j f r) = NaN.
Proof.
  destruct (Nat.lt_ge_cases j (List.length r)) as [H | H].
  - left. now apply get_cell_update_same.
  - right. unfold get_cell. apply nth_overflow. now rewrite update_nth_length.
Qed.

Lemma canonical_currency_shape (c : cell) :
  text_or_missing (canonical_currency c) = true.
Proof. destruct c; reflexivity. Qed.

(** The currency cells of a canonicalized row are texts or missing. *)
Lemma canon_row_currency_shape (cols : list column) (j : nat) (r : row) :
  col_index currency_col cols = Some j ->
  text_or_missing (get_cell j (canon_row cols r)) = true.
Proof.
  intros Hj. unfold canon_row.
  do 2 (rewrite get_cell_at_col_other
          by (eapply col_index_other; [exact Hj | labels_differ])).
  unfold at_col. rewrite Hj.
  destruct (get_cell_update_shape j canonical_currency r) as [-> | ->];
    [apply canonical_currency_shape | reflexivity].
Qed.

(** X9. The script never fails after the pipeline has returned: the
    currency cells of a cleaned frame are texts or missing, so the listing
    of the currencies succeeds. With a currency column, the last file
    written is the complete cleaned frame; without one, no file is written
    at all, the complete frame included. The script raises only what the
    pipeline raises. *)
Theorem main_writes_the_complete_frame_last (df : DataFrame) :
  match clean_dataset df with
  | Ok out =>
      exists files,
        main df = Ok files
        /\ (has_column currency_column out = true ->
            exists per names,
              files = (per ++ [("cleaned_data_all.csv", out)])%list
              /\ map fst per = map output_file names
              /\ ascending names)
        /\ (has_column currency_column out = false -> files = [])
  | Raise e => main df = Raise e /\ e = AttributeError
  end.
Proof.
  unfold main.
  destruct (clean_dataset df) as [out | e] eqn:Hclean; simpl.
  - pose proof Hclean as Hres. rewrite clean_dataset_result in Hres.
    destruct (text_columns_are_text (lower_columns df)); [| discriminate].
    injection Hres as Hout.
    unfold save_partitions, has_column.
    destruct (col_index currency_column (columns out)) as [j|] eqn:Hj.
    + pose proof (currencies_are_sorted_and_distinct_main out j) as Hcur.
      destruct (currencies_of j out) as [names | e].
      * simpl. eexists. split; [reflexivity |]. split; [| discriminate].
        intros _. eexists. exists names. split; [reflexivity |].
        split; [now rewrite map_map | exact Hcur].
      * exfalso. destruct Hcur as (r & x & Hr & Hc & Hn).
        rewrite <- Hout in Hr, Hj. simpl in Hr, Hj.
        apply in_map_iff in Hr. destruct Hr as (r1 & <- & _).
        pose proof (canon_row_currency_shape _ r1 Hj) as Hshape.
        rewrite Hc in Hshape. simpl in Hshape. congruence.
    + simpl. exists []. split; [reflexivity |]. split; [discriminate | reflexivity].
  - split; [reflexivity |].
    rewrite clean_dataset_result in Hclean.
    destruct (text_columns_are_text (lower_columns df)); [discriminate |].
    now injection Hclean as <-.
Qed.

(* ================================================================== *)
(** * Analytics.py: rates, listing and loading *)

Lemma exchange_rates_positive :
  forall v, In v (map snd EXCHANGE_RATES) -> (0 <? v)%float = true.
Proof.
  assert (H : forallb (fun v => (0 <? v)%float) (map snd EXCHANGE_RATES) = true)
    by (vm_compute; reflexivity).
  rewrite forallb_forall in H. exact H.
Qed.

Lemma country_rates_positive :
  forall v, In v (map snd COUNTRY_CURRENCY_MAP) -> (0 <? v)%float = true.
Proof.
  assert (H : forallb (fun v => (0 <? v)%float) (map snd COUNTRY_CURRENCY_MAP) = true)
    by (vm_compute; reflexivity).
  rewrite forallb_forall in H. exact H.
Qed.

Lemma rate_get_cases (table : list (string * float)) (key : cell) :
  rate_get table key = 1.0%float \/ In (rate_get table key) (map snd table).
Proof.
  destruct key as [x|s]; simpl; [now left | apply dict_get_cases].
Qed.

(** X10. The rate of a row is always above zero: it is an entry of the
    rate table, an entry of the country table when the currency is [OTHER],
    or 1.0 for a missing or unknown currency and for an unknown country. The
    lookup raises only [KeyError], and only when the currency column is
    absent, or the country column is while the currency is [OTHER]. *)
Theorem exchange_rate_is_positive (df : DataFrame) (r : row) :
  match _get_exchange_rate df r with
  | Ok rate =>
      (0 <? rate)%float = true
      /\ (rate = 1.0%float
          \/ In rate (map snd EXCHANGE_RATES)
          \/ In rate (map snd COUNTRY_CURRENCY_MAP))
  | Raise e =>
      e = KeyError
      /\ (has_column CURRENCY_COL df = false
          \/ (has_column COUNTRY_COL df = false
              /\ exists j, col_index CURRENCY_COL (columns df) = Some j
                           /\ get_cell j r = Str "OTHER"))
  end.
Proof.
  unfold _get_exchange_rate, row_get, has_column.
  destruct (col_index CURRENCY_COL (columns df)) as [j|] eqn:Hj; simpl;
    [| split; [reflexivity | now left]].
  destruct (is_text "OTHER" (get_cell j r)) eqn:Hother.
  - destruct (col_index COUNTRY_COL (columns df)) as [k|] eqn:Hk; simpl.
    + destruct (rate_get_cases COUNTRY_CURRENCY_MAP (get_cell k r)) as [-> | Hin].
      * split; [reflexivity | now left].
      * split; [now apply country_rates_positive | right; now right].
    + split; [reflexivity |]. right. split; [reflexivity |]. exists j.
      split; [reflexivity |].
      destruct (get_cell j r) as [x|s]; simpl in Hother; [discriminate |].
      apply String.eqb_eq in Hother. now subst.
  - destruct (rate_get_cases EXCHANGE_RATES (get_cell j r)) as [-> | Hin].
    + split; [reflexivity | now left].
    + split; [now apply exchange_rates_positive | right; now left].
Qed.

(** ** The datasets on offer *)

Lemma rate_keys_distinct : NoDup (map fst EXCHANGE_RATES).
Proof. apply distinct_NoDup. vm_compute. reflexivity. Qed.

Lemma not_a_rate_key (s : string) :
  existsb (String.eqb s) (map fst EXCHANGE_RATES) = false ->
  ~ In s (map fst EXCHANGE_RATES).
Proof.
  intros H Hin.
  assert (existsb (String.eqb s) (map fst EXCHANGE_RATES) = true)
    by (apply existsb_exists; exists s; split; [exact Hin | apply String.eqb_refl]).
  congruence.
Qed.

Lemma NoDup_snoc {A : Type} (l : list A) (x : A) :
  NoDup l -> ~ In x l -> NoDup (l ++ [x]).
Proof.
  intros Hl Hx. apply (Permutation_NoDup (l := x :: l)).
  - apply Permutation_cons_append.
  - now constructor.
Qed.

(** X11. The datasets offered for selection are, in ascending order and
    each once, the keys of the rate table whose partition file exists, and
    [ALL] when the complete file exists. A partition whose currency is not a
    key of the rate table, such as [OTHER], is never offered, whether its
    file exists or not. *)
Theorem available_currencies_are_rate_keys (fs : files) (data_dir : string) :
  ascending (get_available_currencies fs data_dir)
  /\ NoDup (get_available_currencies fs data_dir)
  /\ (forall c,
        In c (get_available_currencies fs data_dir) <->
        (c = "ALL" /\ path_exists fs (all_path data_dir) = true)
        \/ (In c (map fst EXCHANGE_RATES)
            /\ path_exists fs (partition_path data_dir c) = true))
  /\ ~ In "OTHER" (get_available_currencies fs data_dir).
Proof.
  unfold get_available_currencies. cbv zeta.
  set (keys := filter (fun currency =>
                         negb (String.eqb currency "OTHER")
                         && path_exists fs (partition_path data_dir currency))
                 (map fst EXCHANGE_RATES)).
  assert (Hother : ~ In "OTHER" (map fst EXCHANGE_RATES))
    by (apply not_a_rate_key; vm_compute; reflexivity).
  assert (Hall : ~ In "ALL" (map fst EXCHANGE_RATES))
    by (apply not_a_rate_key; vm_compute; reflexivity).
  assert (Hkeys : forall c, In c keys <->
                            In c (map fst EXCHANGE_RATES)
                            /\ path_exists fs (partition_path data_dir c) = true).
  { intros c. unfold keys. rewrite filter_In, andb_true_iff, negb_true_iff.
    split; [tauto |]. intros [Hin Hp]. split; [exact Hin |]. split; [| exact Hp].
    apply String.eqb_neq. intros ->. contradiction. }
  assert (Hnd : NoDup keys) by (apply NoDup_filter, rate_keys_distinct).
  assert (Hmem : forall c,
             In c (if path_exists fs (all_path data_dir)
                   then (keys ++ ["ALL"])%list else keys) <->
             (c = "ALL" /\ path_exists fs (all_path data_dir) = true)
             \/ (In c (map fst EXCHANGE_RATES)
                 /\ path_exists fs (partition_path data_dir c) = true)).
  { intros c. destruct (path_exists fs (all_path data_dir)).
    - rewrite in_app_iff, Hkeys. simpl. split.
      + intros [H | [<- | []]]; [now right | now left].
      + intros [[-> _] | H]; [right; now left | now left].
    - rewrite Hkeys. split; [now right |]. intros [[_ H] | H]; [discriminate | exact H]. }
  split; [apply py_sorted_ascending |]. split; [| split].
  - eapply Permutation_NoDup; [apply Permutation_sym, py_sorted_perm |].
    destruct (path_exists fs (all_path data_dir)); [| exact Hnd].
    apply NoDup_snoc; [exact Hnd |]. rewrite Hkeys. tauto.
  - intros c. rewrite <- Hmem. split; apply Permutation_in;
      [apply py_sorted_perm | apply Permutation_sym, py_sorted_perm].
  - intros Hin. apply (Permutation_in _ (py_sorted_perm _)) in Hin.
    apply Hmem in Hin. destruct Hin as [[H _] | [H _]];
      [discriminate H | contradiction].
Qed.

(** A disk with the complete file and the files of USD, AUD/NZD and OTHER:
    the last one is not on offer. *)
Example available_currencies_of_some_files :
  get_available_currencies some_files "." = ["ALL"; "AUD_NZD"; "USD"].
Proof. vm_compute. reflexivity. Qed.

(** The file [_load_data] reads for a name. *)
Definition dataset_path (data_dir currency : string) : string :=
  if String.eqb currency "ALL" then all_path data_dir
  else partition_path data_dir currency.

(** X12. [select_dataset] returns False and leaves the loaded dataset and
    its name as they were when nothing is on offer, when the answer is no
    number, is 0 or is out of range, and when the file cannot be read. It
    returns True only for an answer [k] between 1 and the number of
    datasets on offer, having loaded the frame read from the file of the
    [k]-th name of the sorted listing, under that name. *)
Theorem select_dataset_loads_a_listed_dataset (fs : files) (data_dir : string)
    (self : SalaryAnalytics) (choice : option Z) :
  let available := get_available_currencies fs data_dir in
  let '(ok, self') := select_dataset fs data_dir self choice in
  if ok
  then exists k currency df,
         choice = Some k
         /\ (1 <= k <= Z.of_nat (List.length available))%Z
         /\ nth_error available (Z.to_nat (k - 1)) = Some currency
         /\ In currency available
         /\ read_csv fs (dataset_path data_dir currency) = Some df
         /\ self' = Session (Some df) currency
  else self' = self.
Proof.
  cbv zeta. unfold select_dataset.
  destruct (get_available_currencies fs data_dir) as [|a l] eqn:Hav; [reflexivity |].
  destruct choice as [k|]; [| reflexivity].
  destruct (k =? 0)%Z; [reflexivity |].
  destruct ((1 <=? k) && (k <=? Z.of_nat (List.length (a :: l))))%Z eqn:Hrange;
    [| reflexivity].
  destruct (nth_error (a :: l) (Z.to_nat (k - 1))) as [currency|] eqn:Hnth;
    [| reflexivity].
  unfold _load_data. fold (dataset_path data_dir currency).
  destruct (read_csv fs (dataset_path data_dir currency)) as [df|] eqn:Hread;
    [| reflexivity].
  exists k, currency, df.
  apply andb_true_iff in Hrange. destruct Hrange as [H1 H2].
  apply Z.leb_le in H1, H2.
  repeat split; try assumption; try reflexivity.
  eapply nth_error_In, Hnth.
Qed.

(** ** Bonus values *)

Lemma column_values_spec (df : DataFrame) (col : string) (j : nat) :
  col_index col (columns df) = Some j ->
  column_values df col = Ok (series j df).
Proof.
  intros Hj. unfold column_values, series, row_get. rewrite Hj.
  induction (rows df) as [|r t IH]; simpl; [reflexivity |].
  now rewrite IH.
Qed.

Lemma map_result_map {A B C : Type} (f : B -> result C) (h : A -> B) (l : list A) :
  map_result f (map h l) = map_result (fun a => f (h a)) l.
Proof. induction l as [|a t IH]; simpl; [reflexivity | now rewrite IH]. Qed.

Lemma map_result_ok {A B : Type} (f : A -> result B) (l : list A) (bs : list B) :
  map_result f l = Ok bs -> Forall2 (fun a b => f a = Ok b) l bs.
Proof.
  revert bs. induction l as [|a t IH]; simpl; intros bs H.
  - injection H as <-. constructor.
  - destruct (f a) as [b|e] eqn:Ha; simpl in H; [| discriminate].
    destruct (map_result f t) as [bs'|e]; simpl in H; [| discriminate].
    injection H as <-. constructor; [exact Ha | now apply IH].
Qed.

Lemma map_result_raise {A B : Type} (f : A -> result B) (l : list A) (e : exn) :
  map_result f l = Raise e -> exists a, In a l /\ f a = Raise e.
Proof.
  induction l as [|a t IH]; simpl; intros H; [discriminate |].
  destruct (f a) as [b|e'] eqn:Ha; simpl in H.
  - destruct (map_result f t) as [bs'|e']; simpl in H; [discriminate |].
    injection H as ->. destruct (IH eq_refl) as [a' [Hin Hf]].
    exists a'. split; [now right | exact Hf].
  - injection H as ->. exists a. split; [now left | exact Ha].
Qed.

Lemma exchange_rate_raises (df : DataFrame) (r : row) (e : exn) :
  _get_exchange_rate df r = Raise e ->
  e = KeyError
  /\ (has_column CURRENCY_COL df = false \/ has_column COUNTRY_COL df = false).
Proof.
  unfold _get_exchange_rate, row_get, has_column.
  destruct (col_index CURRENCY_COL (columns df)) as [j|]; simpl.
  - destruct (is_text "OTHER" (get_cell j r)); [| discriminate].
    destruct (col_index COUNTRY_COL (columns df)) as [k|]; simpl; [discriminate |].
    intros H. injection H as <-. split; [reflexivity | now right].
  - intros H. injection H as <-. split; [reflexivity | now left].
Qed.

(** The rate of a record does not depend on its bonus cell. *)
Lemma exchange_rate_bonus_numeric (df : DataFrame) (j : nat) (r : row) :
  col_index BONUS_COL (columns df) = Some j ->
  _get_exchange_rate (map_column j bonus_numeric (fun _ => numeric) df)
    (update_nth j bonus_numeric r)
  = _get_exchange_rate df r.
Proof.
  intros Hj. unfold _get_exchange_rate, row_get.
  rewrite !col_index_map_column.
  destruct (col_index CURRENCY_COL (columns df)) as [k|] eqn:Hk; [| reflexivity].
  simpl.
  assert (Hjk : j <> k).
  { intros ->. assert (H : BONUS_COL = CURRENCY_COL)
      by (eapply col_index_inj; [exact Hj | exact Hk]).
    vm_compute in H. discriminate H. }
  rewrite (get_cell_update_other bonus_numeric r Hjk).
  destruct (is_text "OTHER" (get_cell k r)); [| reflexivity].
  destruct (col_index COUNTRY_COL (columns df)) as [m|] eqn:Hm; [| reflexivity].
  simpl.
  assert (Hjm : j <> m).
  { intros ->. assert (H : BONUS_COL = COUNTRY_COL)
      by (eapply col_index_inj; [exact Hj | exact Hm]).
    vm_compute in H. discriminate H. }
  now rewrite (get_cell_update_other bonus_numeric r Hjm).
Qed.

Lemma bonus_numeric_value (c : cell) :
  exists b,
    bonus_numeric c = Num b
    /\ is_nan b = false
    /\ (isna c = true -> b = 0%float)
    /\ (forall y, c = Num y -> is_nan y = false -> b = y)
    /\ (forall s, c = Str s ->
        b = if is_nan (parse_float s) then 0%float else parse_float s).
Proof.
  unfold bonus_numeric, fillna.
  destruct c as [y|s]; simpl.
  - destruct (is_nan y) eqn:E.
    + exists 0%float. repeat split; try reflexivity; try discriminate.
      intros z Hz. injection Hz as <-. congruence.
    + exists y. repeat split; try assumption; try discriminate.
      intros z Hz _. now injection Hz.
  - destruct (is_nan (parse_float s)) eqn:E.
    + exists 0%float. repeat split; try reflexivity; try discriminate.
      intros t Ht. injection Ht as <-. now rewrite E.
    + exists (parse_float s). repeat split; try assumption; try discriminate.
      intros t Ht. injection Ht as <-. now rewrite E.
Qed.

(** X13. The bonus report works on one number per record, none of them
    NaN before conversion: a missing bonus and a bonus text that is no
    number count as 0, a number counts as itself. A dataset of one currency
    is reported as it is; the ALL dataset has each bonus multiplied by the
    rate of its record. Unlike the salary reports, the bonus report never
    raises on a text: it raises only [KeyError], and only for the ALL
    dataset without a country column. *)
Theorem bonus_report_counts_every_record (self : SalaryAnalytics)
    (df : DataFrame) (j : nat) :
  current_df self = Some df ->
  col_index BONUS_COL (columns df) = Some j ->
  Forall (fun r => List.length r = List.length (columns df)) (rows df) ->
  exists res,
    bonus_analysis self = Some res
    /\ match res with
       | Ok rep =>
           if converts_to_usd self df
           then Forall2 (fun r c =>
                           exists b rate,
                             bonus_numeric (get_cell j r) = Num b
                             /\ is_nan b = false
                             /\ _get_exchange_rate df r = Ok rate
                             /\ c = Num (b * rate)%float)
                  (rows df) (values rep)
           else Forall2 (fun r c =>
                           exists b,
                             c = Num b
                             /\ is_nan b = false
                             /\ bonus_numeric (get_cell j r) = Num b
                             /\ (isna (get_cell j r) = true -> b = 0%float)
                             /\ (forall y, get_cell j r = Num y ->
                                           is_nan y = false -> b = y))
                  (rows df) (values rep)
       | Raise e =>
           e = KeyError
           /\ converts_to_usd self df = true
           /\ has_column COUNTRY_COL df = false
       end.
Proof.
  intros Hdf Hj Hwide.
  assert (Hr : forall r, In r (rows df) -> (j < List.length r)%nat).
  { intros r Hin. rewrite Forall_forall in Hwide. rewrite (Hwide r Hin).
    eapply col_index_in_range, Hj. }
  unfold bonus_analysis. rewrite Hdf. unfold has_column at 1. rewrite Hj. simpl.
  eexists. split; [reflexivity |].
  set (df_num := map_column j bonus_numeric (fun _ => numeric) df).
  destruct (converts_to_usd self df) eqn:Hconv.
  - assert (Hrow : forall r, In r (rows df) ->
               (v <- row_get df_num BONUS_COL (update_nth j bonus_numeric r) ;;
                rate <- _get_exchange_rate df_num (update_nth j bonus_numeric r) ;;
                times_rate v rate)
               = match _get_exchange_rate df r with
                 | Ok rate =>
                     match bonus_numeric (get_cell j r) with
                     | Num b => Ok (Num (b * rate)%float)
                     | Str _ => Raise TypeError
                     end
                 | Raise e => Raise e
                 end).
    { intros r Hin. unfold row_get, df_num. rewrite col_index_map_column, Hj.
      simpl. rewrite (exchange_rate_bonus_numeric df r Hj).
      rewrite (get_cell_update_same bonus_numeric r (Hr r Hin)).
      destruct (bonus_numeric_value (get_cell j r)) as [b [-> _]].
      destruct (_get_exchange_rate df r); reflexivity. }
    unfold to_usd. change (rows df_num) with (map (update_nth j bonus_numeric) (rows df)).
    rewrite map_result_map.
    match goal with
    | |- context [map_result ?f (rows df)] =>
        destruct (map_result f (rows df)) as [vs | e] eqn:Hvs; simpl
    end.
    + apply map_result_ok in Hvs.
      clear Hwide. revert Hr Hrow. induction Hvs as [|r c t vs Hc Ht IH];
        intros Hr Hrow; constructor.
      * rewrite (Hrow r (or_introl eq_refl)) in Hc.
        destruct (bonus_numeric_value (get_cell j r)) as [b [Hb [Hnan _]]].
        rewrite Hb in Hc.
        destruct (_get_exchange_rate df r) as [rate|e]; [| discriminate].
        injection Hc as <-. exists b, rate. repeat split; assumption || reflexivity.
      * apply IH; intros r' Hin; [apply Hr | apply Hrow]; now right.
    + apply map_result_raise in Hvs. destruct Hvs as [r [Hin Hraise]].
      rewrite (Hrow r Hin) in Hraise.
      destruct (bonus_numeric_value (get_cell j r)) as [b [Hb _]].
      rewrite Hb in Hraise.
      destruct (_get_exchange_rate df r) as [rate|e'] eqn:Hrate; [discriminate |].
      injection Hraise as ->.
      destruct (exchange_rate_raises _ _ Hrate) as [-> [Hcur | Hcountry]].
      * unfold converts_to_usd in Hconv. rewrite Hcur, andb_false_r in Hconv.
        discriminate.
      * repeat split; assumption || reflexivity.
  - rewrite (@column_values_spec df_num BONUS_COL j)
      by (unfold df_num; now rewrite col_index_map_column).
    simpl. unfold series.
    change (rows df_num) with (map (update_nth j bonus_numeric) (rows df)).
    rewrite map_map. clear Hwide.
    induction (rows df) as [|r t IH]; simpl; constructor.
    + rewrite (get_cell_update_same bonus_numeric r (Hr r (or_introl eq_refl))).
      destruct (bonus_numeric_value (get_cell j r)) as [b [Hb [Hnan [H0 [Hy _]]]]].
      exists b. repeat split; assumption.
    + apply IH. intros r' Hin. apply Hr. now right.
Qed.

Lemma bonus_report_counts_every_record_witness :
  current_df gbp_session = Some gbp_partition
  /\ exists res,
       bonus_analysis gbp_session = Some res
       /\ match res with
          | Ok rep =>
              if converts_to_usd gbp_session gbp_partition
              then Forall2 (fun r c =>
                              exists b rate,
                                bonus_numeric (get_cell 2 r) = Num b
                                /\ is_nan b = false
                                /\ _get_exchange_rate gbp_partition r = Ok rate
                                /\ c = Num (b * rate)%float)
                     (rows gbp_partition) (values rep)
              else Forall2 (fun r c =>
                              exists b,
                                c = Num b
                                /\ is_nan b = false
                                /\ bonus_numeric (get_cell 2 r) = Num b
                                /\ (isna (get_cell 2 r) = true -> b = 0%float)
                                /\ (forall y, get_cell 2 r = Num y ->
                                              is_nan y = false -> b = y))
                     (rows gbp_partition) (values rep)
          | Raise e =>
              e = KeyError
              /\ converts_to_usd gbp_session gbp_partition = true
              /\ has_column COUNTRY_COL gbp_partition = false
          end.
Proof.
  split; [reflexivity |].
  apply (@bonus_report_counts_every_record gbp_session gbp_partition 2).
  - reflexivity.
  - vm_compute. reflexivity.
  - repeat constructor.
Defined.

(** ** The files written and the files looked for *)

Lemma append_cancel_l (a x y : string) : a ++ x = a ++ y -> x = y.
Proof.
  induction a as [|c t IH]; simpl; intros H; [exact H |].
  injection H as H. now apply IH.
Qed.

Lemma append_cancel_r (x y s : string) :
  String.length x = String.length y -> x ++ s = y ++ s -> x = y.
Proof.
  revert y. induction x as [|c t IH]; intros [|d u]; simpl; intros Hl H;
    try discriminate; [reflexivity |].
  injection H as -> H. f_equal. apply IH; [now injection Hl | exact H].
Qed.

Lemma os_path_join_inj (a x y : string) :
  starts_with_slash x = false -> starts_with_slash y = false ->
  os_path_join a x = os_path_join a y -> x = y.
Proof.
  unfold os_path_join. intros -> ->.
  destruct (String.eqb a "" || ends_with_slash a); intros H.
  - now apply append_cancel_l in H.
  - apply append_cancel_l in H. now apply (append_cancel_l "/").
Qed.

Lemma rate_keys_have_no_separator (c : string) :
  In c (map fst EXCHANGE_RATES) ->
  occurs slash c = false /\ occurs backslash c = false.
Proof.
  assert (H : forallb (fun c => negb (occurs slash c) && negb (occurs backslash c))
                (map fst EXCHANGE_RATES) = true) by (vm_compute; reflexivity).
  rewrite forallb_forall in H. intros Hin. specialize (H c Hin).
  apply andb_true_iff in H. destruct H as [H1 H2].
  now rewrite negb_true_iff in H1, H2.
Qed.

(** X14. The analytics looks a partition up under the very name the
    cleanup script gave its file exactly when the currency holds no slash
    and no backslash. No key of the rate table holds one, so each dataset on
    offer is read from the file the script wrote for that currency text;
    the file of a currency with a separator is found under the currency's
    safe name. *)
Theorem partition_is_found_under_its_written_name (data_dir currency : string) :
  (partition_path data_dir currency = os_path_join data_dir (output_file currency)
   <-> occurs slash currency = false /\ occurs backslash currency = false)
  /\ (In currency (map fst EXCHANGE_RATES) ->
      partition_path data_dir currency = os_path_join data_dir (output_file currency))
  /\ partition_path data_dir (safe_currency_name currency)
     = os_path_join data_dir (output_file currency).
Proof.
  assert (Hfree : occurs slash currency = false /\ occurs backslash currency = false ->
                  partition_path data_dir currency
                  = os_path_join data_dir (output_file currency)).
  { intros [Hs Hb]. unfold partition_path, output_file, safe_currency_name.
    rewrite (replace_char_absent slash underscore currency Hs).
    now rewrite (replace_char_absent backslash underscore currency Hb). }
  split; [split; [| exact Hfree] | split; [| reflexivity]].
  - unfold partition_path, output_file.
    intros H. apply os_path_join_inj in H; try reflexivity.
    apply (append_cancel_l "cleaned_data_") in H.
    apply append_cancel_r in H.
    + unfold safe_currency_name in H.
      assert (Hb : occurs backslash currency = false)
        by (rewrite H; now apply occurs_replaced).
      rewrite (replace_char_absent backslash underscore) in H.
      * split; [| exact Hb]. rewrite H. now apply occurs_replaced.
      * apply occurs_replace_other; [reflexivity | exact Hb].
    + unfold safe_currency_name. now rewrite !replace_char_length.
  - intros Hin. apply Hfree. now apply rate_keys_have_no_separator.
Qed.

(** X15. In the ALL dataset a record whose currency text holds a slash or
    a backslash is converted at the rate 1.0: the rate table is looked up
    with the text of the record, and its keys hold no separator. So are a
    record without a currency and one whose currency is no key of the
    table and is not [OTHER]. *)
Theorem currency_off_the_table_converts_at_par (df : DataFrame) (r : row)
    (j : nat) :
  col_index CURRENCY_COL (columns df) = Some j ->
  match get_cell j r with
  | Str s => (occurs slash s || occurs backslash s = true
              \/ (s <> "OTHER" /\ ~ In s (map fst EXCHANGE_RATES)))
  | Num _ => True
  end ->
  _get_exchange_rate df r = Ok 1.0%float.
Proof.
  intros Hj Hcell. unfold _get_exchange_rate, row_get. rewrite Hj.
  cbn -[dict_get EXCHANGE_RATES].
  destruct (get_cell j r) as [x|s]; cbn -[dict_get EXCHANGE_RATES]; [reflexivity |].
  assert (Hkey : ~ In s (map fst EXCHANGE_RATES)).
  { destruct Hcell as [Hsep | [_ H]]; [| exact H].
    intros Hin. destruct (rate_keys_have_no_separator Hin) as [H1 H2].
    rewrite H1, H2 in Hsep. discriminate Hsep. }
  assert (Hother : String.eqb s "OTHER" = false).
  { apply String.eqb_neq. destruct Hcell as [Hsep | [H _]]; [| exact H].
    intros ->. vm_compute in Hsep. discriminate Hsep. }
  rewrite Hother. f_equal. apply dict_get_miss.
  destruct (existsb _ EXCHANGE_RATES) eqn:E; [| reflexivity].
  apply existsb_exists in E. destruct E as [kv [Hin Heq]].
  apply String.eqb_eq in Heq. exfalso. apply Hkey. rewrite Heq.
  now apply in_map.
Qed.

Lemma currency_off_the_table_converts_at_par_witness :
  _get_exchange_rate three_currencies [Str "AUD/NZD"; Num 20%float]
  = Ok 1.0%float.
Proof.
  apply (@currency_off_the_table_converts_at_par three_currencies
           [Str "AUD/NZD"; Num 20%float] 0).
  - vm_compute. reflexivity.
  - left. vm_compute. reflexivity.
Defined.
